(** * Verification of the u-blox GPS driver, [src/main/io/gps_ublox.c]

    A shallow embedding of the UBX frame decoder, the solution mapper, the
    command encoder with its acknowledgment tracking, the hardware-version
    decoder and the configuration sequencer, followed by the properties
    established about them.

    Conventions.  Fixed-width C integers are values of [Z] with the
    wrap-around written out.  The file-scope variables of the C file are the
    fields of one record, [ublox_t], threaded explicitly through every
    function.  The two byte buffers are finite maps from byte offsets to
    bytes: an offset that has never been written reads as zero, as in
    zero-initialised static storage.  What the driver takes from files
    that are not part of this development (functions of [io/gps.c], the
    types of the solution's fields, the memory behind the receive buffer)
    is a parameter, collected in the class [gps_private].  Multi-byte struct fields are read and
    written little-endian at their natural offsets (the layout of the ARM
    targets the firmware is built for). *)

From Stdlib Require Import ZArith List Lia Bool String Ascii.
From stdpp Require Import base option list gmap.

#[local] Open Scope Z_scope.

(** ** Fixed-width integers *)

Definition uint8_t (z : Z) : Z := z mod 2 ^ 8.
Definition uint16_t (z : Z) : Z := z mod 2 ^ 16.
Definition uint32_t (z : Z) : Z := z mod 2 ^ 32.
Definition int16_t (z : Z) : Z := (z + 2 ^ 15) mod 2 ^ 16 - 2 ^ 15.
Definition int32_t (z : Z) : Z := (z + 2 ^ 31) mod 2 ^ 32 - 2 ^ 31.

(** A value that fits in one byte. *)
Definition is_byte (z : Z) : Prop := 0 <= z < 256.

(** The integer types a declaration can give a variable.  The driver
    assigns to variables that are declared in other files; the assignment
    converts the value to the declared type, which wraps around when the
    type cannot represent it. *)
Inductive c_int_type :=
  | c_int8 | c_uint8 | c_int16 | c_uint16
  | c_int32 | c_uint32 | c_int64 | c_uint64.

Definition c_bits (t : c_int_type) : Z :=
  match t with
  | c_int8 | c_uint8 => 8
  | c_int16 | c_uint16 => 16
  | c_int32 | c_uint32 => 32
  | c_int64 | c_uint64 => 64
  end.

Definition c_signed (t : c_int_type) : bool :=
  match t with
  | c_int8 | c_int16 | c_int32 | c_int64 => true
  | c_uint8 | c_uint16 | c_uint32 | c_uint64 => false
  end.

(** The least and the greatest value of a type. *)
Definition c_min (t : c_int_type) : Z :=
  if c_signed t then - 2 ^ (c_bits t - 1) else 0.

Definition c_max (t : c_int_type) : Z :=
  if c_signed t then 2 ^ (c_bits t - 1) - 1 else 2 ^ c_bits t - 1.

(** The conversion of [z] to the type [t]: the value of the type that is
    congruent to [z] modulo [2 ^ c_bits t]. *)
Definition c_convert (t : c_int_type) (z : Z) : Z :=
  (z - c_min t) mod 2 ^ c_bits t + c_min t.

Definition c_representable (t : c_int_type) (z : Z) : Prop :=
  c_min t <= z <= c_max t.

(** ** Constants of the driver *)

Definition GPS_CFG_CMD_TIMEOUT_MS : Z := 200.
Definition GPS_VERSION_RETRY_TIMES : Z := 2.
Definition MAX_UBLOX_PAYLOAD_SIZE : Z := 256.
Definition UBLOX_BUFFER_SIZE : Z := MAX_UBLOX_PAYLOAD_SIZE.

Definition UBX_DYNMODEL_PEDESTRIAN : Z := 3.
Definition UBX_DYNMODEL_AIR_1G : Z := 6.
Definition UBX_DYNMODEL_AIR_4G : Z := 8.
Definition UBX_FIXMODE_AUTO : Z := 3.

Definition UBX_HW_VERSION_UNKNOWN : Z := 0.
Definition UBX_HW_VERSION_UBLOX5 : Z := 500.
Definition UBX_HW_VERSION_UBLOX6 : Z := 600.
Definition UBX_HW_VERSION_UBLOX7 : Z := 700.
Definition UBX_HW_VERSION_UBLOX8 : Z := 800.
Definition UBX_HW_VERSION_UBLOX9 : Z := 900.
Definition UBX_HW_VERSION_UBLOX10 : Z := 1000.

(** [ubx_protocol_bytes] *)
Definition PREAMBLE1 : Z := 0xB5.
Definition PREAMBLE2 : Z := 0x62.
Definition CLASS_NAV : Z := 0x01.
Definition CLASS_ACK : Z := 0x05.
Definition CLASS_CFG : Z := 0x06.
Definition CLASS_MON : Z := 0x0A.
Definition MSG_CLASS_UBX : Z := 0x01.
Definition MSG_CLASS_NMEA : Z := 0xF0.
Definition MSG_VER : Z := 0x04.
Definition MSG_ACK_NACK : Z := 0x00.
Definition MSG_ACK_ACK : Z := 0x01.
Definition MSG_NMEA_GGA : Z := 0x0.
Definition MSG_NMEA_GLL : Z := 0x1.
Definition MSG_NMEA_GSA : Z := 0x2.
Definition MSG_NMEA_GSV : Z := 0x3.
Definition MSG_NMEA_RMC : Z := 0x4.
Definition MSG_NMEA_VGS : Z := 0x5.
Definition MSG_POSLLH : Z := 0x2.
Definition MSG_STATUS : Z := 0x3.
Definition MSG_SOL : Z := 0x6.
Definition MSG_PVT : Z := 0x7.
Definition MSG_VELNED : Z := 0x12.
Definition MSG_TIMEUTC : Z := 0x21.
Definition MSG_SVINFO : Z := 0x30.
Definition MSG_NAV_SAT : Z := 0x35.
Definition MSG_NAV_SIG : Z := 0x35.
Definition MSG_CFG_PRT : Z := 0x00.
Definition MSG_CFG_RATE : Z := 0x08.
Definition MSG_CFG_SET_RATE : Z := 0x01.
Definition MSG_CFG_NAV_SETTINGS : Z := 0x24.
Definition MSG_CFG_SBAS : Z := 0x16.
Definition MSG_CFG_GNSS : Z := 0x3e.

(** [ubs_nav_fix_type] and [ubx_nav_status_bits] *)
Definition FIX_NONE : Z := 0.
Definition FIX_DEAD_RECKONING : Z := 1.
Definition FIX_2D : Z := 2.
Definition FIX_3D : Z := 3.
Definition FIX_GPS_DEAD_RECKONING : Z := 4.
Definition FIX_TIME : Z := 5.
Definition NAV_STATUS_FIX_VALID : Z := 1.

Definition GNSSID_SBAS : Z := 1.
Definition GNSSID_GALILEO : Z := 2.

(** [ubx_ack_state] *)
Inductive ubx_ack_state : Set :=
  | UBX_ACK_WAITING
  | UBX_ACK_GOT_ACK
  | UBX_ACK_GOT_NAK.

(** ** Types declared in [io/gps.h]

    The header is not part of the verified file; the enumerations below list
    the enumerators the driver names. *)

Inductive gpsFixType_e : Set :=
  | GPS_NO_FIX
  | GPS_FIX_2D
  | GPS_FIX_3D.

Inductive sbasMode_e : Set :=
  | SBAS_AUTO
  | SBAS_EGNOS
  | SBAS_WAAS
  | SBAS_MSAS
  | SBAS_GAGAN
  | SBAS_NONE.

Inductive gpsDynModel_e : Set :=
  | GPS_DYNMODEL_PEDESTRIAN
  | GPS_DYNMODEL_AIR_1G
  | GPS_DYNMODEL_AIR_4G.

Inductive gpsProvider_e : Set :=
  | GPS_UBLOX
  | GPS_UBLOX7PLUS.

(** The part of [gpsState.gpsConfig] the driver reads. *)
Record gpsConfig_t := Build_gpsConfig {
  provider : gpsProvider_e;
  sbasMode : sbasMode_e;
  dynModel : gpsDynModel_e;
  ubloxUseGalileo : bool
}.

#[global] Instance ubx_ack_state_eq_dec : EqDecision ubx_ack_state.
Proof. solve_decision. Defined.
#[global] Instance gpsFixType_e_eq_dec : EqDecision gpsFixType_e.
Proof. solve_decision. Defined.
#[global] Instance sbasMode_e_eq_dec : EqDecision sbasMode_e.
Proof. solve_decision. Defined.
#[global] Instance gpsProvider_e_eq_dec : EqDecision gpsProvider_e.
Proof. solve_decision. Defined.

(** ** Byte buffers *)

(** [rd b i] is [b.bytes[i]]. *)
Definition rd (b : gmap Z Z) (i : Z) : Z := default 0 (b !! i).

(** [wr b i v] is the buffer after [b.bytes[i] = v]. *)
Definition wr (b : gmap Z Z) (i v : Z) : gmap Z Z := <[i := v]> b.

Definition rd_u16 (b : gmap Z Z) (i : Z) : Z :=
  Z.lor (rd b i) (Z.shiftl (rd b (i + 1)) 8).

Definition rd_u32 (b : gmap Z Z) (i : Z) : Z :=
  Z.lor (rd_u16 b i) (Z.shiftl (rd_u16 b (i + 2)) 16).

Definition rd_i16 (b : gmap Z Z) (i : Z) : Z := int16_t (rd_u16 b i).
Definition rd_i32 (b : gmap Z Z) (i : Z) : Z := int32_t (rd_u32 b i).

Definition wr_u16 (b : gmap Z Z) (i v : Z) : gmap Z Z :=
  wr (wr b i (uint8_t v)) (i + 1) (uint8_t (Z.shiftr v 8)).

Definition wr_u32 (b : gmap Z Z) (i v : Z) : gmap Z Z :=
  wr_u16 (wr_u16 b i (uint16_t v)) (i + 2) (uint16_t (Z.shiftr v 16)).

(** The [n] bytes of [b] starting at offset [i]. *)
Definition bytes_at (b : gmap Z Z) (i n : Z) : list Z := rd b <$> seqZ i n.

(** [store_bytes l i b] copies the list [l] into [b] from offset [i] on. *)
Fixpoint store_bytes (l : list Z) (i : Z) (b : gmap Z Z) : gmap Z Z :=
  match l with
  | [] => b
  | x :: l' => store_bytes l' (i + 1) (wr b i x)
  end.

(** ** Received payloads: the views of the [_buffer] union *)

(** [ubx_nav_posllh] *)
Definition posllh_longitude b := rd_i32 b 4.
Definition posllh_latitude b := rd_i32 b 8.
Definition posllh_altitude_msl b := rd_i32 b 16.
Definition posllh_horizontal_accuracy b := rd_u32 b 20.
Definition posllh_vertical_accuracy b := rd_u32 b 24.

(** [ubx_nav_status] *)
Definition status_fix_type b := rd b 4.
Definition status_fix_status b := rd b 5.

(** [ubx_nav_solution] *)
Definition solution_fix_type b := rd b 10.
Definition solution_fix_status b := rd b 11.
Definition solution_position_DOP b := rd_u16 b 44.
Definition solution_satellites b := rd b 47.

(** [ubx_nav_velned] *)
Definition velned_ned_north b := rd_i32 b 4.
Definition velned_ned_east b := rd_i32 b 8.
Definition velned_ned_down b := rd_i32 b 12.
Definition velned_speed_2d b := rd_u32 b 20.
Definition velned_heading_2d b := rd_i32 b 24.

(** [ubx_nav_timeutc] *)
Definition timeutc_nano b := rd_i32 b 8.
Definition timeutc_year b := rd_u16 b 12.
Definition timeutc_month b := rd b 14.
Definition timeutc_day b := rd b 15.
Definition timeutc_hour b := rd b 16.
Definition timeutc_min b := rd b 17.
Definition timeutc_sec b := rd b 18.
Definition timeutc_valid b := rd b 19.

(** [ubx_nav_pvt] *)
Definition pvt_year b := rd_u16 b 4.
Definition pvt_month b := rd b 6.
Definition pvt_day b := rd b 7.
Definition pvt_hour b := rd b 8.
Definition pvt_min b := rd b 9.
Definition pvt_sec b := rd b 10.
Definition pvt_valid b := rd b 11.
Definition pvt_nano b := rd_i32 b 16.
Definition pvt_fix_type b := rd b 20.
Definition pvt_fix_status b := rd b 21.
Definition pvt_satellites b := rd b 23.
Definition pvt_longitude b := rd_i32 b 24.
Definition pvt_latitude b := rd_i32 b 28.
Definition pvt_altitude_msl b := rd_i32 b 36.
Definition pvt_horizontal_accuracy b := rd_u32 b 40.
Definition pvt_vertical_accuracy b := rd_u32 b 44.
Definition pvt_ned_north b := rd_i32 b 48.
Definition pvt_ned_east b := rd_i32 b 52.
Definition pvt_ned_down b := rd_i32 b 56.
Definition pvt_speed_2d b := rd_i32 b 60.
Definition pvt_heading_2d b := rd_i32 b 64.
Definition pvt_position_DOP b := rd_u16 b 76.

(** [ubx_mon_ver]: [swVersion] is [char[30]] at offset 0, [hwVersion] is
    [char[10]] at offset 30. *)
Definition ver_swVersion b (i : Z) := rd b i.
Definition ver_hwVersion b : list Z := bytes_at b 30 10.

(** [ubx_ack_ack] *)
Definition ack_class b := rd b 0.
Definition ack_msg b := rd b 1.

(** ** The navigation solution [gpsSol] and the driver's variables

    [gpsSol] is declared in [io/gps.h], which is not part of this
    development.  A field below holds an integer.  The velocities, the
    ground speed, the ground course and the milliseconds are assigned 32-bit
    values: the mapper stores them converted to the type of the field, and
    that type is a parameter, see [gps_private].  The other fields are
    assigned a frame field of 8, 16 or 32 bits, a quotient of one, or the
    result of a constrain function, and are taken to represent it. *)

Record gpsSolutionData_t := Build_gpsSol {
  flags_validVelNE : bool;
  flags_validVelD : bool;
  flags_validEPE : bool;
  flags_validTime : bool;
  fixType : gpsFixType_e;
  numSat : Z;
  llh_lon : Z;
  llh_lat : Z;
  llh_alt : Z;
  velNED_X : Z;
  velNED_Y : Z;
  velNED_Z : Z;
  groundSpeed : Z;
  groundCourse : Z;
  eph : Z;
  epv : Z;
  hdop : Z;
  time_year : Z;
  time_month : Z;
  time_day : Z;
  time_hours : Z;
  time_minutes : Z;
  time_seconds : Z;
  time_millis : Z
}.

Definition with_flags_validVelNE (v : bool) (r : gpsSolutionData_t) : gpsSolutionData_t :=
  Build_gpsSol v (flags_validVelD r) (flags_validEPE r) (flags_validTime r)
    (fixType r) (numSat r) (llh_lon r) (llh_lat r) (llh_alt r) (velNED_X r)
    (velNED_Y r) (velNED_Z r) (groundSpeed r) (groundCourse r) (eph r) (epv
    r) (hdop r) (time_year r) (time_month r) (time_day r) (time_hours r)
    (time_minutes r) (time_seconds r) (time_millis r).
Definition with_flags_validVelD (v : bool) (r : gpsSolutionData_t) : gpsSolutionData_t :=
  Build_gpsSol (flags_validVelNE r) v (flags_validEPE r) (flags_validTime r)
    (fixType r) (numSat r) (llh_lon r) (llh_lat r) (llh_alt r) (velNED_X r)
    (velNED_Y r) (velNED_Z r) (groundSpeed r) (groundCourse r) (eph r) (epv
    r) (hdop r) (time_year r) (time_month r) (time_day r) (time_hours r)
    (time_minutes r) (time_seconds r) (time_millis r).
Definition with_flags_validEPE (v : bool) (r : gpsSolutionData_t) : gpsSolutionData_t :=
  Build_gpsSol (flags_validVelNE r) (flags_validVelD r) v (flags_validTime
    r) (fixType r) (numSat r) (llh_lon r) (llh_lat r) (llh_alt r) (velNED_X
    r) (velNED_Y r) (velNED_Z r) (groundSpeed r) (groundCourse r) (eph r)
    (epv r) (hdop r) (time_year r) (time_month r) (time_day r) (time_hours
    r) (time_minutes r) (time_seconds r) (time_millis r).
Definition with_flags_validTime (v : bool) (r : gpsSolutionData_t) : gpsSolutionData_t :=
  Build_gpsSol (flags_validVelNE r) (flags_validVelD r) (flags_validEPE r) v
    (fixType r) (numSat r) (llh_lon r) (llh_lat r) (llh_alt r) (velNED_X r)
    (velNED_Y r) (velNED_Z r) (groundSpeed r) (groundCourse r) (eph r) (epv
    r) (hdop r) (time_year r) (time_month r) (time_day r) (time_hours r)
    (time_minutes r) (time_seconds r) (time_millis r).
Definition with_fixType (v : gpsFixType_e) (r : gpsSolutionData_t) : gpsSolutionData_t :=
  Build_gpsSol (flags_validVelNE r) (flags_validVelD r) (flags_validEPE r)
    (flags_validTime r) v (numSat r) (llh_lon r) (llh_lat r) (llh_alt r)
    (velNED_X r) (velNED_Y r) (velNED_Z r) (groundSpeed r) (groundCourse r)
    (eph r) (epv r) (hdop r) (time_year r) (time_month r) (time_day r)
    (time_hours r) (time_minutes r) (time_seconds r) (time_millis r).
Definition with_numSat (v : Z) (r : gpsSolutionData_t) : gpsSolutionData_t :=
  Build_gpsSol (flags_validVelNE r) (flags_validVelD r) (flags_validEPE r)
    (flags_validTime r) (fixType r) v (llh_lon r) (llh_lat r) (llh_alt r)
    (velNED_X r) (velNED_Y r) (velNED_Z r) (groundSpeed r) (groundCourse r)
    (eph r) (epv r) (hdop r) (time_year r) (time_month r) (time_day r)
    (time_hours r) (time_minutes r) (time_seconds r) (time_millis r).
Definition with_llh_lon (v : Z) (r : gpsSolutionData_t) : gpsSolutionData_t :=
  Build_gpsSol (flags_validVelNE r) (flags_validVelD r) (flags_validEPE r)
    (flags_validTime r) (fixType r) (numSat r) v (llh_lat r) (llh_alt r)
    (velNED_X r) (velNED_Y r) (velNED_Z r) (groundSpeed r) (groundCourse r)
    (eph r) (epv r) (hdop r) (time_year r) (time_month r) (time_day r)
    (time_hours r) (time_minutes r) (time_seconds r) (time_millis r).
Definition with_llh_lat (v : Z) (r : gpsSolutionData_t) : gpsSolutionData_t :=
  Build_gpsSol (flags_validVelNE r) (flags_validVelD r) (flags_validEPE r)
    (flags_validTime r) (fixType r) (numSat r) (llh_lon r) v (llh_alt r)
    (velNED_X r) (velNED_Y r) (velNED_Z r) (groundSpeed r) (groundCourse r)
    (eph r) (epv r) (hdop r) (time_year r) (time_month r) (time_day r)
    (time_hours r) (time_minutes r) (time_seconds r) (time_millis r).
Definition with_llh_alt (v : Z) (r : gpsSolutionData_t) : gpsSolutionData_t :=
  Build_gpsSol (flags_validVelNE r) (flags_validVelD r) (flags_validEPE r)
    (flags_validTime r) (fixType r) (numSat r) (llh_lon r) (llh_lat r) v
    (velNED_X r) (velNED_Y r) (velNED_Z r) (groundSpeed r) (groundCourse r)
    (eph r) (epv r) (hdop r) (time_year r) (time_month r) (time_day r)
    (time_hours r) (time_minutes r) (time_seconds r) (time_millis r).
Definition with_velNED_X (v : Z) (r : gpsSolutionData_t) : gpsSolutionData_t :=
  Build_gpsSol (flags_validVelNE r) (flags_validVelD r) (flags_validEPE r)
    (flags_validTime r) (fixType r) (numSat r) (llh_lon r) (llh_lat r)
    (llh_alt r) v (velNED_Y r) (velNED_Z r) (groundSpeed r) (groundCourse r)
    (eph r) (epv r) (hdop r) (time_year r) (time_month r) (time_day r)
    (time_hours r) (time_minutes r) (time_seconds r) (time_millis r).
Definition with_velNED_Y (v : Z) (r : gpsSolutionData_t) : gpsSolutionData_t :=
  Build_gpsSol (flags_validVelNE r) (flags_validVelD r) (flags_validEPE r)
    (flags_validTime r) (fixType r) (numSat r) (llh_lon r) (llh_lat r)
    (llh_alt r) (velNED_X r) v (velNED_Z r) (groundSpeed r) (groundCourse r)
    (eph r) (epv r) (hdop r) (time_year r) (time_month r) (time_day r)
    (time_hours r) (time_minutes r) (time_seconds r) (time_millis r).
Definition with_velNED_Z (v : Z) (r : gpsSolutionData_t) : gpsSolutionData_t :=
  Build_gpsSol (flags_validVelNE r) (flags_validVelD r) (flags_validEPE r)
    (flags_validTime r) (fixType r) (numSat r) (llh_lon r) (llh_lat r)
    (llh_alt r) (velNED_X r) (velNED_Y r) v (groundSpeed r) (groundCourse r)
    (eph r) (epv r) (hdop r) (time_year r) (time_month r) (time_day r)
    (time_hours r) (time_minutes r) (time_seconds r) (time_millis r).
Definition with_groundSpeed (v : Z) (r : gpsSolutionData_t) : gpsSolutionData_t :=
  Build_gpsSol (flags_validVelNE r) (flags_validVelD r) (flags_validEPE r)
    (flags_validTime r) (fixType r) (numSat r) (llh_lon r) (llh_lat r)
    (llh_alt r) (velNED_X r) (velNED_Y r) (velNED_Z r) v (groundCourse r)
    (eph r) (epv r) (hdop r) (time_year r) (time_month r) (time_day r)
    (time_hours r) (time_minutes r) (time_seconds r) (time_millis r).
Definition with_groundCourse (v : Z) (r : gpsSolutionData_t) : gpsSolutionData_t :=
  Build_gpsSol (flags_validVelNE r) (flags_validVelD r) (flags_validEPE r)
    (flags_validTime r) (fixType r) (numSat r) (llh_lon r) (llh_lat r)
    (llh_alt r) (velNED_X r) (velNED_Y r) (velNED_Z r) (groundSpeed r) v
    (eph r) (epv r) (hdop r) (time_year r) (time_month r) (time_day r)
    (time_hours r) (time_minutes r) (time_seconds r) (time_millis r).
Definition with_eph (v : Z) (r : gpsSolutionData_t) : gpsSolutionData_t :=
  Build_gpsSol (flags_validVelNE r) (flags_validVelD r) (flags_validEPE r)
    (flags_validTime r) (fixType r) (numSat r) (llh_lon r) (llh_lat r)
    (llh_alt r) (velNED_X r) (velNED_Y r) (velNED_Z r) (groundSpeed r)
    (groundCourse r) v (epv r) (hdop r) (time_year r) (time_month r)
    (time_day r) (time_hours r) (time_minutes r) (time_seconds r)
    (time_millis r).
Definition with_epv (v : Z) (r : gpsSolutionData_t) : gpsSolutionData_t :=
  Build_gpsSol (flags_validVelNE r) (flags_validVelD r) (flags_validEPE r)
    (flags_validTime r) (fixType r) (numSat r) (llh_lon r) (llh_lat r)
    (llh_alt r) (velNED_X r) (velNED_Y r) (velNED_Z r) (groundSpeed r)
    (groundCourse r) (eph r) v (hdop r) (time_year r) (time_month r)
    (time_day r) (time_hours r) (time_minutes r) (time_seconds r)
    (time_millis r).
Definition with_hdop (v : Z) (r : gpsSolutionData_t) : gpsSolutionData_t :=
  Build_gpsSol (flags_validVelNE r) (flags_validVelD r) (flags_validEPE r)
    (flags_validTime r) (fixType r) (numSat r) (llh_lon r) (llh_lat r)
    (llh_alt r) (velNED_X r) (velNED_Y r) (velNED_Z r) (groundSpeed r)
    (groundCourse r) (eph r) (epv r) v (time_year r) (time_month r)
    (time_day r) (time_hours r) (time_minutes r) (time_seconds r)
    (time_millis r).
Definition with_time_year (v : Z) (r : gpsSolutionData_t) : gpsSolutionData_t :=
  Build_gpsSol (flags_validVelNE r) (flags_validVelD r) (flags_validEPE r)
    (flags_validTime r) (fixType r) (numSat r) (llh_lon r) (llh_lat r)
    (llh_alt r) (velNED_X r) (velNED_Y r) (velNED_Z r) (groundSpeed r)
    (groundCourse r) (eph r) (epv r) (hdop r) v (time_month r) (time_day r)
    (time_hours r) (time_minutes r) (time_seconds r) (time_millis r).
Definition with_time_month (v : Z) (r : gpsSolutionData_t) : gpsSolutionData_t :=
  Build_gpsSol (flags_validVelNE r) (flags_validVelD r) (flags_validEPE r)
    (flags_validTime r) (fixType r) (numSat r) (llh_lon r) (llh_lat r)
    (llh_alt r) (velNED_X r) (velNED_Y r) (velNED_Z r) (groundSpeed r)
    (groundCourse r) (eph r) (epv r) (hdop r) (time_year r) v (time_day r)
    (time_hours r) (time_minutes r) (time_seconds r) (time_millis r).
Definition with_time_day (v : Z) (r : gpsSolutionData_t) : gpsSolutionData_t :=
  Build_gpsSol (flags_validVelNE r) (flags_validVelD r) (flags_validEPE r)
    (flags_validTime r) (fixType r) (numSat r) (llh_lon r) (llh_lat r)
    (llh_alt r) (velNED_X r) (velNED_Y r) (velNED_Z r) (groundSpeed r)
    (groundCourse r) (eph r) (epv r) (hdop r) (time_year r) (time_month r) v
    (time_hours r) (time_minutes r) (time_seconds r) (time_millis r).
Definition with_time_hours (v : Z) (r : gpsSolutionData_t) : gpsSolutionData_t :=
  Build_gpsSol (flags_validVelNE r) (flags_validVelD r) (flags_validEPE r)
    (flags_validTime r) (fixType r) (numSat r) (llh_lon r) (llh_lat r)
    (llh_alt r) (velNED_X r) (velNED_Y r) (velNED_Z r) (groundSpeed r)
    (groundCourse r) (eph r) (epv r) (hdop r) (time_year r) (time_month r)
    (time_day r) v (time_minutes r) (time_seconds r) (time_millis r).
Definition with_time_minutes (v : Z) (r : gpsSolutionData_t) : gpsSolutionData_t :=
  Build_gpsSol (flags_validVelNE r) (flags_validVelD r) (flags_validEPE r)
    (flags_validTime r) (fixType r) (numSat r) (llh_lon r) (llh_lat r)
    (llh_alt r) (velNED_X r) (velNED_Y r) (velNED_Z r) (groundSpeed r)
    (groundCourse r) (eph r) (epv r) (hdop r) (time_year r) (time_month r)
    (time_day r) (time_hours r) v (time_seconds r) (time_millis r).
Definition with_time_seconds (v : Z) (r : gpsSolutionData_t) : gpsSolutionData_t :=
  Build_gpsSol (flags_validVelNE r) (flags_validVelD r) (flags_validEPE r)
    (flags_validTime r) (fixType r) (numSat r) (llh_lon r) (llh_lat r)
    (llh_alt r) (velNED_X r) (velNED_Y r) (velNED_Z r) (groundSpeed r)
    (groundCourse r) (eph r) (epv r) (hdop r) (time_year r) (time_month r)
    (time_day r) (time_hours r) (time_minutes r) v (time_millis r).
Definition with_time_millis (v : Z) (r : gpsSolutionData_t) : gpsSolutionData_t :=
  Build_gpsSol (flags_validVelNE r) (flags_validVelD r) (flags_validEPE r)
    (flags_validTime r) (fixType r) (numSat r) (llh_lon r) (llh_lat r)
    (llh_alt r) (velNED_X r) (velNED_Y r) (velNED_Z r) (groundSpeed r)
    (groundCourse r) (eph r) (epv r) (hdop r) (time_year r) (time_month r)
    (time_day r) (time_hours r) (time_minutes r) (time_seconds r) v.

(** The driver's variables: the file-scope statics of [gps_ublox.c], then
    what it shares with [io/gps.c]: the solution [gpsSol], the detected
    version [gpsState.hwVersion], the counters [gpsStats.errors] and
    [gpsStats.packetCount] (their widths are declared in [io/gps.h]; they are
    counted without wrap-around), and the bytes written to
    [gpsState.gpsPort], oldest first. *)
Record ublox_t := Build_ublox {
  _ck_a : Z;
  _ck_b : Z;
  _skip_packet : bool;
  _step : Z;
  _msg_id : Z;
  _payload_length : Z;
  _payload_counter : Z;
  next_fix_type : gpsFixType_e;
  _class : Z;
  _ack_state : ubx_ack_state;
  _ack_waiting_msg : Z;
  _new_position : bool;
  _new_speed : bool;
  capGalileo : bool;
  send_buffer : gmap Z Z;
  _buffer : gmap Z Z;
  gpsSol : gpsSolutionData_t;
  hwVersion : Z;
  errors : Z;
  packetCount : Z;
  gpsPort : list Z
}.

Definition set_ck_a (v : Z) (r : ublox_t) : ublox_t :=
  Build_ublox v (_ck_b r) (_skip_packet r) (_step r) (_msg_id r)
    (_payload_length r) (_payload_counter r) (next_fix_type r) (_class r)
    (_ack_state r) (_ack_waiting_msg r) (_new_position r) (_new_speed r)
    (capGalileo r) (send_buffer r) (_buffer r) (gpsSol r) (hwVersion r)
    (errors r) (packetCount r) (gpsPort r).
Definition set_ck_b (v : Z) (r : ublox_t) : ublox_t :=
  Build_ublox (_ck_a r) v (_skip_packet r) (_step r) (_msg_id r)
    (_payload_length r) (_payload_counter r) (next_fix_type r) (_class r)
    (_ack_state r) (_ack_waiting_msg r) (_new_position r) (_new_speed r)
    (capGalileo r) (send_buffer r) (_buffer r) (gpsSol r) (hwVersion r)
    (errors r) (packetCount r) (gpsPort r).
Definition set_skip_packet (v : bool) (r : ublox_t) : ublox_t :=
  Build_ublox (_ck_a r) (_ck_b r) v (_step r) (_msg_id r) (_payload_length
    r) (_payload_counter r) (next_fix_type r) (_class r) (_ack_state r)
    (_ack_waiting_msg r) (_new_position r) (_new_speed r) (capGalileo r)
    (send_buffer r) (_buffer r) (gpsSol r) (hwVersion r) (errors r)
    (packetCount r) (gpsPort r).
Definition set_step (v : Z) (r : ublox_t) : ublox_t :=
  Build_ublox (_ck_a r) (_ck_b r) (_skip_packet r) v (_msg_id r)
    (_payload_length r) (_payload_counter r) (next_fix_type r) (_class r)
    (_ack_state r) (_ack_waiting_msg r) (_new_position r) (_new_speed r)
    (capGalileo r) (send_buffer r) (_buffer r) (gpsSol r) (hwVersion r)
    (errors r) (packetCount r) (gpsPort r).
Definition set_msg_id (v : Z) (r : ublox_t) : ublox_t :=
  Build_ublox (_ck_a r) (_ck_b r) (_skip_packet r) (_step r) v
    (_payload_length r) (_payload_counter r) (next_fix_type r) (_class r)
    (_ack_state r) (_ack_waiting_msg r) (_new_position r) (_new_speed r)
    (capGalileo r) (send_buffer r) (_buffer r) (gpsSol r) (hwVersion r)
    (errors r) (packetCount r) (gpsPort r).
Definition set_payload_length (v : Z) (r : ublox_t) : ublox_t :=
  Build_ublox (_ck_a r) (_ck_b r) (_skip_packet r) (_step r) (_msg_id r) v
    (_payload_counter r) (next_fix_type r) (_class r) (_ack_state r)
    (_ack_waiting_msg r) (_new_position r) (_new_speed r) (capGalileo r)
    (send_buffer r) (_buffer r) (gpsSol r) (hwVersion r) (errors r)
    (packetCount r) (gpsPort r).
Definition set_payload_counter (v : Z) (r : ublox_t) : ublox_t :=
  Build_ublox (_ck_a r) (_ck_b r) (_skip_packet r) (_step r) (_msg_id r)
    (_payload_length r) v (next_fix_type r) (_class r) (_ack_state r)
    (_ack_waiting_msg r) (_new_position r) (_new_speed r) (capGalileo r)
    (send_buffer r) (_buffer r) (gpsSol r) (hwVersion r) (errors r)
    (packetCount r) (gpsPort r).
Definition set_next_fix_type (v : gpsFixType_e) (r : ublox_t) : ublox_t :=
  Build_ublox (_ck_a r) (_ck_b r) (_skip_packet r) (_step r) (_msg_id r)
    (_payload_length r) (_payload_counter r) v (_class r) (_ack_state r)
    (_ack_waiting_msg r) (_new_position r) (_new_speed r) (capGalileo r)
    (send_buffer r) (_buffer r) (gpsSol r) (hwVersion r) (errors r)
    (packetCount r) (gpsPort r).
Definition set_class (v : Z) (r : ublox_t) : ublox_t :=
  Build_ublox (_ck_a r) (_ck_b r) (_skip_packet r) (_step r) (_msg_id r)
    (_payload_length r) (_payload_counter r) (next_fix_type r) v (_ack_state
    r) (_ack_waiting_msg r) (_new_position r) (_new_speed r) (capGalileo r)
    (send_buffer r) (_buffer r) (gpsSol r) (hwVersion r) (errors r)
    (packetCount r) (gpsPort r).
Definition set_ack_state (v : ubx_ack_state) (r : ublox_t) : ublox_t :=
  Build_ublox (_ck_a r) (_ck_b r) (_skip_packet r) (_step r) (_msg_id r)
    (_payload_length r) (_payload_counter r) (next_fix_type r) (_class r) v
    (_ack_waiting_msg r) (_new_position r) (_new_speed r) (capGalileo r)
    (send_buffer r) (_buffer r) (gpsSol r) (hwVersion r) (errors r)
    (packetCount r) (gpsPort r).
Definition set_ack_waiting_msg (v : Z) (r : ublox_t) : ublox_t :=
  Build_ublox (_ck_a r) (_ck_b r) (_skip_packet r) (_step r) (_msg_id r)
    (_payload_length r) (_payload_counter r) (next_fix_type r) (_class r)
    (_ack_state r) v (_new_position r) (_new_speed r) (capGalileo r)
    (send_buffer r) (_buffer r) (gpsSol r) (hwVersion r) (errors r)
    (packetCount r) (gpsPort r).
Definition set_new_position (v : bool) (r : ublox_t) : ublox_t :=
  Build_ublox (_ck_a r) (_ck_b r) (_skip_packet r) (_step r) (_msg_id r)
    (_payload_length r) (_payload_counter r) (next_fix_type r) (_class r)
    (_ack_state r) (_ack_waiting_msg r) v (_new_speed r) (capGalileo r)
    (send_buffer r) (_buffer r) (gpsSol r) (hwVersion r) (errors r)
    (packetCount r) (gpsPort r).
Definition set_new_speed (v : bool) (r : ublox_t) : ublox_t :=
  Build_ublox (_ck_a r) (_ck_b r) (_skip_packet r) (_step r) (_msg_id r)
    (_payload_length r) (_payload_counter r) (next_fix_type r) (_class r)
    (_ack_state r) (_ack_waiting_msg r) (_new_position r) v (capGalileo r)
    (send_buffer r) (_buffer r) (gpsSol r) (hwVersion r) (errors r)
    (packetCount r) (gpsPort r).
Definition set_capGalileo (v : bool) (r : ublox_t) : ublox_t :=
  Build_ublox (_ck_a r) (_ck_b r) (_skip_packet r) (_step r) (_msg_id r)
    (_payload_length r) (_payload_counter r) (next_fix_type r) (_class r)
    (_ack_state r) (_ack_waiting_msg r) (_new_position r) (_new_speed r) v
    (send_buffer r) (_buffer r) (gpsSol r) (hwVersion r) (errors r)
    (packetCount r) (gpsPort r).
Definition set_send_buffer (v : gmap Z Z) (r : ublox_t) : ublox_t :=
  Build_ublox (_ck_a r) (_ck_b r) (_skip_packet r) (_step r) (_msg_id r)
    (_payload_length r) (_payload_counter r) (next_fix_type r) (_class r)
    (_ack_state r) (_ack_waiting_msg r) (_new_position r) (_new_speed r)
    (capGalileo r) v (_buffer r) (gpsSol r) (hwVersion r) (errors r)
    (packetCount r) (gpsPort r).
Definition set_buffer (v : gmap Z Z) (r : ublox_t) : ublox_t :=
  Build_ublox (_ck_a r) (_ck_b r) (_skip_packet r) (_step r) (_msg_id r)
    (_payload_length r) (_payload_counter r) (next_fix_type r) (_class r)
    (_ack_state r) (_ack_waiting_msg r) (_new_position r) (_new_speed r)
    (capGalileo r) (send_buffer r) v (gpsSol r) (hwVersion r) (errors r)
    (packetCount r) (gpsPort r).
Definition set_gpsSol (v : gpsSolutionData_t) (r : ublox_t) : ublox_t :=
  Build_ublox (_ck_a r) (_ck_b r) (_skip_packet r) (_step r) (_msg_id r)
    (_payload_length r) (_payload_counter r) (next_fix_type r) (_class r)
    (_ack_state r) (_ack_waiting_msg r) (_new_position r) (_new_speed r)
    (capGalileo r) (send_buffer r) (_buffer r) v (hwVersion r) (errors r)
    (packetCount r) (gpsPort r).
Definition set_hwVersion (v : Z) (r : ublox_t) : ublox_t :=
  Build_ublox (_ck_a r) (_ck_b r) (_skip_packet r) (_step r) (_msg_id r)
    (_payload_length r) (_payload_counter r) (next_fix_type r) (_class r)
    (_ack_state r) (_ack_waiting_msg r) (_new_position r) (_new_speed r)
    (capGalileo r) (send_buffer r) (_buffer r) (gpsSol r) v (errors r)
    (packetCount r) (gpsPort r).
Definition set_errors (v : Z) (r : ublox_t) : ublox_t :=
  Build_ublox (_ck_a r) (_ck_b r) (_skip_packet r) (_step r) (_msg_id r)
    (_payload_length r) (_payload_counter r) (next_fix_type r) (_class r)
    (_ack_state r) (_ack_waiting_msg r) (_new_position r) (_new_speed r)
    (capGalileo r) (send_buffer r) (_buffer r) (gpsSol r) (hwVersion r) v
    (packetCount r) (gpsPort r).
Definition set_packetCount (v : Z) (r : ublox_t) : ublox_t :=
  Build_ublox (_ck_a r) (_ck_b r) (_skip_packet r) (_step r) (_msg_id r)
    (_payload_length r) (_payload_counter r) (next_fix_type r) (_class r)
    (_ack_state r) (_ack_waiting_msg r) (_new_position r) (_new_speed r)
    (capGalileo r) (send_buffer r) (_buffer r) (gpsSol r) (hwVersion r)
    (errors r) v (gpsPort r).
Definition set_gpsPort (v : list Z) (r : ublox_t) : ublox_t :=
  Build_ublox (_ck_a r) (_ck_b r) (_skip_packet r) (_step r) (_msg_id r)
    (_payload_length r) (_payload_counter r) (next_fix_type r) (_class r)
    (_ack_state r) (_ack_waiting_msg r) (_new_position r) (_new_speed r)
    (capGalileo r) (send_buffer r) (_buffer r) (gpsSol r) (hwVersion r)
    (errors r) (packetCount r) v.

(** [gpsSol.field = v] *)
Definition set_gpsSol_flags_validVelNE (v : bool) (s : ublox_t) : ublox_t :=
  set_gpsSol (with_flags_validVelNE v (gpsSol s)) s.
Definition set_gpsSol_flags_validVelD (v : bool) (s : ublox_t) : ublox_t :=
  set_gpsSol (with_flags_validVelD v (gpsSol s)) s.
Definition set_gpsSol_flags_validEPE (v : bool) (s : ublox_t) : ublox_t :=
  set_gpsSol (with_flags_validEPE v (gpsSol s)) s.
Definition set_gpsSol_flags_validTime (v : bool) (s : ublox_t) : ublox_t :=
  set_gpsSol (with_flags_validTime v (gpsSol s)) s.
Definition set_gpsSol_fixType (v : gpsFixType_e) (s : ublox_t) : ublox_t :=
  set_gpsSol (with_fixType v (gpsSol s)) s.
Definition set_gpsSol_numSat (v : Z) (s : ublox_t) : ublox_t :=
  set_gpsSol (with_numSat v (gpsSol s)) s.
Definition set_gpsSol_llh_lon (v : Z) (s : ublox_t) : ublox_t :=
  set_gpsSol (with_llh_lon v (gpsSol s)) s.
Definition set_gpsSol_llh_lat (v : Z) (s : ublox_t) : ublox_t :=
  set_gpsSol (with_llh_lat v (gpsSol s)) s.
Definition set_gpsSol_llh_alt (v : Z) (s : ublox_t) : ublox_t :=
  set_gpsSol (with_llh_alt v (gpsSol s)) s.
Definition set_gpsSol_velNED_X (v : Z) (s : ublox_t) : ublox_t :=
  set_gpsSol (with_velNED_X v (gpsSol s)) s.
Definition set_gpsSol_velNED_Y (v : Z) (s : ublox_t) : ublox_t :=
  set_gpsSol (with_velNED_Y v (gpsSol s)) s.
Definition set_gpsSol_velNED_Z (v : Z) (s : ublox_t) : ublox_t :=
  set_gpsSol (with_velNED_Z v (gpsSol s)) s.
Definition set_gpsSol_groundSpeed (v : Z) (s : ublox_t) : ublox_t :=
  set_gpsSol (with_groundSpeed v (gpsSol s)) s.
Definition set_gpsSol_groundCourse (v : Z) (s : ublox_t) : ublox_t :=
  set_gpsSol (with_groundCourse v (gpsSol s)) s.
Definition set_gpsSol_eph (v : Z) (s : ublox_t) : ublox_t :=
  set_gpsSol (with_eph v (gpsSol s)) s.
Definition set_gpsSol_epv (v : Z) (s : ublox_t) : ublox_t :=
  set_gpsSol (with_epv v (gpsSol s)) s.
Definition set_gpsSol_hdop (v : Z) (s : ublox_t) : ublox_t :=
  set_gpsSol (with_hdop v (gpsSol s)) s.
Definition set_gpsSol_time_year (v : Z) (s : ublox_t) : ublox_t :=
  set_gpsSol (with_time_year v (gpsSol s)) s.
Definition set_gpsSol_time_month (v : Z) (s : ublox_t) : ublox_t :=
  set_gpsSol (with_time_month v (gpsSol s)) s.
Definition set_gpsSol_time_day (v : Z) (s : ublox_t) : ublox_t :=
  set_gpsSol (with_time_day v (gpsSol s)) s.
Definition set_gpsSol_time_hours (v : Z) (s : ublox_t) : ublox_t :=
  set_gpsSol (with_time_hours v (gpsSol s)) s.
Definition set_gpsSol_time_minutes (v : Z) (s : ublox_t) : ublox_t :=
  set_gpsSol (with_time_minutes v (gpsSol s)) s.
Definition set_gpsSol_time_seconds (v : Z) (s : ublox_t) : ublox_t :=
  set_gpsSol (with_time_seconds v (gpsSol s)) s.
Definition set_gpsSol_time_millis (v : Z) (s : ublox_t) : ublox_t :=
  set_gpsSol (with_time_millis v (gpsSol s)) s.

(** The variables at power-up: C zero-initialises static storage, and zero
    is [UBX_ACK_WAITING] and the first enumerator of the fix types.
    [gpsSol], [gpsState] and [gpsStats] belong to [io/gps.c]; the state they
    are in when the driver starts is a parameter. *)
Definition ublox_init (sol : gpsSolutionData_t) (hw errs pkts : Z) : ublox_t :=
  Build_ublox 0 0 false 0 0 0 0 GPS_NO_FIX 0 UBX_ACK_WAITING 0
              false false false ∅ ∅ sol hw errs pkts [].

(** ** Checksum engine *)

(** [_update_checksum(data, len, &ck_a, &ck_b)]: the byte range
    [data[0 .. len)] is the list [data]; the result is the pair of
    accumulators after the loop. *)
Fixpoint _update_checksum (data : list Z) (ck_a ck_b : Z) : Z * Z :=
  match data with
  | [] => (ck_a, ck_b)
  | d :: data' =>
      let ck_a := uint8_t (ck_a + d) in
      let ck_b := uint8_t (ck_b + ck_a) in
      _update_checksum data' ck_a ck_b
  end.

(** The contract of the checksum engine as the specification words it:
    for every byte in order, [a += byte; b += a], both modulo 256. *)
Definition checksum_step (ck : Z * Z) (byte : Z) : Z * Z :=
  let a := (fst ck + byte) mod 256 in
  let b := (snd ck + a) mod 256 in
  (a, b).

Definition checksum_spec (bytes : list Z) (ck : Z * Z) : Z * Z :=
  fold_left checksum_step bytes ck.

(** Sum of the bytes, and the sum weighted by the number of updates of [b]
    each byte takes part in. *)
Fixpoint byte_sum (data : list Z) : Z :=
  match data with
  | [] => 0
  | d :: data' => d + byte_sum data'
  end.

Fixpoint weighted_sum (data : list Z) : Z :=
  match data with
  | [] => 0
  | d :: data' => Z.of_nat (length data) * d + weighted_sum data'
  end.

(** ** C strings *)

(** The bytes of a string literal (without the terminating NUL). *)
Fixpoint c_str (s : string) : list Z :=
  match s with
  | EmptyString => []
  | String c s' => Z.of_nat (nat_of_ascii c) :: c_str s'
  end.

(** The string a [char] array holds: its bytes up to the first NUL. *)
Fixpoint c_string_of (buf : list Z) : list Z :=
  match buf with
  | [] => []
  | c :: buf' => if c =? 0 then [] else c :: c_string_of buf'
  end.

(** [strncmp] of the C library: compares at most [n] characters and stops
    after a NUL.  A list stands for the memory a pointer designates; past
    its end it reads as NUL. *)
Fixpoint strncmp (s1 s2 : list Z) (n : nat) : Z :=
  match n with
  | O => 0
  | S n' =>
      let c1 := hd 0 s1 in
      let c2 := hd 0 s2 in
      if c1 =? c2
      then if c1 =? 0 then 0 else strncmp (tl s1) (tl s2) n'
      else c1 - c2
  end.

Fixpoint starts_with (find s : list Z) : bool :=
  match find, s with
  | [], _ => true
  | _ :: _, [] => false
  | f :: find', c :: s' => (f =? c) && starts_with find' s'
  end.

Fixpoint find_in (find s : list Z) : bool :=
  starts_with find s ||
  match s with
  | [] => false
  | _ :: s' => find_in find s'
  end.

(** [strnstr(s, find, slen) != NULL]: [find] occurs in [s], where no more
    than [slen] characters are searched and none after a NUL. *)
Definition strnstr (s find : list Z) (slen : Z) : bool :=
  find_in find (c_string_of (take (Z.to_nat slen) s)).

(** ** Capability detector *)

Definition gpsDecodeHardwareVersion (szBuf : list Z) (nBufSize : Z) : Z :=
  let n := Z.to_nat nBufSize in
  (* ublox_5   hwVersion 00040005 *)
  if strncmp szBuf (c_str "00040005") n =? 0 then UBX_HW_VERSION_UBLOX5
  (* ublox_6   hwVersion 00040007 *)
  else if strncmp szBuf (c_str "00040007") n =? 0 then UBX_HW_VERSION_UBLOX6
  (* ublox_7   hwVersion 00070000 *)
  else if strncmp szBuf (c_str "00070000") n =? 0 then UBX_HW_VERSION_UBLOX7
  (* ublox_M8  hwVersion 00080000 *)
  else if strncmp szBuf (c_str "00080000") n =? 0 then UBX_HW_VERSION_UBLOX8
  (* ublox_M9  hwVersion 00190000 *)
  else if strncmp szBuf (c_str "00190000") n =? 0 then UBX_HW_VERSION_UBLOX9
  (* ublox_M10 hwVersion 000A0000 *)
  else if strncmp szBuf (c_str "000A0000") n =? 0 then UBX_HW_VERSION_UBLOX10
  else UBX_HW_VERSION_UNKNOWN.

(** The table of the specification: an exact match of the whole string. *)
Definition hardware_version_table (text : list Z) : Z :=
  if decide (text = c_str "00040005") then UBX_HW_VERSION_UBLOX5
  else if decide (text = c_str "00040007") then UBX_HW_VERSION_UBLOX6
  else if decide (text = c_str "00070000") then UBX_HW_VERSION_UBLOX7
  else if decide (text = c_str "00080000") then UBX_HW_VERSION_UBLOX8
  else if decide (text = c_str "00190000") then UBX_HW_VERSION_UBLOX9
  else if decide (text = c_str "000A0000") then UBX_HW_VERSION_UBLOX10
  else UBX_HW_VERSION_UNKNOWN.

(** The six version strings of the table. *)
Definition hardware_version_strings : list (list Z) :=
  [c_str "00040005"; c_str "00040007"; c_str "00070000";
   c_str "00080000"; c_str "00190000"; c_str "000A0000"].

(** ** Solution mapper helpers *)

Definition gpsMapFixType (fixValid : bool) (ubloxFixType : Z) : gpsFixType_e :=
  if fixValid && (ubloxFixType =? FIX_2D) then GPS_FIX_2D
  else if fixValid && (ubloxFixType =? FIX_3D) then GPS_FIX_3D
  else GPS_NO_FIX.

(** A C integer used as a condition. *)
Definition truthy (z : Z) : bool := negb (z =? 0).

Definition UBX_VALID_GPS_DATE (valid : Z) : Z := Z.land valid (Z.shiftl 1 0).
Definition UBX_VALID_GPS_TIME (valid : Z) : Z := Z.land valid (Z.shiftl 1 1).
Definition UBX_VALID_GPS_DATE_TIME (valid : Z) : bool :=
  truthy (UBX_VALID_GPS_DATE valid) && truthy (UBX_VALID_GPS_TIME valid).

(** ** Command encoder *)

(** Offsets in [send_buffer]: the packed [ubx_message] is a 6-byte header
    followed by the payload union. *)
Definition HDR_MSG_CLASS : Z := 2.
Definition HDR_MSG_ID : Z := 3.
Definition HDR_LENGTH : Z := 4.
Definition PAYLOAD : Z := 6.

Definition sendConfigMessageUBLOX (s : ublox_t) : ublox_t :=
  let sb := wr (send_buffer s) 0 PREAMBLE1 in
  let sb := wr sb 1 PREAMBLE2 in
  let length := rd_u16 sb HDR_LENGTH in
  let '(ck_a, ck_b) := _update_checksum (bytes_at sb 2 (uint8_t (length + 4))) 0 0 in
  let sb := wr sb (length + 6) ck_a in
  let sb := wr sb (length + 7) ck_b in
  let s := set_send_buffer sb s in
  (* serialWriteBuf(gpsState.gpsPort, send_buffer.bytes, length + 8) *)
  let s := set_gpsPort (gpsPort s ++ bytes_at sb 0 (length + 8)) s in
  (* Save state for ACK waiting *)
  let s := set_ack_waiting_msg (rd sb HDR_MSG_ID) s in
  set_ack_state UBX_ACK_WAITING s.

(** Writing the three header fields every command starts with. *)
Definition set_header (class id length : Z) (s : ublox_t) : ublox_t :=
  let sb := wr (send_buffer s) HDR_MSG_CLASS class in
  let sb := wr sb HDR_MSG_ID id in
  set_send_buffer (wr_u16 sb HDR_LENGTH length) s.

Definition pollVersion (s : ublox_t) : ublox_t :=
  sendConfigMessageUBLOX (set_header CLASS_MON MSG_VER 0 s).

Definition default_payload : list Z :=
  [0xFF; 0xFF; 0x03; 0x03; 0x00;
   0x00; 0x00; 0x00; 0x10; 0x27; 0x00; 0x00; 0x05; 0x00; 0xFA; 0x00;
   0xFA; 0x00; 0x64; 0x00; 0x2C; 0x01; 0x00; 0x3C; 0x00; 0x00; 0x00;
   0x00; 0xC8; 0x00; 0x00; 0x00; 0x00; 0x00; 0x00; 0x00].

(** Offsets in [ubx_gnss_element_t] and [ubx_gnss_msg_t]. *)
Definition GNSS_gnssId : Z := 0.
Definition GNSS_resTrkCh : Z := 1.
Definition GNSS_maxTrkCh : Z := 2.
Definition GNSS_enabled : Z := 4.
Definition GNSS_sigCfgMask : Z := 6.
Definition sizeof_ubx_gnss_element_t : Z := 8.
Definition sizeof_ubx_gnss_msg_t : Z := 4.

(** [&send_buffer.message.payload.gnss.config[k]] as an offset. *)
Definition gnss_config (k : Z) : Z :=
  PAYLOAD + sizeof_ubx_gnss_msg_t + sizeof_ubx_gnss_element_t * k.

Definition configureGNSS_SBAS (cfg : gpsConfig_t) (gnss_block : Z) (s : ublox_t)
  : ublox_t * Z :=
  let sb := wr (send_buffer s) (gnss_block + GNSS_gnssId) GNSSID_SBAS in
  let sb := wr sb (gnss_block + GNSS_maxTrkCh) 3 in
  let sb := wr sb (gnss_block + GNSS_sigCfgMask) 1 in
  let sb :=
    if decide (sbasMode cfg = SBAS_NONE)
    then wr (wr sb (gnss_block + GNSS_enabled) 0) (gnss_block + GNSS_resTrkCh) 0
    else wr (wr sb (gnss_block + GNSS_enabled) 1) (gnss_block + GNSS_resTrkCh) 1 in
  (set_send_buffer sb s, 1).

Definition configureGNSS_GALILEO (cfg : gpsConfig_t) (gnss_block : Z) (s : ublox_t)
  : ublox_t * Z :=
  if negb (capGalileo s) then (s, 0)
  else
    let sb := wr (send_buffer s) (gnss_block + GNSS_gnssId) GNSSID_GALILEO in
    let sb := wr sb (gnss_block + GNSS_maxTrkCh) 8 in
    let sb := wr sb (gnss_block + GNSS_sigCfgMask) 1 in
    let sb :=
      if ubloxUseGalileo cfg
      then wr (wr sb (gnss_block + GNSS_enabled) 1) (gnss_block + GNSS_resTrkCh) 4
      else wr (wr sb (gnss_block + GNSS_enabled) 0) (gnss_block + GNSS_resTrkCh) 0 in
    (set_send_buffer sb s, 1).

Definition configureGNSS (cfg : gpsConfig_t) (s : ublox_t) : ublox_t :=
  let blocksUsed := 0 in
  let sb := wr (send_buffer s) HDR_MSG_CLASS CLASS_CFG in
  let sb := wr sb HDR_MSG_ID MSG_CFG_GNSS in
  let sb := wr sb (PAYLOAD + 0) 0 in     (* msgVer *)
  let sb := wr sb (PAYLOAD + 1) 0 in     (* numTrkChHw: read only, so unset *)
  let sb := wr sb (PAYLOAD + 2) 32 in    (* numTrkChUse *)
  let s := set_send_buffer sb s in
  (* SBAS, always generated *)
  let '(s, n) := configureGNSS_SBAS cfg (gnss_config blocksUsed) s in
  let blocksUsed := blocksUsed + n in
  (* Galileo *)
  let '(s, n) := configureGNSS_GALILEO cfg (gnss_config blocksUsed) s in
  let blocksUsed := blocksUsed + n in
  let sb := wr (send_buffer s) (PAYLOAD + 3) (uint8_t blocksUsed) in
  let sb := wr_u16 sb HDR_LENGTH
              (sizeof_ubx_gnss_msg_t + sizeof_ubx_gnss_element_t * blocksUsed) in
  sendConfigMessageUBLOX (set_send_buffer sb s).

Definition configureNAV5 (dynModel fixMode : Z) (s : ublox_t) : ublox_t :=
  let s := set_header CLASS_CFG MSG_CFG_NAV_SETTINGS 0x24 s in
  let sb := store_bytes default_payload PAYLOAD (send_buffer s) in
  let sb := wr sb (PAYLOAD + 2) dynModel in
  let sb := wr sb (PAYLOAD + 3) fixMode in
  sendConfigMessageUBLOX (set_send_buffer sb s).

Definition configureMSG (class id rate : Z) (s : ublox_t) : ublox_t :=
  let s := set_header CLASS_CFG MSG_CFG_SET_RATE 3 s in
  let sb := wr (send_buffer s) (PAYLOAD + 0) class in
  let sb := wr sb (PAYLOAD + 1) id in
  let sb := wr sb (PAYLOAD + 2) rate in
  sendConfigMessageUBLOX (set_send_buffer sb s).

Definition configureRATE (measRate : Z) (s : ublox_t) : ublox_t :=
  let s := set_header CLASS_CFG MSG_CFG_RATE 6 s in
  let sb := wr_u16 (send_buffer s) (PAYLOAD + 0) measRate in
  let sb := wr_u16 sb (PAYLOAD + 2) 1 in
  let sb := wr_u16 sb (PAYLOAD + 4) 1 in
  sendConfigMessageUBLOX (set_send_buffer sb s).

Definition SBASMASK1_BASE : Z := 120.
Definition SBASMASK1_BITS (prn : Z) : Z := Z.shiftl 1 (prn - SBASMASK1_BASE).

Definition ubloxScanMode1 (m : sbasMode_e) : Z :=
  match m with
  | SBAS_AUTO => 0x00000000
  | SBAS_EGNOS =>
      Z.lor (Z.lor (SBASMASK1_BITS 123) (SBASMASK1_BITS 126)) (SBASMASK1_BITS 136)
  | SBAS_WAAS =>
      Z.lor (Z.lor (SBASMASK1_BITS 131) (SBASMASK1_BITS 133)) (SBASMASK1_BITS 138)
  | SBAS_MSAS => Z.lor (SBASMASK1_BITS 129) (SBASMASK1_BITS 137)
  | SBAS_GAGAN => Z.lor (SBASMASK1_BITS 127) (SBASMASK1_BITS 128)
  | SBAS_NONE => 0x00000000
  end.

Definition configureSBAS (cfg : gpsConfig_t) (s : ublox_t) : ublox_t :=
  let s := set_header CLASS_CFG MSG_CFG_SBAS 8 s in
  let sb := wr (send_buffer s) (PAYLOAD + 0)
              (if decide (sbasMode cfg = SBAS_NONE) then 2 else 3) in
  let sb := wr sb (PAYLOAD + 1) 3 in
  let sb := wr sb (PAYLOAD + 2) 3 in
  let sb := wr sb (PAYLOAD + 3) 0 in
  let sb := wr_u32 sb (PAYLOAD + 4) (ubloxScanMode1 (sbasMode cfg)) in
  sendConfigMessageUBLOX (set_send_buffer sb s).

(** ** What the driver takes from other files

    [gpsConstrainEPE] and [gpsConstrainHDOP] clamp an accuracy estimate to
    the range the solution can represent.  They are defined in [io/gps.c];
    the driver is verified for every implementation of them.

    [gpsSolutionData_t] is declared in [io/gps.h].  The mapper assigns
    32-bit frame fields, or quotients of them, to the three velocities, the
    ground speed, the ground course and the milliseconds; what is stored is
    the value converted to the type of the field, and these four types are
    parameters.  The other fields are taken to hold every value the mapper
    assigns to them: the coordinates and the altitude a signed 32-bit
    value, the year an unsigned 16-bit value, the satellite count and the
    other date and time fields a byte, the accuracies the result of the
    constrain functions.

    [_buffer.bytes] has [UBLOX_BUFFER_SIZE] elements.  The extension scan
    of the version reply hands [strnstr] a pointer into the array and a
    bound of 30 characters, whatever is left of the array from there: a
    read past the last element is outside the array, and C leaves its
    outcome undefined.  [after_buffer k] stands for what such a read
    yields [k] bytes past the end of the array; nothing is assumed about
    it. *)
Class gps_private := Build_gps_private {
  gpsConstrainEPE : Z -> Z;
  gpsConstrainHDOP : Z -> Z;
  velNED_t : c_int_type;
  groundSpeed_t : c_int_type;
  groundCourse_t : c_int_type;
  time_millis_t : c_int_type;
  after_buffer : Z -> Z
}.

(** One implementation, for running the model on concrete frames: the
    accuracies clamped to 9999, 16-bit velocities, speed and course, 16-bit
    unsigned milliseconds, and zeroes behind the receive buffer. *)
Definition gps_private_clamp : gps_private :=
  Build_gps_private (fun epe => if 9999 <? epe then 9999 else epe)
                    (fun hdop => if 9999 <? hdop then 9999 else hdop)
                    c_int16 c_int16 c_int16 c_uint16 (fun _ => 0).

(** The same with another memory behind the receive buffer. *)
Definition gps_private_behind (after : Z -> Z) : gps_private :=
  Build_gps_private (fun epe => if 9999 <? epe then 9999 else epe)
                    (fun hdop => if 9999 <? hdop then 9999 else hdop)
                    c_int16 c_int16 c_int16 c_uint16 after.

Section UBLOX.

Context `{gps_private}.

(** ** Capability detector: the extension scan *)

(** [_buffer.bytes[k]] as a read through a pointer into the array finds
    it: the element of the array, or what lies behind the array. *)
Definition buffer_byte (b : gmap Z Z) (k : Z) : Z :=
  if k <? UBLOX_BUFFER_SIZE then rd b k else after_buffer (k - UBLOX_BUFFER_SIZE).

(** The [n] bytes that [_buffer.bytes + j] designates. *)
Definition buffer_string (b : gmap Z Z) (j n : Z) : list Z :=
  buffer_byte b <$> seqZ j n.

(** The extension scan of the version reply:
    [for (j = 40; j < _payload_length; j += 30)] looking for ["GAL"] in the
    30 bytes at [_buffer.bytes + j].  The recursion is on a bound of the
    number of iterations; [j] grows by 30 each time, so [n] iterations
    remain enough whenever [len - j <= 30 * n]. *)
Fixpoint scan_extensions (n : nat) (b : gmap Z Z) (len j : Z) : bool :=
  match n with
  | O => false
  | S n' =>
      if j <? len
      then if strnstr (buffer_string b j 30) (c_str "GAL") 30 then true
           else scan_extensions n' b len (j + 30)
      else false
  end.

(** ** Solution mapper *)

(** The date and time fields of a frame, copied when its validity byte has
    both the date and the time bit. *)
Definition apply_time (valid year month day hour min sec nano : Z) (s : ublox_t)
  : ublox_t :=
  if UBX_VALID_GPS_DATE_TIME valid then
    let s := set_gpsSol_time_year year s in
    let s := set_gpsSol_time_month month s in
    let s := set_gpsSol_time_day day s in
    let s := set_gpsSol_time_hours hour s in
    let s := set_gpsSol_time_minutes min s in
    let s := set_gpsSol_time_seconds sec s in
    let s := set_gpsSol_time_millis
               (c_convert time_millis_t (nano ÷ (1000 * 1000))) s in
    set_gpsSol_flags_validTime true s
  else
    set_gpsSol_flags_validTime false s.

(** The [switch (_msg_id)] of [gpsParceFrameUBLOX]: [None] is the
    [default: return false] exit, [Some s'] the state at the [break].  The
    case labels are distinct, so testing them in the order of the source
    selects the same case.  Characters are compared as unsigned bytes, as
    on the ARM targets. *)
Definition gpsParceFrameUBLOX_switch (s : ublox_t) : option ublox_t :=
  let b := _buffer s in
  let id := _msg_id s in
  if id =? MSG_POSLLH then
    let s := set_gpsSol_llh_lon (posllh_longitude b) s in
    let s := set_gpsSol_llh_lat (posllh_latitude b) s in
    let s := set_gpsSol_llh_alt (posllh_altitude_msl b ÷ 10) s in  (* alt in cm *)
    let s := set_gpsSol_eph (gpsConstrainEPE (posllh_horizontal_accuracy b ÷ 10)) s in
    let s := set_gpsSol_epv (gpsConstrainEPE (posllh_vertical_accuracy b ÷ 10)) s in
    let s := set_gpsSol_flags_validEPE true s in
    let s := if decide (next_fix_type s = GPS_NO_FIX) then s
             else set_gpsSol_fixType (next_fix_type s) s in
    Some (set_new_position true s)
  else if id =? MSG_STATUS then
    let s := set_next_fix_type
               (gpsMapFixType (truthy (Z.land (status_fix_status b) NAV_STATUS_FIX_VALID))
                              (status_fix_type b)) s in
    let s := if decide (next_fix_type s = GPS_NO_FIX)
             then set_gpsSol_fixType GPS_NO_FIX s else s in
    Some s
  else if id =? MSG_SOL then
    let s := set_next_fix_type
               (gpsMapFixType (truthy (Z.land (solution_fix_status b) NAV_STATUS_FIX_VALID))
                              (solution_fix_type b)) s in
    let s := if decide (next_fix_type s = GPS_NO_FIX)
             then set_gpsSol_fixType GPS_NO_FIX s else s in
    let s := set_gpsSol_numSat (solution_satellites b) s in
    let s := set_gpsSol_hdop (gpsConstrainHDOP (solution_position_DOP b)) s in
    Some s
  else if id =? MSG_VELNED then
    let s := set_gpsSol_groundSpeed
               (c_convert groundSpeed_t (velned_speed_2d b)) s in  (* cm/s *)
    (* Heading 2D deg * 100000 rescaled to deg * 10 *)
    let s := set_gpsSol_groundCourse
               (c_convert groundCourse_t (uint16_t (velned_heading_2d b ÷ 10000))) s in
    let s := set_gpsSol_velNED_X (c_convert velNED_t (velned_ned_north b)) s in
    let s := set_gpsSol_velNED_Y (c_convert velNED_t (velned_ned_east b)) s in
    let s := set_gpsSol_velNED_Z (c_convert velNED_t (velned_ned_down b)) s in
    let s := set_gpsSol_flags_validVelNE true s in
    let s := set_gpsSol_flags_validVelD true s in
    Some (set_new_speed true s)
  else if id =? MSG_TIMEUTC then
    Some (apply_time (timeutc_valid b) (timeutc_year b) (timeutc_month b)
                     (timeutc_day b) (timeutc_hour b) (timeutc_min b)
                     (timeutc_sec b) (timeutc_nano b) s)
  else if id =? MSG_PVT then
    let s := set_next_fix_type
               (gpsMapFixType (truthy (Z.land (pvt_fix_status b) NAV_STATUS_FIX_VALID))
                              (pvt_fix_type b)) s in
    let s := set_gpsSol_fixType (next_fix_type s) s in
    let s := set_gpsSol_llh_lon (pvt_longitude b) s in
    let s := set_gpsSol_llh_lat (pvt_latitude b) s in
    let s := set_gpsSol_llh_alt (pvt_altitude_msl b ÷ 10) s in  (* alt in cm *)
    (* to cm/s *)
    let s := set_gpsSol_velNED_X (c_convert velNED_t (pvt_ned_north b ÷ 10)) s in
    let s := set_gpsSol_velNED_Y (c_convert velNED_t (pvt_ned_east b ÷ 10)) s in
    let s := set_gpsSol_velNED_Z (c_convert velNED_t (pvt_ned_down b ÷ 10)) s in
    let s := set_gpsSol_groundSpeed
               (c_convert groundSpeed_t (pvt_speed_2d b ÷ 10)) s in
    (* Heading 2D deg * 100000 rescaled to deg * 10 *)
    let s := set_gpsSol_groundCourse
               (c_convert groundCourse_t (uint16_t (pvt_heading_2d b ÷ 10000))) s in
    let s := set_gpsSol_numSat (pvt_satellites b) s in
    let s := set_gpsSol_eph (gpsConstrainEPE (pvt_horizontal_accuracy b ÷ 10)) s in
    let s := set_gpsSol_epv (gpsConstrainEPE (pvt_vertical_accuracy b ÷ 10)) s in
    let s := set_gpsSol_hdop (gpsConstrainHDOP (pvt_position_DOP b)) s in
    let s := set_gpsSol_flags_validVelNE true s in
    let s := set_gpsSol_flags_validVelD true s in
    let s := set_gpsSol_flags_validEPE true s in
    let s := apply_time (pvt_valid b) (pvt_year b) (pvt_month b) (pvt_day b)
                        (pvt_hour b) (pvt_min b) (pvt_sec b) (pvt_nano b) s in
    let s := set_new_position true s in
    Some (set_new_speed true s)
  else if id =? MSG_VER then
    if _class s =? CLASS_MON then
      let s := set_hwVersion (gpsDecodeHardwareVersion (ver_hwVersion b) 10) s in
      if (UBX_HW_VERSION_UBLOX8 <=? hwVersion s)
         && (Z.of_nat (nat_of_ascii "2") <? ver_swVersion b 9)
      then
        (* check extensions; after hw + sw vers; each is 30 bytes *)
        if scan_extensions (Z.to_nat (_payload_length s)) b (_payload_length s) 40
        then Some (set_capGalileo true s)
        else Some s
      else Some s
    else Some s
  else if id =? MSG_ACK_ACK then
    if bool_decide (_ack_state s = UBX_ACK_WAITING) && (ack_msg b =? _ack_waiting_msg s)
    then Some (set_ack_state UBX_ACK_GOT_ACK s)
    else Some s
  else if id =? MSG_ACK_NACK then
    if bool_decide (_ack_state s = UBX_ACK_WAITING) && (ack_msg b =? _ack_waiting_msg s)
    then Some (set_ack_state UBX_ACK_GOT_NAK s)
    else Some s
  else None.

Definition gpsParceFrameUBLOX (s : ublox_t) : ublox_t * bool :=
  match gpsParceFrameUBLOX_switch s with
  | None => (s, false)
  | Some s =>
      (* we only return true when we get new position and speed data
         this ensures we don't use stale data *)
      if _new_position s && _new_speed s
      then (set_new_speed false (set_new_position false s), true)
      else (s, false)
  end.

(** ** Frame decoder *)

(** [_ck_b += (_ck_a += data)] *)
Definition checksum_byte (data : Z) (s : ublox_t) : ublox_t :=
  let s := set_ck_a (uint8_t (_ck_a s + data)) s in
  set_ck_b (uint8_t (_ck_b s + _ck_a s)) s.

(** [_step++] *)
Definition step_incr (s : ublox_t) : ublox_t := set_step (uint8_t (_step s + 1)) s.

Definition gpsNewFrameUBLOX (data : Z) (s : ublox_t) : ublox_t * bool :=
  let parsed := false in
  match _step s with
  | 0 => (* Sync char 1 (0xB5) *)
      if PREAMBLE1 =? data
      then (step_incr (set_skip_packet false s), parsed)
      else (s, parsed)
  | 1 => (* Sync char 2 (0x62) *)
      if negb (PREAMBLE2 =? data)
      then (set_step 0 s, parsed)
      else (step_incr s, parsed)
  | 2 => (* Class *)
      let s := step_incr s in
      let s := set_class data s in
      let s := set_ck_a data s in
      let s := set_ck_b (_ck_a s) s in  (* reset the checksum accumulators *)
      (s, parsed)
  | 3 => (* Id *)
      let s := step_incr s in
      let s := checksum_byte data s in
      (set_msg_id data s, parsed)
  | 4 => (* Payload length (part 1) *)
      let s := step_incr s in
      let s := checksum_byte data s in
      (set_payload_length data s, parsed)  (* payload length low byte *)
  | 5 => (* Payload length (part 2) *)
      let s := step_incr s in
      let s := checksum_byte data s in
      let s := set_payload_length
                 (Z.lor (_payload_length s) (uint16_t (Z.shiftl data 8))) s in
      if MAX_UBLOX_PAYLOAD_SIZE <? _payload_length s then
        (* we can't receive the whole packet, just log the error and start
           searching for the next packet. *)
        let s := set_errors (errors s + 1) s in
        (set_step 0 s, parsed)
      else
        (* prepare to receive payload *)
        let s := set_payload_counter 0 s in
        let s := if _payload_length s =? 0 then set_step 7 s else s in
        (s, parsed)
  | 6 =>
      let s := checksum_byte data s in
      let s := if _payload_counter s <? MAX_UBLOX_PAYLOAD_SIZE
               then set_buffer (wr (_buffer s) (_payload_counter s) data) s
               else s in
      (* NOTE: check counter BEFORE increasing so that a payload_size of
         65535 is correctly handled. *)
      let s := if _payload_counter s =? _payload_length s - 1
               then step_incr s else s in
      (set_payload_counter (uint16_t (_payload_counter s + 1)) s, parsed)
  | 7 =>
      let s := step_incr s in
      if negb (_ck_a s =? data) then
        let s := set_skip_packet true s in  (* bad checksum *)
        let s := set_errors (errors s + 1) s in
        (set_step 0 s, parsed)
      else (s, parsed)
  | 8 =>
      let s := set_step 0 s in
      if negb (_ck_b s =? data) then
        (set_errors (errors s + 1) s, parsed)  (* bad checksum *)
      else
        let s := set_packetCount (packetCount s + 1) s in
        if _skip_packet s then (s, parsed)
        else
          let '(s, r) := gpsParceFrameUBLOX s in
          if r then (s, true) else (s, parsed)
  | _ => (s, parsed)
  end.

(** The declared length once its high byte [data] has arrived, in a state
    that holds the low byte. *)
Definition combined_length (s : ublox_t) (data : Z) : Z :=
  Z.lor (_payload_length s) (uint16_t (Z.shiftl data 8)).

(** The receiver thread hands every byte it reads to [gpsNewFrameUBLOX];
    [feed] does so for a list of bytes and collects the results. *)
Fixpoint feed (bytes : list Z) (s : ublox_t) : ublox_t * list bool :=
  match bytes with
  | [] => (s, [])
  | data :: bytes' =>
      let '(s, r) := gpsNewFrameUBLOX data s in
      let '(s, rs) := feed bytes' s in
      (s, r :: rs)
  end.

(** A frame as it travels on the wire. *)
Record ubx_frame := Build_ubx_frame {
  frame_class : Z;
  frame_id : Z;
  frame_payload : list Z
}.

Definition frame_body (f : ubx_frame) : list Z :=
  let len := Z.of_nat (length (frame_payload f)) in
  frame_class f :: frame_id f :: uint8_t len :: uint8_t (Z.shiftr len 8)
    :: frame_payload f.

Definition frame_bytes (f : ubx_frame) : list Z :=
  let '(ck_a, ck_b) := _update_checksum (frame_body f) 0 0 in
  [PREAMBLE1; PREAMBLE2] ++ frame_body f ++ [ck_a; ck_b].

(** The state of the decoder at the moment it hands the frame [f] to the
    solution mapper, having started the frame in state [s]. *)
Definition frame_accepted (f : ubx_frame) (s : ublox_t) : ublox_t :=
  let '(ck_a, ck_b) := _update_checksum (frame_body f) 0 0 in
  let s := set_skip_packet false s in
  let s := set_class (frame_class f) s in
  let s := set_msg_id (frame_id f) s in
  let s := set_payload_length (Z.of_nat (length (frame_payload f))) s in
  let s := set_payload_counter (Z.of_nat (length (frame_payload f))) s in
  let s := set_buffer (store_bytes (frame_payload f) 0 (_buffer s)) s in
  let s := set_ck_a ck_a s in
  let s := set_ck_b ck_b s in
  let s := set_step 0 s in
  set_packetCount (packetCount s + 1) s.

(** Handing a sequence of accepted frames to the solution mapper. *)
Fixpoint parse_frames (fs : list ubx_frame) (s : ublox_t) : ublox_t * list bool :=
  match fs with
  | [] => (s, [])
  | f :: fs' =>
      let '(s, r) := gpsParceFrameUBLOX (frame_accepted f s) in
      let '(s, rs) := parse_frames fs' s in
      (s, r :: rs)
  end.


(** The state at the [break] of the mapper's switch; an id that is not
    handled leaves the state as it is. *)
Definition dispatched (s : ublox_t) : ublox_t :=
  default s (gpsParceFrameUBLOX_switch s).

(** Frames that carry a position, and frames that carry a velocity. *)
Definition position_bearing (f : ubx_frame) : bool :=
  (frame_id f =? MSG_POSLLH) || (frame_id f =? MSG_PVT).
Definition velocity_bearing (f : ubx_frame) : bool :=
  (frame_id f =? MSG_VELNED) || (frame_id f =? MSG_PVT).

(** ** Protothreads *)

(** Modelled from the spec: the macros of [scheduler/protothreads.h]
    ([ptBegin], [ptWait], [ptWaitTimeout], [ptEnd]), which the verified file
    only uses.  The specification describes them as explicit "wait until
    condition true" or "wait until condition true or timeout elapses"
    checkpoints: on each tick the task re-evaluates its current checkpoint
    and either proceeds or yields control back unchanged.

    A thread is the code that remains to be run.  [PtWaiting] is a timed
    checkpoint that has been reached: it remembers when. *)
Inductive pt_prog : Type :=
  | PtEnd
  | PtDo (a : ublox_t -> ublox_t) (k : pt_prog)
  | PtWait (c : ublox_t -> bool) (k : pt_prog)
  | PtWaitTimeout (c : ublox_t -> bool) (timeoutMs : Z) (k : pt_prog)
  | PtWaiting (c : ublox_t -> bool) (startTime delayTime : Z) (k : pt_prog)
  | PtIf (c : ublox_t -> bool) (kt kf : pt_prog).

(** Modelled from the spec: one activation of a thread at time [now], as
    the macros of [scheduler/protothreads.h] make it.  The thread runs
    until a checkpoint whose condition does not hold, or until its end; a
    timed checkpoint also gives way once its delay has elapsed. *)
Fixpoint pt_resume (now : Z) (p : pt_prog) (s : ublox_t) : pt_prog * ublox_t :=
  match p with
  | PtEnd => (PtEnd, s)
  | PtDo a k => pt_resume now k (a s)
  | PtWait c k => if c s then pt_resume now k s else (p, s)
  | PtWaitTimeout c timeoutMs k =>
      if c s then pt_resume now k s else (PtWaiting c now timeoutMs k, s)
  | PtWaiting c startTime delayTime k =>
      if c s || (delayTime <? now - startTime) then pt_resume now k s else (p, s)
  | PtIf c kt kf => if c s then pt_resume now kt s else pt_resume now kf s
  end.

(** Statements in sequence, followed by the rest of the thread. *)
Definition pt_seq (stmts : list (pt_prog -> pt_prog)) (k : pt_prog) : pt_prog :=
  foldr (fun stmt k => stmt k) k stmts.

(** [if (c) { kt } else { kf }] followed by the rest of the thread. *)
Definition pt_if (c : ublox_t -> bool) (kt kf : list (pt_prog -> pt_prog))
  : pt_prog -> pt_prog :=
  fun k => PtIf c (pt_seq kt k) (pt_seq kf k).

(** ** Configuration sequencer *)

Definition got_ack (s : ublox_t) : bool :=
  bool_decide (_ack_state s = UBX_ACK_GOT_ACK).
Definition got_ack_or_nak (s : ublox_t) : bool :=
  bool_decide (_ack_state s = UBX_ACK_GOT_ACK)
  || bool_decide (_ack_state s = UBX_ACK_GOT_NAK).

(** The end of [gpsConfigure]: "Configure GNSS for M8N and later". *)
Definition gpsConfigure_GNSS (cfg : gpsConfig_t) : pt_prog -> pt_prog :=
  pt_if (fun s => 80000 <=? hwVersion s)
    [ PtDo (configureGNSS cfg);
      PtWaitTimeout got_ack_or_nak GPS_CFG_CMD_TIMEOUT_MS ]
    [].

(** "Configure SBAS": any response, ACK or NAK, or none in time. *)
Definition gpsConfigure_SBAS (cfg : gpsConfig_t) : pt_prog -> pt_prog :=
  pt_seq
    [ PtDo (configureSBAS cfg);
      PtWaitTimeout got_ack_or_nak GPS_CFG_CMD_TIMEOUT_MS ].

(** The thread [gpsConfigure].  Its calls of [gpsSetProtocolTimeout] re-arm
    the link watchdog kept by [io/gps.c] and change none of the driver's
    variables; they are left out. *)
Definition gpsConfigure (cfg : gpsConfig_t) : pt_prog :=
  pt_seq
    [ (* Set dynamic model *)
      PtDo (match dynModel cfg with
            | GPS_DYNMODEL_PEDESTRIAN =>
                configureNAV5 UBX_DYNMODEL_PEDESTRIAN UBX_FIXMODE_AUTO
            | GPS_DYNMODEL_AIR_1G =>
                configureNAV5 UBX_DYNMODEL_AIR_1G UBX_FIXMODE_AUTO
            | GPS_DYNMODEL_AIR_4G =>
                configureNAV5 UBX_DYNMODEL_AIR_4G UBX_FIXMODE_AUTO
            end);
      PtWait got_ack;
      (* Disable NMEA messages *)
      PtDo (configureMSG MSG_CLASS_NMEA MSG_NMEA_GGA 0); PtWait got_ack;
      PtDo (configureMSG MSG_CLASS_NMEA MSG_NMEA_GLL 0); PtWait got_ack;
      PtDo (configureMSG MSG_CLASS_NMEA MSG_NMEA_GSA 0); PtWait got_ack;
      PtDo (configureMSG MSG_CLASS_NMEA MSG_NMEA_GSV 0); PtWait got_ack;
      PtDo (configureMSG MSG_CLASS_NMEA MSG_NMEA_RMC 0); PtWait got_ack;
      PtDo (configureMSG MSG_CLASS_NMEA MSG_NMEA_VGS 0); PtWait got_ack;
      (* Configure UBX binary messages *)
      pt_if (fun s => UBX_HW_VERSION_UBLOX9 <=? hwVersion s)
        [ PtDo (configureMSG MSG_CLASS_UBX MSG_POSLLH 0); PtWait got_ack;
          PtDo (configureMSG MSG_CLASS_UBX MSG_STATUS 0); PtWait got_ack;
          PtDo (configureMSG MSG_CLASS_UBX MSG_VELNED 0); PtWait got_ack;
          PtDo (configureMSG MSG_CLASS_UBX MSG_TIMEUTC 0); PtWait got_ack;
          PtDo (configureMSG MSG_CLASS_UBX MSG_PVT 1); PtWait got_ack;
          PtDo (configureMSG MSG_CLASS_UBX MSG_NAV_SAT 0); PtWait got_ack;
          PtDo (configureMSG MSG_CLASS_UBX MSG_NAV_SIG 0); PtWait got_ack;
          PtDo (configureRATE 200); PtWait got_ack ]
        [ (* u-Blox 5/6/7/8 or unknown *)
          pt_if (fun s => UBX_HW_VERSION_UBLOX7 <=? hwVersion s)
            [ (* u-Blox 7-8 support PVT *)
              PtDo (configureMSG MSG_CLASS_UBX MSG_POSLLH 0); PtWait got_ack;
              PtDo (configureMSG MSG_CLASS_UBX MSG_STATUS 0); PtWait got_ack;
              PtDo (configureMSG MSG_CLASS_UBX MSG_SOL 1); PtWait got_ack;
              PtDo (configureMSG MSG_CLASS_UBX MSG_VELNED 0); PtWait got_ack;
              PtDo (configureMSG MSG_CLASS_UBX MSG_TIMEUTC 0); PtWait got_ack;
              PtDo (configureMSG MSG_CLASS_UBX MSG_PVT 1); PtWait got_ack;
              PtDo (configureMSG MSG_CLASS_UBX MSG_SVINFO 0); PtWait got_ack;
              PtDo (fun s =>
                      if bool_decide (provider cfg = GPS_UBLOX7PLUS)
                         && (UBX_HW_VERSION_UBLOX7 <=? hwVersion s)
                      then configureRATE 100 s  (* 10Hz *)
                      else configureRATE 200 s  (* 5Hz *));
              PtWait got_ack ]
            [ (* u-Blox 5/6 doesn't support PVT, use legacy config;
                 UNKNOWN also falls here, use as a last resort *)
              PtDo (configureMSG MSG_CLASS_UBX MSG_POSLLH 1); PtWait got_ack;
              PtDo (configureMSG MSG_CLASS_UBX MSG_STATUS 1); PtWait got_ack;
              PtDo (configureMSG MSG_CLASS_UBX MSG_SOL 1); PtWait got_ack;
              PtDo (configureMSG MSG_CLASS_UBX MSG_VELNED 1); PtWait got_ack;
              PtDo (configureMSG MSG_CLASS_UBX MSG_TIMEUTC 10); PtWait got_ack;
              (* This may fail on old UBLOX units, advance forward on both
                 ACK and NAK *)
              PtDo (configureMSG MSG_CLASS_UBX MSG_PVT 0); PtWait got_ack_or_nak;
              PtDo (configureMSG MSG_CLASS_UBX MSG_SVINFO 0); PtWait got_ack;
              (* Configure data rate to 5HZ *)
              PtDo (configureRATE 200); PtWait got_ack ] ];
      (* Configure SBAS *)
      gpsConfigure_SBAS cfg;
      (* Configure GNSS for M8N and later *)
      gpsConfigure_GNSS cfg ]
    PtEnd.

(** The commands the protocol threads send, and the reset of the detected
    version before it is polled. *)
Inductive sequencer_action (cfg : gpsConfig_t) : (ublox_t -> ublox_t) -> Prop :=
  | act_pollVersion : sequencer_action cfg pollVersion
  | act_reset_hwVersion : sequencer_action cfg (set_hwVersion UBX_HW_VERSION_UNKNOWN)
  | act_NAV5 dyn fixMode : sequencer_action cfg (configureNAV5 dyn fixMode)
  | act_MSG class id rate : sequencer_action cfg (configureMSG class id rate)
  | act_RATE meas : sequencer_action cfg (configureRATE meas)
  | act_SBAS : sequencer_action cfg (configureSBAS cfg)
  | act_GNSS : sequencer_action cfg (configureGNSS cfg).

(** The states the driver can be in: it starts from zeroed variables, the
    receiver thread decodes one byte after the other, and the state thread
    sends commands in between. *)
Inductive reachable (cfg : gpsConfig_t) : ublox_t -> Prop :=
  | reach_init sol hw errs pkts : reachable cfg (ublox_init sol hw errs pkts)
  | reach_byte data s :
      reachable cfg s -> is_byte data ->
      reachable cfg (fst (gpsNewFrameUBLOX data s))
  | reach_command a s :
      reachable cfg s -> sequencer_action cfg a -> reachable cfg (a s).

(** Outside sync search the skip flag is clear, and the step stays within
    the nine positions. *)
Definition decoder_inv (s : ublox_t) : Prop :=
  (_step s <> 0 -> _skip_packet s = false) /\ 0 <= _step s <= 8.

(** The module as the sequencer sees it in the scenario of a receiver that
    acknowledges every command: the reply to the command last sent. *)
Definition ack_frame (s : ublox_t) : ubx_frame :=
  Build_ubx_frame CLASS_ACK MSG_ACK_ACK
                  [rd (send_buffer s) HDR_MSG_CLASS; rd (send_buffer s) HDR_MSG_ID].

(** [n] rounds of: activate [gpsConfigure], then receive the acknowledgment
    of what it sent. *)
Fixpoint run_acknowledged (n : nat) (now : Z) (p : pt_prog) (s : ublox_t)
  : pt_prog * ublox_t :=
  match n with
  | O => (p, s)
  | S n' =>
      let '(p, s) := pt_resume now p s in
      let s := fst (feed (frame_bytes (ack_frame s)) s) in
      run_acknowledged n' (now + 1) p s
  end.

(** ** Example inputs *)

Definition le16 (v : Z) : list Z := [uint8_t v; uint8_t (Z.shiftr v 8)].
Definition le32 (v : Z) : list Z := le16 v ++ le16 (Z.shiftr v 16).

Definition example_sol : gpsSolutionData_t :=
  Build_gpsSol false false false false GPS_NO_FIX 0 0 0 0 0 0 0 0 0 0 0 0
               0 0 0 0 0 0 0.

Definition example_init : ublox_t :=
  ublox_init example_sol UBX_HW_VERSION_UNKNOWN 0 0.

Definition example_cfg : gpsConfig_t :=
  Build_gpsConfig GPS_UBLOX SBAS_AUTO GPS_DYNMODEL_AIR_1G true.

(** A position frame (longitude 100 degrees, latitude 50 degrees), sent
    under the class [class]. *)
Definition example_posllh (class : Z) : ubx_frame :=
  Build_ubx_frame class MSG_POSLLH
    (le32 1000 ++ le32 1000000000 ++ le32 500000000 ++ le32 105000
     ++ le32 100000 ++ le32 200 ++ le32 300).


(** A UTC-time frame for 2024-06-15 12:34:56.123 with the validity byte
    [valid]. *)
Definition example_timeutc (valid : Z) : ubx_frame :=
  Build_ubx_frame CLASS_NAV MSG_TIMEUTC
    (le32 1000 ++ le32 50 ++ le32 123456789 ++ le16 2024
     ++ [6; 15; 12; 34; 56; valid]).

(** A combined frame: 3D fix, 9 satellites, the position of
    [example_posllh], 1.5 m/s north in mm/s, heading 352.4 degrees. *)
Definition example_pvt : ubx_frame :=
  Build_ubx_frame CLASS_NAV MSG_PVT
    (le32 1000 ++ le16 2024 ++ [6; 15; 12; 34; 56; 3] ++ le32 50
     ++ le32 123456789 ++ [FIX_3D; 1; 0; 9]
     ++ le32 1000000000 ++ le32 500000000 ++ le32 105000 ++ le32 100000
     ++ le32 200 ++ le32 300
     ++ le32 1500 ++ le32 (-200) ++ le32 30 ++ le32 1513 ++ le32 35240000
     ++ le32 100 ++ le32 100000 ++ le16 120 ++ le16 0 ++ le16 0
     ++ le32 0 ++ le16 0 ++ le16 0).

(** A status frame without fix: a frame that bears neither position nor
    velocity. *)
Definition example_status : ubx_frame :=
  Build_ubx_frame CLASS_NAV MSG_STATUS
    (le32 1000 ++ [FIX_NONE; 0; 0; 0] ++ le32 0 ++ le32 5000).

(** The acknowledgment of message [msg] of class [class]. *)
Definition example_ack (class msg : Z) : ubx_frame :=
  Build_ubx_frame CLASS_ACK MSG_ACK_ACK [class; msg].

(** A command with id 0x07 is sent, then its acknowledgment is received. *)
Definition example_awaiting : ublox_t :=
  frame_accepted (example_ack CLASS_CFG 0x07)
    (sendConfigMessageUBLOX (set_header CLASS_CFG 0x07 0 example_init)).

(** All the bytes of a frame but the last one, checksum byte B. *)
Definition frame_bytes_but_last (f : ubx_frame) : list Z :=
  removelast (frame_bytes f).

Definition pt_ended (p : pt_prog) : bool :=
  match p with
  | PtEnd => true
  | _ => false
  end.

(** ** The command encoder seen from the wire *)

(** The message the send buffer holds: its header fields and the payload
    the header's length field announces. *)
Definition send_frame (s : ublox_t) : ubx_frame :=
  let sb := send_buffer s in
  Build_ubx_frame (rd sb HDR_MSG_CLASS) (rd sb HDR_MSG_ID)
                  (bytes_at sb PAYLOAD (rd_u16 sb HDR_LENGTH)).

(** The bytes the action [a] hands to [serialWriteBuf] in state [s]: what
    it appends to the port. *)
Definition sent_by (a : ublox_t -> ublox_t) (s : ublox_t) : list Z :=
  drop (length (gpsPort s)) (gpsPort (a s)).

(** [sizeof(send_buffer.bytes)] *)
Definition sizeof_send_buffer : Z := 58.

(** The message in the send buffer, with the two checksum bytes that
    follow it, fits [send_buffer.bytes]. *)
Definition fits_send_buffer (s : ublox_t) : Prop :=
  let sb := send_buffer s in
  is_byte (rd sb HDR_LENGTH) /\ is_byte (rd sb (HDR_LENGTH + 1))
  /\ rd_u16 sb HDR_LENGTH + 8 <= sizeof_send_buffer.

(** A configuration block of the GNSS message as [configureGNSS] leaves it
    in the send buffer, block [k] of the message: the five fields the
    function writes, and [reserved1], [undefined0] and [undefined1], which
    it does not write and which keep what the buffer [sb] held. *)
Definition gnss_block_bytes (sb : gmap Z Z) (k : Z)
    (gnssId resTrkCh maxTrkCh enabled sigCfgMask : Z) : list Z :=
  [gnssId; resTrkCh; maxTrkCh; rd sb (gnss_config k + 3);
   enabled; rd sb (gnss_config k + 5); sigCfgMask; rd sb (gnss_config k + 7)].

(** ** The frame decoder seen from the wire *)

(** The state of the decoder once it has received the header and the
    payload of the frame [f], and expects checksum byte A. *)
Definition frame_received (f : ubx_frame) (s : ublox_t) : ublox_t :=
  let '(ck_a, ck_b) := _update_checksum (frame_body f) 0 0 in
  let s := set_skip_packet false s in
  let s := set_class (frame_class f) s in
  let s := set_msg_id (frame_id f) s in
  let s := set_payload_length (Z.of_nat (length (frame_payload f))) s in
  let s := set_payload_counter (Z.of_nat (length (frame_payload f))) s in
  let s := set_buffer (store_bytes (frame_payload f) 0 (_buffer s)) s in
  let s := set_ck_a ck_a s in
  let s := set_ck_b ck_b s in
  set_step 7 s.

(** The variables the solution mapper writes: what the driver publishes to
    the rest of the firmware and to its own sequencer. *)
Definition published (s : ublox_t)
  : gpsSolutionData_t * Z * bool * ubx_ack_state * gpsFixType_e * bool * bool :=
  (gpsSol s, hwVersion s, capGalileo s, _ack_state s, next_fix_type s,
   _new_position s, _new_speed s).

(** While the payload is received, the counter is below the declared
    length, and the declared length within the buffer. *)
Definition payload_inv (s : ublox_t) : Prop :=
  (_step s = 5 -> 0 <= _payload_length s)
  /\ (_step s = 6 ->
      0 <= _payload_counter s < _payload_length s
      /\ _payload_length s <= MAX_UBLOX_PAYLOAD_SIZE).

(** The frame [f] as it arrives when the payload byte at index [i] was
    replaced by [y] on the way: the checksum bytes are those of the frame
    that was sent. *)
Definition corrupted_frame_bytes (f : ubx_frame) (i : nat) (y : Z) : list Z :=
  let '(ck_a, ck_b) := _update_checksum (frame_body f) 0 0 in
  [PREAMBLE1; PREAMBLE2]
  ++ frame_body (Build_ubx_frame (frame_class f) (frame_id f)
                                 (<[i := y]> (frame_payload f)))
  ++ [ck_a; ck_b].

(** ** Payloads on the wire *)

Definition is_int32 (z : Z) : Prop := - 2 ^ 31 <= z < 2 ^ 31.
Definition is_uint32 (z : Z) : Prop := 0 <= z < 2 ^ 32.
Definition is_uint16 (z : Z) : Prop := 0 <= z < 2 ^ 16.

(** The bytes of a [ubx_nav_posllh] with the given fields, in the order of
    the structure, each field little-endian. *)
Definition ubx_nav_posllh_wire
    (time longitude latitude altitude_ellipsoid altitude_msl
     horizontal_accuracy vertical_accuracy : Z) : list Z :=
  le32 time ++ le32 longitude ++ le32 latitude ++ le32 altitude_ellipsoid
  ++ le32 altitude_msl ++ le32 horizontal_accuracy ++ le32 vertical_accuracy.



(** [x] is what a variable of type [t] holds after the assignment of [v]:
    [v] converted to [t], which is [v] itself when [t] represents it. *)
Definition holds_assigned (t : c_int_type) (v x : Z) : Prop :=
  x = c_convert t v /\ (c_representable t v -> x = v).

(** The bytes of a [ubx_nav_pvt] up to [position_DOP], the last field the
    driver reads. *)
Definition ubx_nav_pvt_wire
    (time year month day hour min sec valid tAcc nano
     fix_type fix_status reserved1 satellites
     longitude latitude altitude_ellipsoid altitude_msl
     horizontal_accuracy vertical_accuracy
     ned_north ned_east ned_down speed_2d heading_2d
     speed_accuracy heading_accuracy position_DOP : Z) : list Z :=
  le32 time ++ le16 year ++ [month; day; hour; min; sec; valid]
  ++ le32 tAcc ++ le32 nano ++ [fix_type; fix_status; reserved1; satellites]
  ++ le32 longitude ++ le32 latitude ++ le32 altitude_ellipsoid
  ++ le32 altitude_msl ++ le32 horizontal_accuracy ++ le32 vertical_accuracy
  ++ le32 ned_north ++ le32 ned_east ++ le32 ned_down ++ le32 speed_2d
  ++ le32 heading_2d ++ le32 speed_accuracy ++ le32 heading_accuracy
  ++ le16 position_DOP.

(** ** The receiver thread

    The bytes that wait in the serial port are the list [rx], oldest first:
    [serialRxBytesWaiting] is their number and [serialRead] takes the
    oldest.  The semaphore [semNewDataReady] is a flag (modelled from the
    spec: a single-slot signal, a second signal before it is consumed has
    no additional effect). *)

(** The inner loop of [gpsProtocolReceiverThread]: consume bytes until the
    port is empty or until a full message is received.  The result is what
    remains in the port, the driver's state, and whether the semaphore was
    signalled. *)
Fixpoint receiver_consume (rx : list Z) (s : ublox_t) : list Z * ublox_t * bool :=
  match rx with
  | [] => ([], s, false)
  | newChar :: rx' =>
      let '(s, r) := gpsNewFrameUBLOX newChar s in
      if r then (rx', s, true)   (* ptSemaphoreSignal(semNewDataReady); break *)
      else receiver_consume rx' s
  end.

(** One activation of [gpsProtocolReceiverThread]: [while (1)], wait until
    there are bytes to consume, which yields when there are none, then the
    inner loop.  [fuel] bounds the number of turns of the outer loop; each
    turn consumes a byte at least. *)
Fixpoint gpsProtocolReceiverThread (fuel : nat) (rx : list Z) (s : ublox_t) (sem : bool)
  : list Z * ublox_t * bool :=
  match fuel with
  | O => (rx, s, sem)
  | S fuel' =>
      match rx with
      | [] => (rx, s, sem)   (* ptWait(serialRxBytesWaiting(gpsState.gpsPort)) *)
      | _ :: _ =>
          let '(rx', s', signalled) := receiver_consume rx s in
          gpsProtocolReceiverThread fuel' rx' s' (sem || signalled)
      end
  end.

(** ** The discipline of the configuration sequencer *)

(** An action that sends one command and starts waiting for its answer. *)
Definition sends_one_command (a : ublox_t -> ublox_t) : Prop :=
  forall s,
    (exists f, gpsPort (a s) = gpsPort s ++ frame_bytes f)
    /\ _ack_state (a s) = UBX_ACK_WAITING
    /\ _ack_waiting_msg (a s) = rd (send_buffer (a s)) HDR_MSG_ID
    /\ _step (a s) = _step s.

(** A checkpoint condition that does not hold while the answer is awaited
    and holds once the command is acknowledged. *)
Definition awaits_the_answer (c : ublox_t -> bool) : Prop :=
  (forall s, _ack_state s = UBX_ACK_WAITING -> c s = false)
  /\ (forall s, _ack_state s = UBX_ACK_GOT_ACK -> c s = true).

(** Threads in which every command is followed by the checkpoint that
    awaits its answer. *)
Inductive stop_and_wait : pt_prog -> Prop :=
  | sw_end : stop_and_wait PtEnd
  | sw_command a c k :
      sends_one_command a -> awaits_the_answer c -> stop_and_wait k ->
      stop_and_wait (PtDo a (PtWait c k))
  | sw_command_timeout a c timeoutMs k :
      sends_one_command a -> awaits_the_answer c -> stop_and_wait k ->
      stop_and_wait (PtDo a (PtWaitTimeout c timeoutMs k))
  | sw_if c kt kf :
      stop_and_wait kt -> stop_and_wait kf -> stop_and_wait (PtIf c kt kf).

(** Such a thread suspended at one of its checkpoints. *)
Inductive suspended : pt_prog -> Prop :=
  | susp_wait c k :
      awaits_the_answer c -> stop_and_wait k -> suspended (PtWait c k)
  | susp_waiting c startTime delayTime k :
      awaits_the_answer c -> stop_and_wait k ->
      suspended (PtWaiting c startTime delayTime k).

(** The largest number of commands on a path through a thread. *)
Fixpoint pt_depth (p : pt_prog) : nat :=
  match p with
  | PtEnd => 0
  | PtDo _ k => S (pt_depth k)
  | PtWait _ k => pt_depth k
  | PtWaitTimeout _ _ k => pt_depth k
  | PtWaiting _ _ _ k => pt_depth k
  | PtIf _ kt kf => Nat.max (pt_depth kt) (pt_depth kf)
  end.

(** ** More example inputs *)

(** A status frame that reports a valid 3D fix. *)
Definition example_status_fix : ubx_frame :=
  Build_ubx_frame CLASS_NAV MSG_STATUS
    (le32 1000 ++ [FIX_3D; 1; 0; 0] ++ le32 0 ++ le32 5000).

(** A string in a [char] array of [n] bytes, padded with NUL. *)
Definition c_array (n : nat) (s : string) : list Z :=
  c_str s ++ replicate (n - length (c_str s)) 0.

(** The version reply of an 8th-generation receiver: software version,
    hardware version, and three extension fields, the last of which lists
    the constellations. *)
Definition example_ver : ubx_frame :=
  Build_ubx_frame CLASS_MON MSG_VER
    (c_array 30 "ROM CORE 3.01 (107888)" ++ c_array 10 "00080000"
     ++ c_array 30 "FWVER=SPG 3.01" ++ c_array 30 "PROTVER=18.00"
     ++ c_array 30 "GPS;GLO;GAL;BDS").

(** A position in the western and southern hemispheres, 15 mm below mean
    sea level. *)
Definition example_posllh_negative : ubx_frame :=
  Build_ubx_frame CLASS_NAV MSG_POSLLH
    (ubx_nav_posllh_wire 1000 (-1000000000) (-500000000) 30000 (-15) 2500 4000).

(** A combined frame with a 3D fix and a valid date and time, 123 ms
    before the full second, from a receiver that moves north at 400 m/s:
    more than a 16-bit field holds in cm/s.  The heading is one tenth of a
    degree below zero. *)
Definition example_pvt_wire : ubx_frame :=
  Build_ubx_frame CLASS_NAV MSG_PVT
    (ubx_nav_pvt_wire 1000 2024 6 15 12 34 56 3 50 (-123456789)
       FIX_3D 1 0 9 (-1000000000) 500000000 105000 100000 200 300
       400000 200 (-35) 400000 (-10000) 100 100000 120
     ++ replicate 14 0).



(** A version reply with a payload of 256 bytes, the whole receive buffer,
    whose last extension field begins at offset 250 and holds ["GA"] in the
    last two bytes of the buffer. *)
Definition example_ver_long : ubx_frame :=
  Build_ubx_frame CLASS_MON MSG_VER
    (c_array 30 "ROM CORE 3.01 (107888)" ++ c_array 10 "00080000"
     ++ replicate 214 (Z.of_nat (nat_of_ascii "x")) ++ c_str "GA").

(** The decoder after the header of [example_status]: it expects the first
    of 16 payload bytes. *)
Definition example_in_payload : ublox_t :=
  fst (feed [PREAMBLE1; PREAMBLE2; CLASS_NAV; MSG_STATUS; 16; 0] example_init).

(** A rate command prepared in the send buffer. *)
Definition example_command : ublox_t :=
  set_send_buffer (wr (wr (wr (send_buffer example_init) (PAYLOAD + 0) MSG_CLASS_UBX)
                         (PAYLOAD + 1) MSG_PVT) (PAYLOAD + 2) 1)
    (set_header CLASS_CFG MSG_CFG_SET_RATE 3 example_init).

(** * Properties *)

(** Reduce field reads of updated records, and nothing else. *)
Ltac fields :=
  cbn [
       flags_validVelNE flags_validVelD flags_validEPE flags_validTime
       fixType numSat llh_lon llh_lat llh_alt velNED_X velNED_Y velNED_Z
       groundSpeed groundCourse eph epv hdop time_year time_month time_day
       time_hours time_minutes time_seconds time_millis
       with_flags_validVelNE with_flags_validVelD with_flags_validEPE
       with_flags_validTime with_fixType with_numSat with_llh_lon
       with_llh_lat with_llh_alt with_velNED_X with_velNED_Y with_velNED_Z
       with_groundSpeed with_groundCourse with_eph with_epv with_hdop
       with_time_year with_time_month with_time_day with_time_hours
       with_time_minutes with_time_seconds with_time_millis
       set_gpsSol_flags_validVelNE set_gpsSol_flags_validVelD
       set_gpsSol_flags_validEPE set_gpsSol_flags_validTime
       set_gpsSol_fixType set_gpsSol_numSat set_gpsSol_llh_lon
       set_gpsSol_llh_lat set_gpsSol_llh_alt set_gpsSol_velNED_X
       set_gpsSol_velNED_Y set_gpsSol_velNED_Z set_gpsSol_groundSpeed
       set_gpsSol_groundCourse set_gpsSol_eph set_gpsSol_epv
       set_gpsSol_hdop set_gpsSol_time_year set_gpsSol_time_month
       set_gpsSol_time_day set_gpsSol_time_hours set_gpsSol_time_minutes
       set_gpsSol_time_seconds set_gpsSol_time_millis _ck_a _ck_b
       _skip_packet _step _msg_id _payload_length _payload_counter
       next_fix_type _class _ack_state _ack_waiting_msg _new_position
       _new_speed capGalileo send_buffer _buffer gpsSol hwVersion errors
       packetCount gpsPort set_ck_a set_ck_b set_skip_packet set_step
       set_msg_id set_payload_length set_payload_counter set_next_fix_type
       set_class set_ack_state set_ack_waiting_msg set_new_position
       set_new_speed set_capGalileo set_send_buffer set_buffer set_gpsSol
       set_hwVersion set_errors set_packetCount set_gpsPort fst snd negb
       andb orb checksum_byte step_incr ].
Ltac fields_all :=
  cbn [
       flags_validVelNE flags_validVelD flags_validEPE flags_validTime
       fixType numSat llh_lon llh_lat llh_alt velNED_X velNED_Y velNED_Z
       groundSpeed groundCourse eph epv hdop time_year time_month time_day
       time_hours time_minutes time_seconds time_millis
       with_flags_validVelNE with_flags_validVelD with_flags_validEPE
       with_flags_validTime with_fixType with_numSat with_llh_lon
       with_llh_lat with_llh_alt with_velNED_X with_velNED_Y with_velNED_Z
       with_groundSpeed with_groundCourse with_eph with_epv with_hdop
       with_time_year with_time_month with_time_day with_time_hours
       with_time_minutes with_time_seconds with_time_millis
       set_gpsSol_flags_validVelNE set_gpsSol_flags_validVelD
       set_gpsSol_flags_validEPE set_gpsSol_flags_validTime
       set_gpsSol_fixType set_gpsSol_numSat set_gpsSol_llh_lon
       set_gpsSol_llh_lat set_gpsSol_llh_alt set_gpsSol_velNED_X
       set_gpsSol_velNED_Y set_gpsSol_velNED_Z set_gpsSol_groundSpeed
       set_gpsSol_groundCourse set_gpsSol_eph set_gpsSol_epv
       set_gpsSol_hdop set_gpsSol_time_year set_gpsSol_time_month
       set_gpsSol_time_day set_gpsSol_time_hours set_gpsSol_time_minutes
       set_gpsSol_time_seconds set_gpsSol_time_millis _ck_a _ck_b
       _skip_packet _step _msg_id _payload_length _payload_counter
       next_fix_type _class _ack_state _ack_waiting_msg _new_position
       _new_speed capGalileo send_buffer _buffer gpsSol hwVersion errors
       packetCount gpsPort set_ck_a set_ck_b set_skip_packet set_step
       set_msg_id set_payload_length set_payload_counter set_next_fix_type
       set_class set_ack_state set_ack_waiting_msg set_new_position
       set_new_speed set_capGalileo set_send_buffer set_buffer set_gpsSol
       set_hwVersion set_errors set_packetCount set_gpsPort fst snd negb
       andb orb checksum_byte step_incr ] in *.

(** ** Arithmetic of the fixed-width types *)

Lemma uint8_t_range z : 0 <= uint8_t z < 256.
Proof. unfold uint8_t. apply Z.mod_pos_bound. lia. Qed.

Lemma uint8_t_small z : 0 <= z < 256 -> uint8_t z = z.
Proof. intros Hz. unfold uint8_t. apply Z.mod_small. lia. Qed.

Lemma uint16_t_range z : 0 <= uint16_t z < 65536.
Proof. unfold uint16_t. apply Z.mod_pos_bound. lia. Qed.

Lemma uint16_t_small z : 0 <= z < 65536 -> uint16_t z = z.
Proof. intros Hz. unfold uint16_t. apply Z.mod_small. lia. Qed.

(** Two integers that differ by a multiple of 256 are the same byte. *)
Lemma mod_256_congr x y k : x = y + k * 256 -> x mod 256 = y mod 256.
Proof. intros ->. apply Z_mod_plus_full. Qed.

(** ** Checksum engine *)

Lemma update_checksum_app l1 l2 a b :
  _update_checksum (l1 ++ l2) a b =
  _update_checksum l2 (fst (_update_checksum l1 a b)) (snd (_update_checksum l1 a b)).
Proof.
  revert a b. induction l1 as [|d l1 IH]; intros a b; simpl.
  - reflexivity.
  - apply IH.
Qed.

Lemma update_checksum_spec data a b :
  _update_checksum data a b = checksum_spec data (a, b).
Proof.
  unfold checksum_spec. revert a b.
  induction data as [|d data IH]; intros a b; simpl.
  - reflexivity.
  - rewrite IH. reflexivity.
Qed.

(** Both accumulators in closed form: [a] gains the sum of the bytes, [b]
    gains [a] once per byte and each byte once per update that follows it. *)
Lemma update_checksum_closed_form data a b :
  is_byte a -> is_byte b ->
  _update_checksum data a b =
  ((a + byte_sum data) mod 256,
   (b + Z.of_nat (length data) * a + weighted_sum data) mod 256).
Proof.
  revert a b. induction data as [|d data IH]; intros a b Ha Hb.
  - cbn [_update_checksum byte_sum weighted_sum length].
    unfold is_byte in *. f_equal; rewrite Z.mod_small; lia.
  - cbn [_update_checksum].
    rewrite IH by apply uint8_t_range.
    cbn [byte_sum weighted_sum]. unfold uint8_t.
    change (2 ^ 8) with 256.
    set (n := Z.of_nat (length data)).
    replace (Z.of_nat (length (d :: data))) with (n + 1)
      by (subst n; cbn [length]; lia).
    set (q := (a + d) / 256).
    assert (Hq : (a + d) mod 256 = a + d - q * 256)
      by (subst q; rewrite Z.mod_eq by lia; ring).
    rewrite Hq.
    set (r := (b + (a + d - q * 256)) / 256).
    assert (Hr : (b + (a + d - q * 256)) mod 256 = b + (a + d - q * 256) - r * 256)
      by (subst r; rewrite Z.mod_eq by lia; ring).
    rewrite Hr.
    f_equal.
    + apply (mod_256_congr _ _ (- q)). ring.
    + apply (mod_256_congr _ _ (- r - q - n * q)). ring.
Qed.

(** The checksum of two bytes in either order. *)
Lemma update_checksum_swap_differs a b :
  _update_checksum [0; 1] a b <> _update_checksum [1; 0] a b.
Proof.
  cbn [_update_checksum]. unfold uint8_t. change (2 ^ 8) with 256.
  intros Heq. injection Heq as _ Hb. revert Hb.
  rewrite !Z.add_0_r.
  Z.div_mod_to_equations. lia.
Qed.

(** C7.  The checksum engine performs, for every byte of the range in wire
    order, [a := a + byte] then [b := b + a], both modulo 256, and returns
    nothing but the two accumulators; the result depends on the order of the
    bytes: whatever the initial pair, two byte sequences that are
    permutations of each other yield different pairs. *)
Theorem update_checksum_contract :
  (forall data a b, _update_checksum data a b = checksum_spec data (a, b))
  /\ (forall d data a b,
         _update_checksum (d :: data) a b =
         _update_checksum data ((a + d) mod 256) ((b + (a + d) mod 256) mod 256))
  /\ (forall l1 l2 a b,
         _update_checksum (l1 ++ l2) a b =
         _update_checksum l2 (fst (_update_checksum l1 a b))
                             (snd (_update_checksum l1 a b)))
  /\ (forall a b, exists l1 l2,
         Permutation l1 l2 /\ _update_checksum l1 a b <> _update_checksum l2 a b).
Proof.
  split; [|split; [|split]].
  - apply update_checksum_spec.
  - reflexivity.
  - apply update_checksum_app.
  - intros a b. exists [0; 1], [1; 0]. split.
    + apply perm_swap.
    + apply update_checksum_swap_differs.
Qed.

(** ** Hardware-version decoder *)

(** Against a literal that is shorter than the bound, [strncmp] reaches the
    literal's terminator: it returns 0 exactly when the buffer holds the
    literal and nothing more. *)
Lemma strncmp_literal lit :
  Forall (fun c => c <> 0) lit ->
  forall szBuf n, (length lit < n)%nat ->
    strncmp szBuf lit n = 0 <-> c_string_of szBuf = lit.
Proof.
  induction 1 as [|c lit Hc Hlit IH]; intros szBuf n Hn.
  - destruct n as [|n]; [cbn in Hn; lia|].
    destruct szBuf as [|c1 szBuf]; cbn; [tauto|].
    destruct (Z.eqb_spec c1 0) as [->|Hc1]; cbn; [tauto|].
    split; [lia|discriminate].
  - destruct n as [|n]; [cbn in Hn; lia|].
    cbn [length] in Hn.
    destruct szBuf as [|c1 szBuf]; cbn [strncmp c_string_of hd tl].
    + destruct (Z.eqb_spec 0 c) as [<-|Hne]; [congruence|].
      split; [lia|discriminate].
    + destruct (Z.eqb_spec c1 c) as [->|Hne].
      * destruct (Z.eqb_spec c 0) as [->|_]; [congruence|].
        rewrite (IH szBuf n) by lia.
        split; [intros ->; reflexivity|intros [= ->]; reflexivity].
      * destruct (Z.eqb_spec c1 0) as [->|_].
        -- split; [lia|discriminate].
        -- split; [lia|intros [= ->]; congruence].
Qed.

Lemma strncmp_literal_eqb lit szBuf n :
  Forall (fun c => c <> 0) lit -> (length lit < n)%nat ->
  (strncmp szBuf lit n =? 0) = bool_decide (c_string_of szBuf = lit).
Proof.
  intros Hlit Hn. pose proof (strncmp_literal lit Hlit szBuf n Hn) as Hiff.
  destruct (Z.eqb_spec (strncmp szBuf lit n) 0) as [Heq|Hne].
  - symmetry. apply bool_decide_eq_true. tauto.
  - symmetry. apply bool_decide_eq_false. tauto.
Qed.

Lemma hardware_version_strings_nonzero lit :
  lit ∈ hardware_version_strings -> Forall (fun c => c <> 0) lit /\ length lit = 8%nat.
Proof.
  unfold hardware_version_strings. rewrite !elem_of_cons, elem_of_nil.
  intros [->|[->|[->|[->|[->|[->|[]]]]]]];
    (split; [repeat constructor; discriminate|reflexivity]).
Qed.

Lemma decode_matches_table szBuf nBufSize :
  9 <= nBufSize ->
  gpsDecodeHardwareVersion szBuf nBufSize = hardware_version_table (c_string_of szBuf).
Proof.
  intros Hn. unfold gpsDecodeHardwareVersion, hardware_version_table.
  assert (Hlit : forall lit, lit ∈ hardware_version_strings ->
            (strncmp szBuf lit (Z.to_nat nBufSize) =? 0)
            = bool_decide (c_string_of szBuf = lit)).
  { intros lit Hin. destruct (hardware_version_strings_nonzero lit Hin) as [Hnz Hlen].
    apply strncmp_literal_eqb; [exact Hnz|lia]. }
  rewrite !Hlit by (unfold hardware_version_strings; set_solver).
  repeat (case_bool_decide; destruct (decide _); try reflexivity; try contradiction).
Qed.

(** A string that extends a version string is not in the table. *)
Lemma table_rejects_extensions v x :
  v ∈ hardware_version_strings -> x <> [] ->
  hardware_version_table (v ++ x) = UBX_HW_VERSION_UNKNOWN.
Proof.
  intros Hv Hx. destruct (hardware_version_strings_nonzero v Hv) as [_ Hlen].
  assert (Hlong : (8 < length (v ++ x))%nat).
  { rewrite length_app, Hlen. destruct x; [congruence|cbn; lia]. }
  unfold hardware_version_table.
  repeat (destruct (decide _) as [Heq|_];
          [rewrite Heq in Hlong; cbn in Hlong; lia|]).
  reflexivity.
Qed.

(** A string without NUL is what a buffer that holds it denotes. *)
Lemma c_string_of_nonzero text :
  Forall (fun c => c <> 0) text -> c_string_of text = text.
Proof.
  induction 1 as [|c text Hc _ IH]; cbn; [reflexivity|].
  destruct (Z.eqb_spec c 0); [contradiction|]. rewrite IH. reflexivity.
Qed.

(** C8.  With a buffer bound that covers the terminator (the driver passes
    10, the size of [hwVersion]), [gpsDecodeHardwareVersion] is the table
    lookup by exact match: the six version strings map to the tiers 5 to
    10, in increasing order, and every other string to unknown, among them
    every proper extension of a version string and ["FFFFFFFF"]. *)
Theorem gpsDecodeHardwareVersion_exact_match szBuf nBufSize :
  9 <= nBufSize ->
  gpsDecodeHardwareVersion szBuf nBufSize = hardware_version_table (c_string_of szBuf)
  /\ (gpsDecodeHardwareVersion szBuf nBufSize <> UBX_HW_VERSION_UNKNOWN <->
      c_string_of szBuf ∈ hardware_version_strings)
  /\ (fun v => gpsDecodeHardwareVersion v nBufSize) <$> hardware_version_strings
     = [UBX_HW_VERSION_UBLOX5; UBX_HW_VERSION_UBLOX6; UBX_HW_VERSION_UBLOX7;
        UBX_HW_VERSION_UBLOX8; UBX_HW_VERSION_UBLOX9; UBX_HW_VERSION_UBLOX10]
  /\ gpsDecodeHardwareVersion (c_str "FFFFFFFF") nBufSize = UBX_HW_VERSION_UNKNOWN
  /\ (forall v x, v ∈ hardware_version_strings ->
        Forall (fun c => c <> 0) x -> x <> [] ->
        gpsDecodeHardwareVersion (v ++ x) nBufSize = UBX_HW_VERSION_UNKNOWN).
Proof.
  intros Hn. split; [|split; [|split; [|split]]].
  - apply decode_matches_table, Hn.
  - rewrite decode_matches_table by exact Hn.
    unfold hardware_version_table, hardware_version_strings.
    rewrite !elem_of_cons, elem_of_nil.
    repeat (destruct (decide _) as [->|?]; [split; [tauto|discriminate]|]).
    split; [congruence|tauto].
  - cbn [fmap list_fmap hardware_version_strings].
    rewrite !decode_matches_table by exact Hn. reflexivity.
  - rewrite decode_matches_table by exact Hn. reflexivity.
  - intros v x Hv Hx Hne. rewrite decode_matches_table by exact Hn.
    destruct (hardware_version_strings_nonzero v Hv) as [Hnz _].
    rewrite c_string_of_nonzero by (apply Forall_app; split; assumption).
    apply table_rejects_extensions; assumption.
Qed.

(** ** What the solution mapper leaves alone *)

Ltac mapper_cases :=
  unfold gpsParceFrameUBLOX, gpsParceFrameUBLOX_switch, apply_time;
  cbv zeta; repeat case_match; simplify_eq; cbn.

(** Unfold the mapper for a frame whose message id is known. *)
Ltac mapper_at E :=
  unfold gpsParceFrameUBLOX, gpsParceFrameUBLOX_switch; cbv zeta;
  rewrite ?E;
  cbn [Z.eqb Pos.eqb MSG_POSLLH MSG_STATUS MSG_SOL MSG_VELNED MSG_TIMEUTC
       MSG_PVT MSG_VER MSG_ACK_ACK MSG_ACK_NACK].

(** The mapper never touches the decoder's variables, the buffers, the
    counters or the port. *)
Lemma gpsParceFrameUBLOX_decoder s :
  let s' := fst (gpsParceFrameUBLOX s) in
  _step s' = _step s /\ _skip_packet s' = _skip_packet s
  /\ _buffer s' = _buffer s /\ errors s' = errors s
  /\ packetCount s' = packetCount s /\ send_buffer s' = send_buffer s
  /\ gpsPort s' = gpsPort s /\ _ack_waiting_msg s' = _ack_waiting_msg s.
Proof. mapper_cases; repeat split; reflexivity. Qed.

(** ** The decoder, step by step *)

Lemma step_view (z : Z) :
  z = 0 \/ z = 1 \/ z = 2 \/ z = 3 \/ z = 4 \/ z = 5 \/ z = 6 \/ z = 7 \/ z = 8
  \/ (z < 0 \/ 8 < z).
Proof. lia. Qed.

Lemma gpsNewFrameUBLOX_out_of_range data s :
  _step s < 0 \/ 8 < _step s -> gpsNewFrameUBLOX data s = (s, false).
Proof.
  intros Hr. unfold gpsNewFrameUBLOX.
  destruct (_step s) as [|p|p]; [lia| |reflexivity].
  do 4 (try (destruct p as [p|p|]; try lia; try reflexivity)).
Qed.

(** Unfold the decoder in a state whose step is known. *)
Ltac decoder_step E :=
  unfold gpsNewFrameUBLOX, step_incr; rewrite E; cbv zeta.

Lemma gpsNewFrameUBLOX_0 data s :
  _step s = 0 ->
  gpsNewFrameUBLOX data s =
  if PREAMBLE1 =? data then (set_step 1 (set_skip_packet false s), false)
  else (s, false).
Proof. intros E. decoder_step E. fields. rewrite ?E. reflexivity. Qed.

Lemma gpsNewFrameUBLOX_1 data s :
  _step s = 1 ->
  gpsNewFrameUBLOX data s =
  if PREAMBLE2 =? data then (set_step 2 s, false) else (set_step 0 s, false).
Proof.
  intros E. decoder_step E. fields. rewrite ?E.
  destruct (PREAMBLE2 =? data); reflexivity.
Qed.

Lemma gpsNewFrameUBLOX_2 data s :
  _step s = 2 ->
  gpsNewFrameUBLOX data s =
  (set_ck_b data (set_ck_a data (set_class data (set_step 3 s))), false).
Proof. intros E. decoder_step E. fields. rewrite ?E. reflexivity. Qed.

Lemma gpsNewFrameUBLOX_3 data s :
  _step s = 3 ->
  gpsNewFrameUBLOX data s =
  (set_msg_id data (checksum_byte data (set_step 4 s)), false).
Proof. intros E. decoder_step E. fields. rewrite ?E. reflexivity. Qed.

Lemma gpsNewFrameUBLOX_4 data s :
  _step s = 4 ->
  gpsNewFrameUBLOX data s =
  (set_payload_length data (checksum_byte data (set_step 5 s)), false).
Proof. intros E. decoder_step E. fields. rewrite ?E. reflexivity. Qed.

Lemma gpsNewFrameUBLOX_5 data s :
  _step s = 5 ->
  gpsNewFrameUBLOX data s =
  let s1 := set_payload_length (combined_length s data)
              (checksum_byte data s) in
  if MAX_UBLOX_PAYLOAD_SIZE <? combined_length s data
  then (set_step 0 (set_errors (errors s + 1) s1), false)
  else if combined_length s data =? 0
       then (set_step 7 (set_payload_counter 0 s1), false)
       else (set_step 6 (set_payload_counter 0 s1), false).
Proof.
  intros E. decoder_step E. fields. rewrite ?E. fold (combined_length s data).
  repeat case_match; try reflexivity.
  all: destruct s; reflexivity.
Qed.

Lemma gpsNewFrameUBLOX_6 data s :
  _step s = 6 ->
  gpsNewFrameUBLOX data s =
  let s1 := checksum_byte data s in
  let s2 := if _payload_counter s <? MAX_UBLOX_PAYLOAD_SIZE
            then set_buffer (wr (_buffer s) (_payload_counter s) data) s1
            else s1 in
  let s3 := if _payload_counter s =? _payload_length s - 1
            then set_step 7 s2 else s2 in
  (set_payload_counter (uint16_t (_payload_counter s + 1)) s3, false).
Proof.
  intros E. decoder_step E. fields.
  destruct (_payload_counter s <? MAX_UBLOX_PAYLOAD_SIZE); fields;
    destruct (_payload_counter s =? _payload_length s - 1); fields;
    rewrite ?E; reflexivity.
Qed.

Lemma gpsNewFrameUBLOX_7 data s :
  _step s = 7 ->
  gpsNewFrameUBLOX data s =
  if _ck_a s =? data then (set_step 8 s, false)
  else (set_step 0 (set_errors (errors s + 1) (set_skip_packet true s)), false).
Proof.
  intros E. decoder_step E. fields. rewrite ?E.
  destruct (_ck_a s =? data); reflexivity.
Qed.

Lemma gpsNewFrameUBLOX_8 data s :
  _step s = 8 ->
  gpsNewFrameUBLOX data s =
  if _ck_b s =? data then
    if _skip_packet s
    then (set_packetCount (packetCount s + 1) (set_step 0 s), false)
    else gpsParceFrameUBLOX (set_packetCount (packetCount s + 1) (set_step 0 s))
  else (set_errors (errors s + 1) (set_step 0 s), false).
Proof.
  intros E. decoder_step E. fields.
  destruct (_ck_b s =? data); fields; [|reflexivity].
  destruct (_skip_packet s); [reflexivity|].
  destruct (gpsParceFrameUBLOX _) as [s' []]; reflexivity.
Qed.

(** Case analysis on the step of the decoder, with the matching equation. *)
Ltac decoder_cases s data :=
  let E := fresh "Estep" in
  destruct (step_view (_step s)) as [E|[E|[E|[E|[E|[E|[E|[E|[E|E]]]]]]]]];
  [ rewrite (gpsNewFrameUBLOX_0 data s E)
  | rewrite (gpsNewFrameUBLOX_1 data s E)
  | rewrite (gpsNewFrameUBLOX_2 data s E)
  | rewrite (gpsNewFrameUBLOX_3 data s E)
  | rewrite (gpsNewFrameUBLOX_4 data s E)
  | rewrite (gpsNewFrameUBLOX_5 data s E)
  | rewrite (gpsNewFrameUBLOX_6 data s E)
  | rewrite (gpsNewFrameUBLOX_7 data s E)
  | rewrite (gpsNewFrameUBLOX_8 data s E)
  | rewrite (gpsNewFrameUBLOX_out_of_range data s E) ].

(** The payload buffer changes in one place only. *)
Lemma gpsNewFrameUBLOX_buffer data s :
  _buffer (fst (gpsNewFrameUBLOX data s)) =
  if (_step s =? 6) && (_payload_counter s <? MAX_UBLOX_PAYLOAD_SIZE)
  then wr (_buffer s) (_payload_counter s) data
  else _buffer s.
Proof.
  decoder_cases s data; cbv zeta.
  10: { assert ((_step s =? 6) = false) as -> by lia. reflexivity. }
  all: rewrite Estep; cbn [Z.eqb Pos.eqb andb].
  9: { repeat case_match; try reflexivity.
       apply (gpsParceFrameUBLOX_decoder
                (set_packetCount (packetCount s + 1) (set_step 0 s))). }
  all: repeat case_match; reflexivity.
Qed.

(** Two bytes combine into the little-endian 16-bit value. *)
Lemma lor_shiftl_bytes lo hi :
  is_byte lo -> is_byte hi -> Z.lor lo (uint16_t (Z.shiftl hi 8)) = lo + 256 * hi.
Proof.
  unfold is_byte. intros Hlo Hhi.
  rewrite Z.shiftl_mul_pow2 by lia. change (2 ^ 8) with 256.
  rewrite uint16_t_small by lia.
  rewrite <- Z.lxor_lor, <- Z.add_nocarry_lxor; try lia.
  all: apply Z.bits_inj'; intros n Hn; rewrite Z.land_spec, Z.bits_0.
  all: destruct (Z.lt_ge_cases n 8) as [Hlt|Hge].
  all: try (replace (hi * 256) with (Z.shiftl hi 8)
              by (rewrite Z.shiftl_mul_pow2 by lia; reflexivity);
            rewrite (Z.shiftl_spec_low hi 8 n) by lia; apply andb_false_r).
  all: replace (Z.testbit lo n) with false; [reflexivity|].
  all: symmetry; destruct (Z.eq_dec lo 0) as [->|Hnz]; [apply Z.bits_0|].
  all: apply Z.bits_above_log2; [lia|].
  all: assert (Z.log2 lo < 8) by (apply Z.log2_lt_pow2; lia); lia.
Qed.

Lemma feed_app l1 l2 s :
  feed (l1 ++ l2) s =
  (fst (feed l2 (fst (feed l1 s))),
   snd (feed l1 s) ++ snd (feed l2 (fst (feed l1 s)))).
Proof.
  revert s. induction l1 as [|d l1 IH]; intros s; cbn [feed app fst snd].
  - destruct (feed l2 s); reflexivity.
  - destruct (gpsNewFrameUBLOX d s) as [s1 r]. rewrite IH.
    destruct (feed l1 s1) as [s2 rs]. reflexivity.
Qed.

Lemma feed_buffer_above bytes : forall s k,
  MAX_UBLOX_PAYLOAD_SIZE <= k ->
  _buffer (fst (feed bytes s)) !! k = _buffer s !! k.
Proof.
  induction bytes as [|d bytes IH]; intros s k Hk; cbn [feed].
  - reflexivity.
  - destruct (gpsNewFrameUBLOX d s) as [s1 r] eqn:E1.
    specialize (IH s1 k Hk). destruct (feed bytes s1) as [s2 rs].
    cbn [fst] in *. rewrite IH.
    replace s1 with (fst (gpsNewFrameUBLOX d s)) by (rewrite E1; reflexivity).
    rewrite gpsNewFrameUBLOX_buffer.
    destruct (_step s =? 6); cbn [andb]; [|reflexivity].
    destruct (Z.ltb_spec (_payload_counter s) MAX_UBLOX_PAYLOAD_SIZE); [|reflexivity].
    unfold wr. apply lookup_insert_ne. lia.
Qed.

(** C5.  A declared length above the 256-byte capacity is counted as an
    error and abandoned on its high byte, in whatever state that byte
    arrives; for a header met in sync search, the combined length is the
    little-endian value of the two length bytes, the decoder is back in
    sync search, nothing was stored, and the next byte is examined as a
    sync byte.  In the payload state a byte is stored only while the payload
    counter is below the capacity, so no input stream ever changes the
    buffer at an offset of 256 or more. *)
Theorem oversized_length_is_discarded :
  (forall s data,
      _step s = 5 -> MAX_UBLOX_PAYLOAD_SIZE < combined_length s data ->
      let s' := fst (gpsNewFrameUBLOX data s) in
      _step s' = 0 /\ errors s' = errors s + 1 /\ _buffer s' = _buffer s)
  /\ (forall s cls id lo hi,
      _step s = 0 -> is_byte lo -> is_byte hi ->
      MAX_UBLOX_PAYLOAD_SIZE < lo + 256 * hi ->
      let s' := fst (feed [PREAMBLE1; PREAMBLE2; cls; id; lo; hi] s) in
      _step s' = 0 /\ errors s' = errors s + 1 /\ packetCount s' = packetCount s
      /\ _buffer s' = _buffer s
      /\ forall next,
           gpsNewFrameUBLOX next s' =
           if PREAMBLE1 =? next then (set_step 1 (set_skip_packet false s'), false)
           else (s', false))
  /\ (forall s data,
         _step s = 6 ->
         _buffer (fst (gpsNewFrameUBLOX data s)) =
         if _payload_counter s <? MAX_UBLOX_PAYLOAD_SIZE
         then wr (_buffer s) (_payload_counter s) data
         else _buffer s)
  /\ (forall bytes s k,
         MAX_UBLOX_PAYLOAD_SIZE <= k ->
         _buffer (fst (feed bytes s)) !! k = _buffer s !! k).
Proof.
  split; [|split; [|split]].
  - intros s data E Hlen. cbv zeta.
    rewrite (gpsNewFrameUBLOX_5 data s E). cbv zeta.
    destruct (Z.ltb_spec MAX_UBLOX_PAYLOAD_SIZE (combined_length s data)) as [_|Hle];
      [|lia].
    fields. repeat split; reflexivity.
  - intros s cls id lo hi E Hlo Hhi Hlen.
    cbn [feed].
    rewrite (gpsNewFrameUBLOX_0 _ s E), Z.eqb_refl.
    rewrite gpsNewFrameUBLOX_1 by reflexivity. rewrite Z.eqb_refl.
    rewrite gpsNewFrameUBLOX_2 by reflexivity.
    rewrite gpsNewFrameUBLOX_3 by reflexivity.
    rewrite gpsNewFrameUBLOX_4 by reflexivity.
    rewrite gpsNewFrameUBLOX_5 by reflexivity.
    cbv zeta. unfold combined_length. fields.
    rewrite (lor_shiftl_bytes lo hi Hlo Hhi).
    destruct (Z.ltb_spec MAX_UBLOX_PAYLOAD_SIZE (lo + 256 * hi)) as [_|Hle]; [|lia].
    fields. repeat split; reflexivity.
  - intros s data E. rewrite gpsNewFrameUBLOX_buffer, E. reflexivity.
  - intros bytes s k Hk. apply feed_buffer_above, Hk.
Qed.

(** ** The skip flag *)

Lemma sequencer_action_decoder cfg a s :
  sequencer_action cfg a -> _step (a s) = _step s /\ _skip_packet (a s) = _skip_packet s.
Proof.
  intros Ha; destruct Ha;
    unfold pollVersion, configureNAV5, configureMSG, configureRATE, configureSBAS,
      configureGNSS, configureGNSS_SBAS, configureGNSS_GALILEO, set_header,
      sendConfigMessageUBLOX; cbv zeta;
    repeat first [progress fields | case_match; simplify_eq]; split; reflexivity.
Qed.

Lemma gpsNewFrameUBLOX_inv data s :
  decoder_inv s -> decoder_inv (fst (gpsNewFrameUBLOX data s)).
Proof.
  unfold decoder_inv. intros [Hskip Hrange].
  decoder_cases s data; cbv zeta.
  9: { destruct (_ck_b s =? data); [|fields; split; [congruence|lia]].
       rewrite Hskip by lia.
       destruct (gpsParceFrameUBLOX_decoder
                   (set_packetCount (packetCount s + 1) (set_step 0 s)))
         as (Hs & Hk & _).
       cbv zeta in Hs, Hk. rewrite Hs, Hk. fields. split; [congruence|lia]. }
  all: repeat first [progress fields | case_match];
    first [ split; [first [congruence | intros _; apply Hskip; lia] | lia] | lia ].
Qed.

Lemma reachable_inv cfg s : reachable cfg s -> decoder_inv s.
Proof.
  induction 1 as [sol hw errs pkts|data s _ IH _|a s _ IH Ha].
  - split; [intros Hne; reflexivity|cbn; lia].
  - apply gpsNewFrameUBLOX_inv, IH.
  - destruct (sequencer_action_decoder cfg a s Ha) as [Hs Hk].
    unfold decoder_inv. rewrite Hs, Hk. exact IH.
Qed.

Lemma reachable_feed cfg bytes : forall s,
  reachable cfg s ->
  forallb (fun z => (0 <=? z) && (z <? 256)) bytes = true ->
  reachable cfg (fst (feed bytes s)).
Proof.
  induction bytes as [|d bytes IH]; intros s Hr Hb; cbn [feed].
  - exact Hr.
  - cbn [forallb] in Hb. apply andb_prop in Hb as [Hd Hb].
    apply andb_prop in Hd as [Hd1 Hd2].
    pose proof (reach_byte cfg d s Hr ltac:(unfold is_byte; lia)) as Hr1.
    destruct (gpsNewFrameUBLOX d s) as [s1 r]. cbn [fst] in Hr1.
    specialize (IH s1 Hr1 Hb). destruct (feed bytes s1) as [s2 rs]. exact IH.
Qed.

(** ** Solution mapper *)

(** A mask of one bit tests that bit. *)
Lemma truthy_land_bit v k :
  0 <= k -> truthy (Z.land v (Z.shiftl 1 k)) = Z.testbit v k.
Proof.
  intros Hk. unfold truthy. rewrite Z.shiftl_1_l.
  destruct (Z.testbit v k) eqn:Hbit.
  - destruct (Z.eqb_spec (Z.land v (2 ^ k)) 0) as [Hz|_]; [|reflexivity].
    assert (Hb : Z.testbit (Z.land v (2 ^ k)) k = true)
      by (rewrite Z.land_spec, Hbit, Z.pow2_bits_true by lia; reflexivity).
    rewrite Hz, Z.bits_0 in Hb. discriminate.
  - replace (Z.land v (2 ^ k)) with 0; [reflexivity|].
    symmetry. apply Z.bits_inj'. intros n Hn.
    rewrite Z.land_spec, Z.bits_0, Z.pow2_bits_eqb by lia.
    destruct (Z.eqb_spec k n) as [->|_]; [rewrite Hbit; reflexivity|].
    apply andb_false_r.
Qed.

Lemma valid_date_time_bits valid :
  UBX_VALID_GPS_DATE_TIME valid = Z.testbit valid 0 && Z.testbit valid 1.
Proof.
  unfold UBX_VALID_GPS_DATE_TIME, UBX_VALID_GPS_DATE, UBX_VALID_GPS_TIME.
  rewrite !truthy_land_bit by lia. reflexivity.
Qed.

(** ** Assignments to fields declared elsewhere *)

Lemma c_bits_pos t : 0 < c_bits t.
Proof. destruct t; reflexivity. Qed.

Lemma c_max_min t : c_max t = c_min t + 2 ^ c_bits t - 1.
Proof. destruct t; reflexivity. Qed.

(** A conversion yields a value of the type, and keeps a value the type
    represents. *)
Lemma c_convert_range t z : c_representable t (c_convert t z).
Proof.
  unfold c_representable, c_convert. rewrite c_max_min.
  pose proof (c_bits_pos t) as Hb.
  assert (Hp : 0 < 2 ^ c_bits t) by (apply Z.pow_pos_nonneg; lia).
  pose proof (Z.mod_pos_bound (z - c_min t) (2 ^ c_bits t) Hp). lia.
Qed.

Lemma c_convert_representable t z : c_representable t z -> c_convert t z = z.
Proof.
  unfold c_representable, c_convert. rewrite c_max_min. intros Hz.
  rewrite Z.mod_small by lia. lia.
Qed.

Lemma c_convert_congruent t z : (c_convert t z - z) mod 2 ^ c_bits t = 0.
Proof.
  unfold c_convert.
  pose proof (c_bits_pos t) as Hb.
  assert (Hp : 0 < 2 ^ c_bits t) by (apply Z.pow_pos_nonneg; lia).
  rewrite (Z.mod_eq (z - c_min t)) by lia.
  replace (z - c_min t - 2 ^ c_bits t * ((z - c_min t) / 2 ^ c_bits t) + c_min t - z)
    with (- ((z - c_min t) / 2 ^ c_bits t) * 2 ^ c_bits t) by lia.
  apply Z.mod_mul. lia.
Qed.

Lemma holds_assigned_eq t v x : x = c_convert t v -> holds_assigned t v x.
Proof. intros ->. split; [reflexivity|apply c_convert_representable]. Qed.




Lemma rd_u16_wr_u16_nonneg b i v : 0 <= rd_u16 (wr_u16 b i v) i.
Proof.
  unfold rd_u16, wr_u16, rd, wr.
  rewrite lookup_insert_eq, lookup_insert_ne, lookup_insert_eq by lia.
  cbn [default]. apply Z.lor_nonneg. split.
  - apply uint8_t_range.
  - apply Z.shiftl_nonneg, uint8_t_range.
Qed.

(** Sending a command records its id and starts waiting. *)
Lemma sendConfigMessageUBLOX_tracks class id length s :
  let sent := sendConfigMessageUBLOX (set_header class id length s) in
  _ack_state sent = UBX_ACK_WAITING /\ _ack_waiting_msg sent = id.
Proof.
  cbv zeta. unfold sendConfigMessageUBLOX, set_header. cbv zeta. fields.
  destruct (_update_checksum _ _ _) as [ck_a ck_b]. fields.
  split; [reflexivity|].
  set (sb := wr_u16 _ HDR_LENGTH length).
  assert (Hlen : 0 <= rd_u16 (wr (wr sb 0 PREAMBLE1) 1 PREAMBLE2) HDR_LENGTH).
  { pose proof (rd_u16_wr_u16_nonneg
                  (wr (wr (send_buffer s) HDR_MSG_CLASS class) HDR_MSG_ID id)
                  HDR_LENGTH length) as Hnn.
    fold sb in Hnn. revert Hnn. unfold rd_u16, rd, wr, HDR_LENGTH.
    rewrite !lookup_insert_ne by lia. auto. }
  revert Hlen. generalize (rd_u16 (wr (wr sb 0 PREAMBLE1) 1 PREAMBLE2) HDR_LENGTH).
  intros len Hlen. subst sb.
  unfold rd, wr, wr_u16, wr, HDR_MSG_ID, HDR_LENGTH, HDR_MSG_CLASS.
  rewrite !lookup_insert_ne by lia. rewrite lookup_insert_eq. reflexivity.
Qed.

(** What accepting a frame changes: the decoder's view of the frame, and
    nothing of the mapper's or the tracker's. *)
Lemma frame_accepted_fields f s :
  let s' := frame_accepted f s in
  _class s' = frame_class f /\ _msg_id s' = frame_id f
  /\ _payload_length s' = Z.of_nat (length (frame_payload f))
  /\ _buffer s' = store_bytes (frame_payload f) 0 (_buffer s)
  /\ _ack_state s' = _ack_state s /\ _ack_waiting_msg s' = _ack_waiting_msg s
  /\ _new_position s' = _new_position s /\ _new_speed s' = _new_speed s
  /\ gpsSol s' = gpsSol s.
Proof.
  cbv zeta. unfold frame_accepted.
  destruct (_update_checksum _ 0 0) as [ck_a ck_b]. cbv zeta. fields.
  repeat split; reflexivity.
Qed.

Lemma ack_frame_outcome s :
  _ack_state s = UBX_ACK_WAITING ->
  (_msg_id s = MSG_ACK_ACK ->
     _ack_state (fst (gpsParceFrameUBLOX s)) =
     if ack_msg (_buffer s) =? _ack_waiting_msg s
     then UBX_ACK_GOT_ACK else UBX_ACK_WAITING)
  /\ (_msg_id s = MSG_ACK_NACK ->
        _ack_state (fst (gpsParceFrameUBLOX s)) =
        if ack_msg (_buffer s) =? _ack_waiting_msg s
        then UBX_ACK_GOT_NAK else UBX_ACK_WAITING).
Proof.
  intros Hw.
  split; intros E; mapper_at E; rewrite Hw;
    rewrite bool_decide_eq_true_2 by reflexivity; cbn [andb];
    destruct (ack_msg (_buffer s) =? _ack_waiting_msg s); fields;
    destruct (_new_position s && _new_speed s); fields; congruence.
Qed.

(** C3.  While a command is awaited, an acknowledge frame whose message-id
    field equals the awaited id sets the state to acknowledged, a negative
    acknowledge to negative-acknowledged, and any other id leaves it
    waiting; the class field of the payload plays no part.  After a command
    with id 0x07 is sent, the payload (0x06, 0x07) acknowledges it and a
    payload with id 0x08 does not. *)
Theorem ack_matches_on_message_id s :
  _ack_state s = UBX_ACK_WAITING ->
  (_msg_id s = MSG_ACK_ACK ->
     _ack_state (fst (gpsParceFrameUBLOX s)) =
     if ack_msg (_buffer s) =? _ack_waiting_msg s
     then UBX_ACK_GOT_ACK else UBX_ACK_WAITING)
  /\ (_msg_id s = MSG_ACK_NACK ->
        _ack_state (fst (gpsParceFrameUBLOX s)) =
        if ack_msg (_buffer s) =? _ack_waiting_msg s
        then UBX_ACK_GOT_NAK else UBX_ACK_WAITING)
  /\ (forall class,
        _ack_state (fst (gpsParceFrameUBLOX (set_buffer (wr (_buffer s) 0 class) s)))
        = _ack_state (fst (gpsParceFrameUBLOX s)))
  /\ (forall s0 class0 len class,
        let sent := sendConfigMessageUBLOX (set_header class0 0x07 len s0) in
        let ack payload := Build_ubx_frame CLASS_ACK MSG_ACK_ACK payload in
        _ack_state sent = UBX_ACK_WAITING
        /\ _ack_state (fst (gpsParceFrameUBLOX (frame_accepted (ack [0x06; 0x07]) sent)))
           = UBX_ACK_GOT_ACK
        /\ _ack_state (fst (gpsParceFrameUBLOX (frame_accepted (ack [class; 0x08]) sent)))
           = UBX_ACK_WAITING).
Proof.
  intros Hw. destruct (ack_frame_outcome s Hw) as [Hack Hnak].
  split; [exact Hack|]. split; [exact Hnak|]. split.
  - intros class.
    assert (Hmsg : ack_msg (wr (_buffer s) 0 class) = ack_msg (_buffer s)).
    { unfold ack_msg, rd, wr. rewrite lookup_insert_ne by lia. reflexivity. }
    unfold gpsParceFrameUBLOX, gpsParceFrameUBLOX_switch, apply_time. cbv zeta.
    fields. rewrite Hmsg.
    repeat first [progress fields | case_match; simplify_eq]; reflexivity.
  - intros s0 class0 len class. cbv zeta.
    destruct (sendConfigMessageUBLOX_tracks class0 0x07 len s0) as [Hst Hwait].
    cbv zeta in Hst, Hwait.
    set (sent := sendConfigMessageUBLOX (set_header class0 7 len s0)) in *.
    split; [exact Hst|].
    assert (Hframe : forall c m,
              let s' := frame_accepted (Build_ubx_frame CLASS_ACK MSG_ACK_ACK [c; m]) sent in
              _ack_state (fst (gpsParceFrameUBLOX s')) =
              if m =? 7 then UBX_ACK_GOT_ACK else UBX_ACK_WAITING).
    { intros c m s'.
      destruct (frame_accepted_fields (Build_ubx_frame CLASS_ACK MSG_ACK_ACK [c; m]) sent)
        as (_ & Hid & _ & Hbuf & Hst' & Hwait' & _).
      fold s' in Hid, Hbuf, Hst', Hwait'.
      destruct (ack_frame_outcome s') as [Hgot _]; [congruence|].
      rewrite Hgot by exact Hid. rewrite Hwait', Hwait, Hbuf.
      cbn [frame_payload store_bytes]. unfold ack_msg, rd, wr.
      rewrite lookup_insert_eq. reflexivity. }
    split; [apply (Hframe 6 7)|apply (Hframe class 8)].
Qed.

(** ** Epoch completion *)

(** Case analysis over the whole mapper, with every condition met on the
    way recorded as a hypothesis. *)
Ltac mapper_paths :=
  unfold gpsParceFrameUBLOX, dispatched, gpsParceFrameUBLOX_switch, apply_time;
  cbv zeta;
  repeat first [progress fields | case_match; simplify_eq];
  fields_all;
  repeat match goal with
         | H : (_ =? _) = true |- _ => apply Z.eqb_eq in H
         | H : (_ =? _) = false |- _ => apply Z.eqb_neq in H
         end.

Lemma parse_without_position s :
  _new_position s = false -> _msg_id s <> MSG_POSLLH -> _msg_id s <> MSG_PVT ->
  snd (gpsParceFrameUBLOX s) = false /\ _new_position (fst (gpsParceFrameUBLOX s)) = false.
Proof.
  intros Hp H1 H2. mapper_paths; try congruence; try (split; congruence).
  all: rewrite ?Hp in *; cbn [andb] in *; try discriminate; split; congruence.
Qed.

Lemma parse_without_velocity s :
  _new_speed s = false -> _msg_id s <> MSG_VELNED -> _msg_id s <> MSG_PVT ->
  snd (gpsParceFrameUBLOX s) = false /\ _new_speed (fst (gpsParceFrameUBLOX s)) = false.
Proof.
  intros Hp H1 H2. mapper_paths; try congruence; try (split; congruence).
  all: rewrite ?Hp, ?andb_false_r in *; try discriminate; split; congruence.
Qed.

(** After the mapper has run, the two latches are never both set, provided
    they were not both set before. *)
Lemma parse_latches s :
  _new_position s && _new_speed s = false ->
  let s1 := dispatched s in
  let '(s', r) := gpsParceFrameUBLOX s in
  r = _new_position s1 && _new_speed s1
  /\ (r = true -> _new_position s' = false /\ _new_speed s' = false)
  /\ (r = false -> s' = s1)
  /\ _new_position s' && _new_speed s' = false.
Proof.
  intros Hinv. cbv zeta.
  destruct (gpsParceFrameUBLOX s) as [s' r] eqn:Hparse.
  unfold gpsParceFrameUBLOX, dispatched in *.
  destruct (gpsParceFrameUBLOX_switch s) as [s1|]; cbn [default].
  - destruct (_new_position s1 && _new_speed s1) eqn:Hl; simplify_eq; fields.
    + repeat split; auto; discriminate.
    + repeat split; auto; discriminate.
  - simplify_eq. rewrite Hinv. repeat split; auto; discriminate.
Qed.

Lemma sequencer_action_latches cfg a s :
  sequencer_action cfg a ->
  _new_position (a s) = _new_position s /\ _new_speed (a s) = _new_speed s.
Proof.
  intros Ha; destruct Ha;
    unfold pollVersion, configureNAV5, configureMSG, configureRATE, configureSBAS,
      configureGNSS, configureGNSS_SBAS, configureGNSS_GALILEO, set_header,
      sendConfigMessageUBLOX; cbv zeta;
    repeat first [progress fields | case_match; simplify_eq]; split; reflexivity.
Qed.

Lemma gpsNewFrameUBLOX_latches data s :
  _new_position s && _new_speed s = false ->
  _new_position (fst (gpsNewFrameUBLOX data s))
  && _new_speed (fst (gpsNewFrameUBLOX data s)) = false.
Proof.
  intros Hinv. decoder_cases s data; cbv zeta.
  9: { destruct (_ck_b s =? data); [|exact Hinv].
       destruct (_skip_packet s); [exact Hinv|].
       pose proof (parse_latches
                     (set_packetCount (packetCount s + 1) (set_step 0 s)) Hinv) as Hl.
       cbv zeta in Hl. destruct (gpsParceFrameUBLOX _) as [s' r].
       apply Hl. }
  all: repeat first [progress fields | case_match]; exact Hinv.
Qed.

Lemma reachable_latches cfg s :
  reachable cfg s -> _new_position s && _new_speed s = false.
Proof.
  induction 1 as [sol hw errs pkts|data s _ IH _|a s _ IH Ha].
  - reflexivity.
  - apply gpsNewFrameUBLOX_latches, IH.
  - destruct (sequencer_action_latches cfg a s Ha) as [-> ->]. exact IH.
Qed.

Lemma parse_frames_without_position fs : forall s,
  _new_position s = false ->
  forallb (fun f => negb (position_bearing f)) fs = true ->
  Forall (fun r => r = false) (snd (parse_frames fs s)).
Proof.
  induction fs as [|f fs IH]; intros s Hp Hfs; cbn [parse_frames].
  - constructor.
  - cbn [forallb] in Hfs. apply andb_prop in Hfs as [Hf Hfs].
    unfold position_bearing in Hf.
    apply negb_true_iff, orb_false_iff in Hf as [Hf1 Hf2].
    apply Z.eqb_neq in Hf1, Hf2.
    destruct (frame_accepted_fields f s) as (_ & Hid & _ & _ & _ & _ & Hnp & _).
    destruct (parse_without_position (frame_accepted f s)) as [Hr Hp'];
      [congruence..|].
    destruct (gpsParceFrameUBLOX (frame_accepted f s)) as [s1 r].
    cbn [fst snd] in Hr, Hp'. specialize (IH s1 Hp' Hfs).
    destruct (parse_frames fs s1) as [s2 rs]. cbn [snd] in *.
    constructor; assumption.
Qed.

Lemma parse_frames_without_velocity fs : forall s,
  _new_speed s = false ->
  forallb (fun f => negb (velocity_bearing f)) fs = true ->
  Forall (fun r => r = false) (snd (parse_frames fs s)).
Proof.
  induction fs as [|f fs IH]; intros s Hp Hfs; cbn [parse_frames].
  - constructor.
  - cbn [forallb] in Hfs. apply andb_prop in Hfs as [Hf Hfs].
    unfold velocity_bearing in Hf.
    apply negb_true_iff, orb_false_iff in Hf as [Hf1 Hf2].
    apply Z.eqb_neq in Hf1, Hf2.
    destruct (frame_accepted_fields f s) as (_ & Hid & _ & _ & _ & _ & _ & Hns & _).
    destruct (parse_without_velocity (frame_accepted f s)) as [Hr Hp'];
      [congruence..|].
    destruct (gpsParceFrameUBLOX (frame_accepted f s)) as [s1 r].
    cbn [fst snd] in Hr, Hp'. specialize (IH s1 Hp' Hfs).
    destruct (parse_frames fs s1) as [s2 rs]. cbn [snd] in *.
    constructor; assumption.
Qed.

(** C6.  In every reachable state the two latches are not both set.  From
    such a state the mapper reports epoch-complete exactly when both
    latches are set after the dispatch, and then clears both before
    reporting; a combined PVT frame always reports completion; and after a
    firing, no sequence of frames without a position-bearing frame, or
    without a velocity-bearing one, reports completion. *)
Theorem epoch_completion_needs_position_and_velocity :
  (forall cfg s, reachable cfg s -> _new_position s && _new_speed s = false)
  /\ (forall s,
         _new_position s && _new_speed s = false ->
         let s1 := dispatched s in
         let '(s', r) := gpsParceFrameUBLOX s in
         r = _new_position s1 && _new_speed s1
         /\ (r = true -> _new_position s' = false /\ _new_speed s' = false)
         /\ (r = false -> s' = s1)
         /\ _new_position s' && _new_speed s' = false)
  /\ (forall s,
         _msg_id s = MSG_PVT ->
         _new_position (dispatched s) = true /\ _new_speed (dispatched s) = true
         /\ snd (gpsParceFrameUBLOX s) = true)
  /\ (forall fs s,
         _new_position s = false -> _new_speed s = false ->
         forallb (fun f => negb (position_bearing f)) fs = true
         \/ forallb (fun f => negb (velocity_bearing f)) fs = true ->
         Forall (fun r => r = false) (snd (parse_frames fs s))).
Proof.
  split; [|split; [|split]].
  - apply reachable_latches.
  - apply parse_latches.
  - intros s E. unfold dispatched. mapper_at E. unfold apply_time.
    destruct (UBX_VALID_GPS_DATE_TIME _); fields; repeat split; reflexivity.
  - intros fs s Hp Hv [Hfs|Hfs].
    + apply parse_frames_without_position; assumption.
    + apply parse_frames_without_velocity; assumption.
Qed.

(** ** A whole frame *)

Lemma length_bytes len :
  0 <= len < 65536 ->
  Z.lor (uint8_t len) (uint16_t (Z.shiftl (uint8_t (Z.shiftr len 8)) 8)) = len.
Proof.
  intros Hlen.
  rewrite lor_shiftl_bytes by apply uint8_t_range.
  unfold uint8_t. rewrite Z.shiftr_div_pow2 by lia. change (2 ^ 8) with 256.
  assert (0 <= len / 256 < 256)
    by (split; [apply Z.div_pos; lia|apply Z.div_lt_upper_bound; lia]).
  rewrite (Z.mod_small (len / 256)) by lia.
  rewrite (Z.mod_eq len 256) by lia. lia.
Qed.

(** The payload state, over a whole payload. *)
Lemma feed_payload payload : forall s,
  payload <> [] -> _step s = 6 -> 0 <= _payload_counter s ->
  _payload_counter s + Z.of_nat (length payload) = _payload_length s ->
  _payload_length s <= MAX_UBLOX_PAYLOAD_SIZE ->
  feed payload s =
  (set_payload_counter (_payload_length s)
     (set_step 7
        (set_buffer (store_bytes payload (_payload_counter s) (_buffer s))
           (set_ck_b (snd (_update_checksum payload (_ck_a s) (_ck_b s)))
              (set_ck_a (fst (_update_checksum payload (_ck_a s) (_ck_b s))) s)))),
   replicate (length payload) false).
Proof.
  unfold MAX_UBLOX_PAYLOAD_SIZE.
  induction payload as [|d rest IH]; intros s Hne E Hc Hlen Hmax; [congruence|].
  cbn [feed]. rewrite (gpsNewFrameUBLOX_6 d s E). cbv zeta.
  cbn [length] in Hlen.
  destruct (Z.ltb_spec (_payload_counter s) MAX_UBLOX_PAYLOAD_SIZE) as [_|Hge];
    [|unfold MAX_UBLOX_PAYLOAD_SIZE in Hge; lia].
  rewrite uint16_t_small by lia.
  destruct rest as [|d' rest'].
  - cbn [length] in Hlen.
    destruct (Z.eqb_spec (_payload_counter s) (_payload_length s - 1)) as [_|Hn];
      [|lia].
    cbn [feed _update_checksum store_bytes length replicate fst snd].
    replace (_payload_counter s + 1) with (_payload_length s) by lia.
    destruct s; reflexivity.
  - destruct (Z.eqb_spec (_payload_counter s) (_payload_length s - 1)) as [He|_];
      [cbn [length] in Hlen; lia|].
    set (s1 := set_payload_counter _ _).
    rewrite (IH s1); subst s1; fields; try congruence; try lia.
    cbn [_update_checksum store_bytes length replicate fst snd].
    destruct s; reflexivity.
Qed.

(** The six bytes of a header whose declared length fits the buffer. *)
Lemma feed_header cls id lo hi s :
  _step s = 0 ->
  Z.lor lo (uint16_t (Z.shiftl hi 8)) <= MAX_UBLOX_PAYLOAD_SIZE ->
  feed [PREAMBLE1; PREAMBLE2; cls; id; lo; hi] s =
  (let len := Z.lor lo (uint16_t (Z.shiftl hi 8)) in
   let ck := _update_checksum [id; lo; hi] cls cls in
   set_step (if len =? 0 then 7 else 6)
     (set_payload_counter 0
        (set_payload_length len
           (set_ck_b (snd ck)
              (set_ck_a (fst ck)
                 (set_msg_id id (set_class cls (set_skip_packet false s))))))),
   replicate 6 false).
Proof.
  intros E Hlen.
  cbn [feed].
  rewrite (gpsNewFrameUBLOX_0 _ s E), Z.eqb_refl.
  rewrite gpsNewFrameUBLOX_1 by reflexivity. rewrite Z.eqb_refl.
  rewrite gpsNewFrameUBLOX_2 by reflexivity.
  rewrite gpsNewFrameUBLOX_3 by reflexivity.
  rewrite gpsNewFrameUBLOX_4 by reflexivity.
  rewrite gpsNewFrameUBLOX_5 by reflexivity.
  cbv zeta. unfold combined_length. fields.
  destruct (Z.ltb_spec MAX_UBLOX_PAYLOAD_SIZE (Z.lor lo (uint16_t (Z.shiftl hi 8))))
    as [Hgt|_]; [lia|].
  cbn [_update_checksum fst snd replicate].
  destruct (Z.lor lo (uint16_t (Z.shiftl hi 8)) =? 0);
    (f_equal; destruct s; reflexivity).
Qed.

(** The two checksum bytes of a frame that was received in full. *)
Lemma feed_checksums s a b :
  _step s = 7 -> _skip_packet s = false -> _ck_a s = a -> _ck_b s = b ->
  feed [a; b] s =
  (fst (gpsParceFrameUBLOX (set_packetCount (packetCount s + 1) (set_step 0 s))),
   [false; snd (gpsParceFrameUBLOX (set_packetCount (packetCount s + 1) (set_step 0 s)))]).
Proof.
  intros E Hskip <- <-.
  cbn [feed].
  rewrite (gpsNewFrameUBLOX_7 _ s E), Z.eqb_refl.
  rewrite (gpsNewFrameUBLOX_8 _ (set_step 8 s) eq_refl).
  fields. rewrite Z.eqb_refl, Hskip.
  replace (set_packetCount (packetCount s + 1) (set_step 0 (set_step 8 s)))
    with (set_packetCount (packetCount s + 1) (set_step 0 s))
    by (destruct s; reflexivity).
  destruct (gpsParceFrameUBLOX _) as [s' r]. reflexivity.
Qed.

Lemma feed_app_eq l1 l2 s s1 r1 s2 r2 :
  feed l1 s = (s1, r1) -> feed l2 s1 = (s2, r2) ->
  feed (l1 ++ l2) s = (s2, r1 ++ r2).
Proof. intros H1 H2. rewrite feed_app, H1. cbn [fst snd]. rewrite H2. reflexivity. Qed.

Lemma replicate_false_end n (r : bool) :
  replicate n false ++ [false; r] = replicate (S n) false ++ [r].
Proof.
  induction n as [|n IH]; cbn [replicate app]; [reflexivity|].
  f_equal. exact IH.
Qed.

(** The decoder accepts every well-formed frame it meets in sync search:
    fed the bytes of the frame, it hands the frame to the solution mapper
    once, on the last byte. *)
Lemma feed_frame f s :
  _step s = 0 -> is_byte (frame_class f) ->
  Z.of_nat (length (frame_payload f)) <= MAX_UBLOX_PAYLOAD_SIZE ->
  feed (frame_bytes f) s =
  (fst (gpsParceFrameUBLOX (frame_accepted f s)),
   replicate (7 + length (frame_payload f)) false
   ++ [snd (gpsParceFrameUBLOX (frame_accepted f s))]).
Proof.
  intros E Hcls Hlen.
  destruct f as [cls id payload]. cbn [frame_class frame_payload] in *.
  unfold frame_bytes, frame_accepted, frame_body.
  cbn [frame_class frame_id frame_payload].
  set (len := Z.of_nat (length payload)) in *.
  set (lo := uint8_t len). set (hi := uint8_t (Z.shiftr len 8)).
  assert (Hcomb : Z.lor lo (uint16_t (Z.shiftl hi 8)) = len)
    by (apply length_bytes; unfold MAX_UBLOX_PAYLOAD_SIZE in Hlen; lia).
  change (cls :: id :: lo :: hi :: payload) with ([cls] ++ [id; lo; hi] ++ payload).
  rewrite !update_checksum_app.
  change (_update_checksum [cls] 0 0) with (uint8_t (0 + cls), uint8_t (0 + uint8_t (0 + cls))).
  cbn [fst snd]. rewrite !Z.add_0_l, !(uint8_t_small cls) by exact Hcls.
  pose proof (feed_header cls id lo hi s E) as Hhdr. cbv zeta in Hhdr.
  rewrite Hcomb in Hhdr. specialize (Hhdr Hlen).
  destruct (_update_checksum [id; lo; hi] cls cls) as [a3 b3]. cbn [fst snd] in *.
  destruct (_update_checksum payload a3 b3) as [ck_a ck_b] eqn:Hck.
  change ([PREAMBLE1; PREAMBLE2] ++ ([cls] ++ [id; lo; hi] ++ payload) ++ [ck_a; ck_b])
    with ([PREAMBLE1; PREAMBLE2; cls; id; lo; hi] ++ (payload ++ [ck_a; ck_b])).
  set (sa := set_packetCount _ _).
  change (7 + length payload)%nat with (6 + S (length payload))%nat.
  rewrite replicate_add, <- app_assoc, <- replicate_false_end.
  destruct payload as [|d rest].
  - cbn [_update_checksum] in Hck. injection Hck as <- <-.
    subst len. change (Z.of_nat (length [])) with 0 in *. cbn [Z.eqb] in Hhdr.
    cbn [app length replicate].
    apply (feed_app_eq _ _ _ _ _ _ _ Hhdr).
    rewrite (feed_checksums _ a3 b3) by reflexivity.
    replace (set_packetCount _ _) with sa by (subst sa; destruct s; reflexivity).
    reflexivity.
  - assert (Hnz : (len =? 0) = false)
      by (apply Z.eqb_neq; subst len; cbn [length]; lia).
    rewrite Hnz in Hhdr.
    apply (feed_app_eq _ _ _ _ _ _ _ Hhdr).
    eapply feed_app_eq.
    + rewrite (feed_payload (d :: rest))
        by (fields; unfold MAX_UBLOX_PAYLOAD_SIZE in *;
            first [congruence | reflexivity | lia]).
      reflexivity.
    + fields. rewrite Hck. cbn [fst snd].
      rewrite (feed_checksums _ ck_a ck_b) by reflexivity.
      replace (set_packetCount _ _) with sa by (subst sa; destruct s; reflexivity).
      reflexivity.
Qed.

(** C10.  In every reachable state in which the decoder expects checksum
    byte B, the skip flag is clear; the guard on it therefore never
    suppresses a dispatch: a byte equal to accumulator B hands the frame to
    the solution mapper, once, counts the packet and returns the decoder to
    sync search.  Seen from the wire: the bytes of a well-formed frame, met
    in sync search, make the decoder call the mapper exactly once, on the
    last byte, with the frame's class, id and payload. *)
Theorem skip_packet_clear_at_checksum_b :
  (forall cfg s,
      reachable cfg s -> _step s = 8 ->
      _skip_packet s = false
      /\ forall data, data = _ck_b s ->
           gpsNewFrameUBLOX data s =
           gpsParceFrameUBLOX (set_packetCount (packetCount s + 1) (set_step 0 s))
           /\ _step (fst (gpsNewFrameUBLOX data s)) = 0
           /\ packetCount (fst (gpsNewFrameUBLOX data s)) = packetCount s + 1)
  /\ (forall f s,
         _step s = 0 -> is_byte (frame_class f) ->
         Z.of_nat (length (frame_payload f)) <= MAX_UBLOX_PAYLOAD_SIZE ->
         feed (frame_bytes f) s =
         (fst (gpsParceFrameUBLOX (frame_accepted f s)),
          replicate (7 + length (frame_payload f)) false
          ++ [snd (gpsParceFrameUBLOX (frame_accepted f s))])).
Proof.
  split; [|exact feed_frame].
  intros cfg s Hr E. destruct (reachable_inv cfg s Hr) as [Hskip _].
  specialize (Hskip ltac:(lia)). split; [exact Hskip|].
  intros data ->. rewrite (gpsNewFrameUBLOX_8 _ s E), Z.eqb_refl, Hskip.
  split; [reflexivity|].
  destruct (gpsParceFrameUBLOX_decoder
              (set_packetCount (packetCount s + 1) (set_step 0 s)))
    as (Hs & _ & _ & _ & Hp & _).
  cbv zeta in Hs, Hp. rewrite Hs, Hp. split; reflexivity.
Qed.

(** ** Dispatch *)

(** Case analysis on the message id, in the order of the switch, then on
    the conditions of the case. *)
Ltac mapper_by_id s :=
  unfold gpsParceFrameUBLOX, gpsParceFrameUBLOX_switch, apply_time; cbv zeta;
  repeat (fields;
          match goal with
          | |- context [_msg_id s =? ?m] => destruct (Z.eqb_spec (_msg_id s) m)
          end);
  fields.
Ltac mapper_finish :=
  repeat (fields;
          match goal with
          | |- context [decide ?P] => destruct (decide P)
          | |- context [if ?c then _ else _] =>
              lazymatch c with
              | context [if _ then _ else _] => fail
              | _ => destruct c eqn:?
              end
          end);
  fields_all.


(** ** Configuration sequencer *)

Lemma decoded_version_is_a_tier szBuf nBufSize :
  gpsDecodeHardwareVersion szBuf nBufSize ∈
    [UBX_HW_VERSION_UNKNOWN; UBX_HW_VERSION_UBLOX5; UBX_HW_VERSION_UBLOX6;
     UBX_HW_VERSION_UBLOX7; UBX_HW_VERSION_UBLOX8; UBX_HW_VERSION_UBLOX9;
     UBX_HW_VERSION_UBLOX10].
Proof.
  unfold gpsDecodeHardwareVersion. repeat case_match; set_solver.
Qed.

(** C1 (the code at the failing input).  Whatever hardware version the
    decoder has detected, the 8th generation included, the sequencer steps
    over the GNSS configuration: the version is compared with 80000, above
    every tier.  In particular, at the 8th generation the thread ends
    there, with nothing sent. *)
Theorem gnss_configuration_is_skipped cfg now szBuf nBufSize k s :
  let detected := set_hwVersion (gpsDecodeHardwareVersion szBuf nBufSize) s in
  pt_resume now (gpsConfigure_GNSS cfg k) detected = pt_resume now k detected
  /\ pt_resume now (gpsConfigure_GNSS cfg PtEnd)
       (set_hwVersion UBX_HW_VERSION_UBLOX8 s)
     = (PtEnd, set_hwVersion UBX_HW_VERSION_UBLOX8 s).
Proof.
  cbv zeta. split; [|reflexivity].
  unfold gpsConfigure_GNSS, pt_if. cbn [pt_resume pt_seq foldr]. fields.
  pose proof (decoded_version_is_a_tier szBuf nBufSize) as Hin.
  rewrite !elem_of_cons, elem_of_nil in Hin.
  destruct (Z.leb_spec 80000 (gpsDecodeHardwareVersion szBuf nBufSize)) as [Hle|_];
    [|reflexivity].
  unfold UBX_HW_VERSION_UNKNOWN, UBX_HW_VERSION_UBLOX5, UBX_HW_VERSION_UBLOX6,
    UBX_HW_VERSION_UBLOX7, UBX_HW_VERSION_UBLOX8, UBX_HW_VERSION_UBLOX9,
    UBX_HW_VERSION_UBLOX10 in Hin.
  lia.
Qed.


(** * Further properties of the driver *)

(** ** Reading the byte buffers *)

Lemma rd_wr_eq b i j v : i = j -> rd (wr b i v) j = v.
Proof. intros ->. unfold rd, wr. rewrite lookup_insert_eq. reflexivity. Qed.

Lemma rd_wr_ne b i j v : i <> j -> rd (wr b i v) j = rd b j.
Proof. intros Hne. unfold rd, wr. rewrite lookup_insert_ne by exact Hne. reflexivity. Qed.

Lemma bytes_at_nil b i n : n <= 0 -> bytes_at b i n = [].
Proof. intros Hn. unfold bytes_at. rewrite seqZ_nil by exact Hn. reflexivity. Qed.

Lemma bytes_at_cons b i n :
  0 < n -> bytes_at b i n = rd b i :: bytes_at b (i + 1) (n - 1).
Proof.
  intros Hn. unfold bytes_at. rewrite seqZ_cons by exact Hn.
  cbn [fmap list_fmap]. rewrite <- Z.add_1_r, <- Z.sub_1_r. reflexivity.
Qed.

Lemma bytes_at_app b i n m :
  0 <= n -> 0 <= m -> bytes_at b i (n + m) = bytes_at b i n ++ bytes_at b (i + n) m.
Proof.
  intros Hn Hm. unfold bytes_at. rewrite seqZ_app by assumption.
  apply fmap_app.
Qed.

Lemma length_bytes_at b i n : length (bytes_at b i n) = Z.to_nat n.
Proof. unfold bytes_at. rewrite length_fmap. apply length_seqZ. Qed.

(** A write outside a range does not show in the range. *)
Lemma bytes_at_wr_outside b k v i n :
  k < i \/ i + n <= k -> bytes_at (wr b k v) i n = bytes_at b i n.
Proof.
  intros Hk. unfold bytes_at. apply list_fmap_ext.
  intros j x Hx. apply lookup_seqZ in Hx as [-> Hj].
  apply rd_wr_ne. lia.
Qed.

(** A byte and a shifted value occupy different bits. *)
Lemma lor_shiftl_disjoint a b n :
  0 <= n -> 0 <= a < 2 ^ n -> Z.lor a (Z.shiftl b n) = a + b * 2 ^ n.
Proof.
  intros Hn Ha.
  rewrite Z.shiftl_mul_pow2 by exact Hn.
  rewrite <- Z.lxor_lor, <- Z.add_nocarry_lxor; try reflexivity.
  all: apply Z.bits_inj'; intros k Hk; rewrite Z.land_spec, Z.bits_0.
  all: destruct (Z.lt_ge_cases k n) as [Hlt|Hge].
  all: try (rewrite Z.mul_pow2_bits_low by lia; apply andb_false_r).
  all: replace (Z.testbit a k) with false; [reflexivity|].
  all: symmetry; destruct (Z.eq_dec a 0) as [->|Hnz]; [apply Z.bits_0|].
  all: apply Z.bits_above_log2; [lia|].
  all: assert (Z.log2 a < n) by (apply Z.log2_lt_pow2; lia); lia.
Qed.

Lemma rd_u16_bytes b i :
  is_byte (rd b i) -> rd_u16 b i = rd b i + 256 * rd b (i + 1).
Proof.
  intros Hlo. unfold rd_u16.
  rewrite (lor_shiftl_disjoint _ _ 8) by (unfold is_byte in Hlo; lia). lia.
Qed.

(** ** The command encoder *)

(** Evaluate the sums, differences and products of literal offsets. *)
Ltac offsets :=
  repeat match goal with
         | |- context [Z.add (Zpos ?a) (Zpos ?b)] =>
             let v := eval vm_compute in (Z.add (Zpos a) (Zpos b)) in
             change (Z.add (Zpos a) (Zpos b)) with v
         | |- context [Z.sub (Zpos ?a) (Zpos ?b)] =>
             let v := eval vm_compute in (Z.sub (Zpos a) (Zpos b)) in
             change (Z.sub (Zpos a) (Zpos b)) with v
         | |- context [Z.mul (Zpos ?a) (Zpos ?b)] =>
             let v := eval vm_compute in (Z.mul (Zpos a) (Zpos b)) in
             change (Z.mul (Zpos a) (Zpos b)) with v
         | |- context [Z.mul (Zpos ?a) Z0] => change (Z.mul (Zpos a) Z0) with Z0
         | |- context [Z.add (Zpos ?a) Z0] => change (Z.add (Zpos a) Z0) with (Zpos a)
         | |- context [Z.add Z0 (Zpos ?a)] => change (Z.add Z0 (Zpos a)) with (Zpos a)
         | |- context [Z.add Z0 Z0] => change (Z.add Z0 Z0) with Z0
         | H : context [Z.add (Zpos ?a) (Zpos ?b)] |- _ =>
             let v := eval vm_compute in (Z.add (Zpos a) (Zpos b)) in
             change (Z.add (Zpos a) (Zpos b)) with v in H
         end.

(** The header's length field of a message that fits the send buffer. *)
Lemma fits_send_buffer_length s :
  fits_send_buffer s ->
  let len := rd_u16 (send_buffer s) HDR_LENGTH in
  0 <= len <= 50 /\ rd (send_buffer s) HDR_LENGTH = len
  /\ rd (send_buffer s) (HDR_LENGTH + 1) = 0.
Proof.
  unfold fits_send_buffer, sizeof_send_buffer, is_byte. cbv zeta.
  intros (Hlo & Hhi & Hfit).
  rewrite rd_u16_bytes in * by exact Hlo. lia.
Qed.

(** What [sendConfigMessageUBLOX] puts on the wire is the frame of the
    message the send buffer holds: the two sync bytes, the header and the
    payload, and the checksum of header and payload. *)
Lemma sendConfigMessageUBLOX_port s :
  fits_send_buffer s ->
  gpsPort (sendConfigMessageUBLOX s) = gpsPort s ++ frame_bytes (send_frame s).
Proof.
  intros Hfit. destruct (fits_send_buffer_length s Hfit) as (Hlen & Hlo & Hhi).
  cbv zeta in Hlen, Hlo, Hhi.
  unfold sendConfigMessageUBLOX. cbv zeta.
  set (sb := send_buffer s) in *.
  assert (Hl : rd_u16 (wr (wr sb 0 PREAMBLE1) 1 PREAMBLE2) HDR_LENGTH
               = rd_u16 sb HDR_LENGTH).
  { unfold rd_u16, HDR_LENGTH. rewrite !rd_wr_ne by lia. reflexivity. }
  rewrite Hl. set (len := rd_u16 sb HDR_LENGTH) in *.
  rewrite (uint8_t_small (len + 4)) by lia.
  assert (Hbody : bytes_at (wr (wr sb 0 PREAMBLE1) 1 PREAMBLE2) 2 (len + 4)
                  = frame_body (send_frame s)).
  { rewrite !bytes_at_wr_outside by lia.
    unfold frame_body, send_frame. cbn [frame_class frame_id frame_payload].
    fold sb. fold len. rewrite length_bytes_at, Z2Nat.id by lia.
    rewrite (Z.add_comm len 4), bytes_at_app by lia.
    rewrite (uint8_t_small len) by lia.
    replace (Z.shiftr len 8) with 0
      by (rewrite Z.shiftr_div_pow2 by lia; symmetry; apply Z.div_small; lia).
    unfold HDR_MSG_CLASS, HDR_MSG_ID, PAYLOAD, HDR_LENGTH in *.
    do 4 (rewrite bytes_at_cons by lia; offsets).
    rewrite bytes_at_nil by lia. offsets.
    rewrite Hlo, Hhi. reflexivity. }
  rewrite Hbody. unfold frame_bytes.
  destruct (_update_checksum (frame_body (send_frame s)) 0 0) as [ck_a ck_b].
  fields. f_equal.
  replace (len + 8) with (2 + ((len + 4) + 2)) by lia.
  rewrite bytes_at_app, bytes_at_app by lia.
  f_equal; [|f_equal].
  - rewrite !bytes_at_wr_outside by lia.
    do 2 (rewrite bytes_at_cons by lia; offsets).
    rewrite bytes_at_nil by lia.
    rewrite rd_wr_ne, rd_wr_eq by lia. rewrite rd_wr_eq by lia. reflexivity.
  - rewrite <- Hbody. rewrite !bytes_at_wr_outside by lia. reflexivity.
  - do 2 (rewrite bytes_at_cons by lia).
    rewrite bytes_at_nil by lia.
    rewrite rd_wr_ne, rd_wr_eq by lia. rewrite rd_wr_eq by lia. reflexivity.
Qed.

Lemma sendConfigMessageUBLOX_sent s0 s f :
  gpsPort s = gpsPort s0 -> fits_send_buffer s -> send_frame s = f ->
  drop (length (gpsPort s0)) (gpsPort (sendConfigMessageUBLOX s)) = frame_bytes f.
Proof.
  intros Hport Hfit <-. rewrite sendConfigMessageUBLOX_port by exact Hfit.
  rewrite Hport. apply drop_app_length.
Qed.

Lemma rd_store_bytes l : forall i b j,
  rd (store_bytes l i b) j =
  if (i <=? j) && (j <? i + Z.of_nat (length l))
  then nth (Z.to_nat (j - i)) l 0 else rd b j.
Proof.
  induction l as [|x l IH]; intros i b j; cbn [store_bytes length].
  - destruct (Z.leb_spec i j), (Z.ltb_spec j (i + Z.of_nat 0)); cbn [andb];
      first [reflexivity | lia].
  - rewrite IH.
    destruct (Z.leb_spec (i + 1) j), (Z.ltb_spec j (i + 1 + Z.of_nat (length l))),
      (Z.leb_spec i j), (Z.ltb_spec j (i + Z.of_nat (S (length l)))); cbn [andb];
      try lia.
    all: first
      [ apply rd_wr_ne; lia
      | assert (j = i) as -> by lia; rewrite Z.sub_diag; apply rd_wr_eq; reflexivity
      | replace (Z.to_nat (j - i)) with (S (Z.to_nat (j - (i + 1)))) by lia;
        reflexivity ].
Qed.

(** Reads through the writes of a command, at literal offsets. *)
Ltac rd_wr :=
  repeat first [ rewrite rd_wr_eq by lia | rewrite rd_wr_ne by lia ].

(** The list of the [n] bytes at a literal offset. *)
Ltac bytes_at_list :=
  repeat (rewrite bytes_at_cons by lia; offsets); rewrite ?bytes_at_nil by lia.

Ltac encoder_offsets :=
  unfold wr_u32, wr_u16, rd_u16, PAYLOAD, HDR_LENGTH, HDR_MSG_ID, HDR_MSG_CLASS in *;
  offsets.

Lemma uint8_t_byte v : is_byte (uint8_t v).
Proof. apply uint8_t_range. Qed.

(** The header the commands write, read back. *)
Lemma set_header_fits class id len s :
  0 <= len <= 50 ->
  let s' := set_header class id len s in
  rd (send_buffer s') HDR_MSG_CLASS = class /\ rd (send_buffer s') HDR_MSG_ID = id
  /\ rd (send_buffer s') HDR_LENGTH = len /\ rd (send_buffer s') (HDR_LENGTH + 1) = 0
  /\ rd_u16 (send_buffer s') HDR_LENGTH = len.
Proof.
  intros Hlen. cbv zeta. unfold set_header. fields. encoder_offsets. rd_wr.
  rewrite uint8_t_small by lia.
  replace (Z.shiftr len 8) with 0
    by (rewrite Z.shiftr_div_pow2 by lia; symmetry; apply Z.div_small; lia).
  change (uint8_t 0) with 0. change (Z.shiftl 0 8) with 0. rewrite Z.lor_0_r.
  repeat split; reflexivity.
Qed.

Lemma rd_store_bytes_in l i b j :
  i <= j < i + Z.of_nat (length l) ->
  rd (store_bytes l i b) j = nth (Z.to_nat (j - i)) l 0.
Proof.
  intros Hj. rewrite rd_store_bytes.
  destruct (Z.leb_spec i j), (Z.ltb_spec j (i + Z.of_nat (length l))); cbn [andb];
    first [reflexivity | lia].
Qed.

Lemma rd_store_bytes_out l i b j :
  j < i \/ i + Z.of_nat (length l) <= j -> rd (store_bytes l i b) j = rd b j.
Proof.
  intros Hj. rewrite rd_store_bytes.
  destruct (Z.leb_spec i j), (Z.ltb_spec j (i + Z.of_nat (length l))); cbn [andb];
    first [reflexivity | lia].
Qed.

(** Evaluate the bytes of literal values. *)
Ltac literal t :=
  let v := eval vm_compute in t in
  lazymatch v with
  | Z0 => change t with v
  | Zpos _ => change t with v
  end.
Ltac literal_bytes :=
  repeat match goal with
         | |- context [Z.shiftr Z0 (Zpos ?b)] => literal (Z.shiftr Z0 (Zpos b))
         | |- context [Z.shiftr (Zpos ?a) (Zpos ?b)] => literal (Z.shiftr (Zpos a) (Zpos b))
         | |- context [uint8_t (Zpos ?a)] => literal (uint8_t (Zpos a))
         | |- context [uint8_t Z0] => literal (uint8_t Z0)
         | |- context [uint16_t (Zpos ?a)] => literal (uint16_t (Zpos a))
         | |- context [uint16_t Z0] => literal (uint16_t Z0)
         | |- context [Z.shiftl Z0 (Zpos ?b)] => literal (Z.shiftl Z0 (Zpos b))
         | |- context [Z.shiftl (Zpos ?a) (Zpos ?b)] => literal (Z.shiftl (Zpos a) (Zpos b))
         | |- context [Z.lor (Zpos ?a) Z0] => literal (Z.lor (Zpos a) Z0)
         | |- context [Z.lor Z0 Z0] => literal (Z.lor Z0 Z0)
         | |- context [Z.lor Z0 (Zpos ?b)] => literal (Z.lor Z0 (Zpos b))
         | |- context [Z.lor (Zpos ?a) (Zpos ?b)] => literal (Z.lor (Zpos a) (Zpos b))
         end.

(** The three proof obligations of a command built on [set_header]. *)
Ltac command_on_the_wire :=
  unfold sent_by; cbv zeta;
  apply sendConfigMessageUBLOX_sent;
  [ unfold set_header; fields; reflexivity
  | unfold fits_send_buffer, sizeof_send_buffer, set_header, is_byte; fields;
    encoder_offsets; rd_wr; literal_bytes; lia
  | unfold send_frame, set_header; fields; encoder_offsets; rd_wr; literal_bytes;
    bytes_at_list; rd_wr; literal_bytes; reflexivity ].

(** X1.  The frame of each command on the wire: the two sync bytes, the class
    and id of the command, the length of its payload, the payload with the
    fields in the order and byte order of the structure, and the checksum.
    The version poll has no payload; a rate command carries the message it
    names and its rate; the measurement rate goes with a navigation rate of
    one cycle and the time reference 1; the SBAS command leaves SBAS disabled
    (mode 2) exactly when the configured mode is [SBAS_NONE]; the navigation
    settings are the default payload with the dynamic model and the fix
    mode in bytes 2 and 3. *)
Theorem commands_on_the_wire cfg s :
  sent_by pollVersion s = frame_bytes (Build_ubx_frame CLASS_MON MSG_VER [])
  /\ (forall class id rate,
        sent_by (configureMSG class id rate) s
        = frame_bytes (Build_ubx_frame CLASS_CFG MSG_CFG_SET_RATE [class; id; rate]))
  /\ (forall measRate,
        sent_by (configureRATE measRate) s
        = frame_bytes (Build_ubx_frame CLASS_CFG MSG_CFG_RATE
                         (le16 measRate ++ le16 1 ++ le16 1)))
  /\ sent_by (configureSBAS cfg) s
     = frame_bytes (Build_ubx_frame CLASS_CFG MSG_CFG_SBAS
                      ([if decide (sbasMode cfg = SBAS_NONE) then 2 else 3; 3; 3; 0]
                       ++ le32 (ubloxScanMode1 (sbasMode cfg))))
  /\ (forall dynModel fixMode,
        sent_by (configureNAV5 dynModel fixMode) s
        = frame_bytes (Build_ubx_frame CLASS_CFG MSG_CFG_NAV_SETTINGS
                         (<[3%nat := fixMode]> (<[2%nat := dynModel]> default_payload)))).
Proof.
  split; [|split; [|split; [|split]]].
  - unfold pollVersion. command_on_the_wire.
  - intros class id rate. unfold configureMSG. command_on_the_wire.
  - intros measRate. unfold configureRATE. command_on_the_wire.
  - unfold configureSBAS. destruct (sbasMode cfg); command_on_the_wire.
  - intros dynModel fixMode. unfold configureNAV5.
    unfold sent_by; cbv zeta.
    assert (Hlen : Z.of_nat (length default_payload) = 36) by reflexivity.
    apply sendConfigMessageUBLOX_sent.
    + unfold set_header; fields; reflexivity.
    + unfold fits_send_buffer, sizeof_send_buffer, set_header, is_byte; fields.
      encoder_offsets. rd_wr. rewrite !rd_store_bytes_out by lia.
      rd_wr. literal_bytes. lia.
    + unfold send_frame, set_header; fields. encoder_offsets. rd_wr.
      rewrite !rd_store_bytes_out by lia. rd_wr. literal_bytes.
      bytes_at_list. rd_wr.
      rewrite !rd_store_bytes_in by lia. reflexivity.
Qed.

(** The stored bytes read back. *)
Lemma bytes_at_store_bytes l i b :
  bytes_at (store_bytes l i b) i (Z.of_nat (length l)) = l.
Proof.
  apply list_eq. intros k. unfold bytes_at. rewrite list_lookup_fmap.
  destruct (l !! k) as [x|] eqn:Hk.
  - pose proof (lookup_lt_Some _ _ _ Hk) as Hlt.
    rewrite lookup_seqZ_lt by lia. cbn [fmap option_fmap option_map].
    rewrite rd_store_bytes_in by lia.
    replace (Z.to_nat (i + Z.of_nat k - i)) with k by lia.
    f_equal. apply nth_lookup_Some with (d := 0) in Hk. exact Hk.
  - pose proof (lookup_ge_None_1 _ _ Hk) as Hge.
    rewrite lookup_seqZ_ge by lia. reflexivity.
Qed.

Lemma frame_accepted_counters f s :
  errors (frame_accepted f s) = errors s
  /\ packetCount (frame_accepted f s) = packetCount s + 1.
Proof.
  unfold frame_accepted. destruct (_update_checksum _ 0 0) as [ck_a ck_b].
  cbv zeta. fields. split; reflexivity.
Qed.

(** X2.  Encoder and decoder agree on the wire format.  The bytes
    [sendConfigMessageUBLOX] writes for a message that fits the send buffer
    are the frame of that message; a decoder in sync search that receives
    them accepts the frame on its last byte and hands the solution mapper
    the class, the id, the length and the payload that were sent, counting
    one packet and no error. *)
Theorem sent_command_is_accepted s r :
  fits_send_buffer s -> is_byte (rd (send_buffer s) HDR_MSG_CLASS) -> _step r = 0 ->
  let f := send_frame s in
  let sent := sent_by sendConfigMessageUBLOX s in
  let decoded := frame_accepted f r in
  sent = frame_bytes f
  /\ feed sent r =
     (fst (gpsParceFrameUBLOX decoded),
      replicate (7 + length (frame_payload f)) false ++ [snd (gpsParceFrameUBLOX decoded)])
  /\ _class decoded = rd (send_buffer s) HDR_MSG_CLASS
  /\ _msg_id decoded = rd (send_buffer s) HDR_MSG_ID
  /\ _payload_length decoded = rd_u16 (send_buffer s) HDR_LENGTH
  /\ bytes_at (_buffer decoded) 0 (_payload_length decoded)
     = bytes_at (send_buffer s) PAYLOAD (rd_u16 (send_buffer s) HDR_LENGTH)
  /\ packetCount (fst (feed sent r)) = packetCount r + 1
  /\ errors (fst (feed sent r)) = errors r.
Proof.
  intros Hfit Hcls Hstep. cbv zeta.
  destruct (fits_send_buffer_length s Hfit) as (Hlen & _). cbv zeta in Hlen.
  assert (Hsent : sent_by sendConfigMessageUBLOX s = frame_bytes (send_frame s)).
  { unfold sent_by. apply (sendConfigMessageUBLOX_sent s s); auto. }
  assert (Hpay : Z.of_nat (length (frame_payload (send_frame s)))
                 = rd_u16 (send_buffer s) HDR_LENGTH).
  { unfold send_frame. cbn [frame_payload]. rewrite length_bytes_at. lia. }
  assert (Hfeed : feed (frame_bytes (send_frame s)) r =
     (fst (gpsParceFrameUBLOX (frame_accepted (send_frame s) r)),
      replicate (7 + length (frame_payload (send_frame s))) false
      ++ [snd (gpsParceFrameUBLOX (frame_accepted (send_frame s) r))])).
  { apply feed_frame; [exact Hstep|exact Hcls|].
    rewrite Hpay. unfold MAX_UBLOX_PAYLOAD_SIZE. lia. }
  destruct (frame_accepted_fields (send_frame s) r)
    as (Hc & Hi & Hl & Hb & _).
  cbv zeta in Hc, Hi, Hl, Hb.
  destruct (frame_accepted_counters (send_frame s) r) as [He Hp].
  destruct (gpsParceFrameUBLOX_decoder (frame_accepted (send_frame s) r))
    as (_ & _ & _ & He' & Hp' & _).
  cbv zeta in He', Hp'.
  rewrite Hsent, Hfeed. cbn [fst].
  split; [reflexivity|]. split; [reflexivity|].
  split; [exact Hc|]. split; [exact Hi|].
  split; [rewrite Hl; exact Hpay|].
  split.
  - rewrite Hl, Hb. rewrite bytes_at_store_bytes.
    unfold send_frame. cbn [frame_payload]. reflexivity.
  - rewrite He', Hp', He, Hp. split; reflexivity.
Qed.

Lemma store_bytes_lookup_out l : forall i b k,
  k < i \/ i + Z.of_nat (length l) <= k -> store_bytes l i b !! k = b !! k.
Proof.
  induction l as [|x l IH]; intros i b k Hk; cbn [store_bytes length] in *.
  - reflexivity.
  - rewrite IH by lia. unfold wr. apply lookup_insert_ne. lia.
Qed.

(** Unfold a command down to the writes on the send buffer. *)
Ltac command_writes :=
  unfold pollVersion, configureNAV5, configureMSG, configureRATE, configureSBAS,
    configureGNSS, configureGNSS_SBAS, configureGNSS_GALILEO, gnss_config,
    sizeof_ubx_gnss_msg_t, sizeof_ubx_gnss_element_t, GNSS_gnssId, GNSS_resTrkCh,
    GNSS_maxTrkCh, GNSS_enabled, GNSS_sigCfgMask, set_header,
    sendConfigMessageUBLOX;
  cbv zeta; fields; encoder_offsets.

(** X3.  No command writes outside the send buffer: the longest message,
    the navigation settings, ends with its checksum at offset 43, and
    [send_buffer.bytes] has 58 bytes. *)
Theorem commands_stay_in_the_send_buffer cfg a s :
  sequencer_action cfg a ->
  (forall k, k < 0 \/ 44 <= k -> send_buffer (a s) !! k = send_buffer s !! k)
  /\ 44 <= sizeof_send_buffer.
Proof.
  intros Ha. split; [|unfold sizeof_send_buffer; lia].
  intros k Hk. assert (Hlen : Z.of_nat (length default_payload) = 36) by reflexivity.
  destruct Ha; try reflexivity.
  - command_writes. rd_wr. literal_bytes.
    destruct (_update_checksum _ 0 0) as [ck_a ck_b]. fields.
    unfold wr. rewrite !lookup_insert_ne by lia. reflexivity.
  - command_writes. rd_wr. rewrite !rd_store_bytes_out by lia. rd_wr. literal_bytes.
    destruct (_update_checksum _ 0 0) as [ck_a ck_b]. fields.
    unfold wr at 1 2 3 4 5 6. rewrite !lookup_insert_ne by lia.
    rewrite store_bytes_lookup_out by lia.
    unfold wr. rewrite !lookup_insert_ne by lia. reflexivity.
  - command_writes. rd_wr. literal_bytes.
    destruct (_update_checksum _ 0 0) as [ck_a ck_b]. fields.
    unfold wr. rewrite !lookup_insert_ne by lia. reflexivity.
  - command_writes. rd_wr. literal_bytes.
    destruct (_update_checksum _ 0 0) as [ck_a ck_b]. fields.
    unfold wr. rewrite !lookup_insert_ne by lia. reflexivity.
  - command_writes. rd_wr. literal_bytes.
    destruct (_update_checksum _ 0 0) as [ck_a ck_b]. fields.
    unfold wr. rewrite !lookup_insert_ne by lia. reflexivity.
  - command_writes.
    destruct (capGalileo s), (decide (sbasMode cfg = SBAS_NONE)), (ubloxUseGalileo cfg);
      fields; offsets; rd_wr; literal_bytes;
      destruct (_update_checksum _ 0 0) as [ck_a ck_b]; fields;
      unfold wr; rewrite !lookup_insert_ne by lia; reflexivity.
Qed.

(** X4.  The GNSS configuration message on the wire: message version 0,
    32 tracking channels to use, and one configuration block, for SBAS,
    or two when the receiver is Galileo capable, the second for Galileo.
    SBAS is enabled with one reserved channel unless the configured mode is
    [SBAS_NONE]; Galileo is enabled with four reserved channels when the
    configuration asks for it.  The bytes [reserved1], [undefined0] and
    [undefined1] of each block are sent as the send buffer held them from
    the commands before. *)
Theorem configureGNSS_on_the_wire cfg s :
  let sb := send_buffer s in
  let sbas :=
    gnss_block_bytes sb 0 GNSSID_SBAS
      (if decide (sbasMode cfg = SBAS_NONE) then 0 else 1) 3
      (if decide (sbasMode cfg = SBAS_NONE) then 0 else 1) 1 in
  let galileo :=
    gnss_block_bytes sb 1 GNSSID_GALILEO
      (if ubloxUseGalileo cfg then 4 else 0) 8
      (if ubloxUseGalileo cfg then 1 else 0) 1 in
  sent_by (configureGNSS cfg) s =
  frame_bytes (Build_ubx_frame CLASS_CFG MSG_CFG_GNSS
                 (if capGalileo s
                  then [0; 0; 32; 2] ++ sbas ++ galileo
                  else [0; 0; 32; 1] ++ sbas)).
Proof.
  cbv zeta.
  unfold sent_by, configureGNSS, configureGNSS_SBAS, configureGNSS_GALILEO,
    gnss_block_bytes, gnss_config, sizeof_ubx_gnss_msg_t, sizeof_ubx_gnss_element_t,
    GNSS_gnssId, GNSS_resTrkCh, GNSS_maxTrkCh, GNSS_enabled, GNSS_sigCfgMask.
  cbv zeta. fields.
  destruct (capGalileo s), (decide (sbasMode cfg = SBAS_NONE)), (ubloxUseGalileo cfg);
    fields; encoder_offsets;
    (apply sendConfigMessageUBLOX_sent;
     [ fields; reflexivity
     | unfold fits_send_buffer, sizeof_send_buffer, is_byte; fields;
       encoder_offsets; rd_wr; literal_bytes; lia
     | unfold send_frame; fields; encoder_offsets; rd_wr; literal_bytes;
       bytes_at_list; rd_wr; literal_bytes; reflexivity ]).
Qed.

(** ** The frame decoder *)

(** Header and payload of a frame, up to the checksum bytes. *)
Lemma feed_frame_body f s :
  _step s = 0 -> is_byte (frame_class f) ->
  Z.of_nat (length (frame_payload f)) <= MAX_UBLOX_PAYLOAD_SIZE ->
  feed ([PREAMBLE1; PREAMBLE2] ++ frame_body f) s =
  (frame_received f s, replicate (6 + length (frame_payload f)) false).
Proof.
  intros E Hcls Hlen.
  destruct f as [cls id payload]. cbn [frame_class frame_payload] in *.
  unfold frame_received, frame_body.
  cbn [frame_class frame_id frame_payload].
  set (len := Z.of_nat (length payload)) in *.
  set (lo := uint8_t len). set (hi := uint8_t (Z.shiftr len 8)).
  assert (Hcomb : Z.lor lo (uint16_t (Z.shiftl hi 8)) = len)
    by (apply length_bytes; unfold MAX_UBLOX_PAYLOAD_SIZE in Hlen; lia).
  change (cls :: id :: lo :: hi :: payload) with ([cls] ++ [id; lo; hi] ++ payload).
  rewrite !update_checksum_app.
  change (_update_checksum [cls] 0 0) with (uint8_t (0 + cls), uint8_t (0 + uint8_t (0 + cls))).
  cbn [fst snd]. rewrite !Z.add_0_l, !(uint8_t_small cls) by exact Hcls.
  pose proof (feed_header cls id lo hi s E) as Hhdr. cbv zeta in Hhdr.
  rewrite Hcomb in Hhdr. specialize (Hhdr Hlen).
  destruct (_update_checksum [id; lo; hi] cls cls) as [a3 b3]. cbn [fst snd] in *.
  destruct (_update_checksum payload a3 b3) as [ck_a ck_b] eqn:Hck.
  change ([PREAMBLE1; PREAMBLE2] ++ [cls] ++ [id; lo; hi] ++ payload)
    with ([PREAMBLE1; PREAMBLE2; cls; id; lo; hi] ++ payload).
  rewrite replicate_add.
  destruct payload as [|d rest].
  - cbn [_update_checksum] in Hck. injection Hck as <- <-.
    subst len. change (Z.of_nat (length [])) with 0 in *. cbn [Z.eqb] in Hhdr.
    cbn [length replicate]. rewrite !app_nil_r. rewrite Hhdr.
    cbn [store_bytes]. f_equal; try (destruct s; reflexivity).
  - assert (Hnz : (len =? 0) = false)
      by (apply Z.eqb_neq; subst len; cbn [length]; lia).
    rewrite Hnz in Hhdr.
    apply (feed_app_eq _ _ _ _ _ _ _ Hhdr).
    rewrite (feed_payload (d :: rest))
      by (fields; unfold MAX_UBLOX_PAYLOAD_SIZE in *;
          first [congruence | reflexivity | lia]).
    fields. rewrite Hck. cbn [fst snd]. f_equal; try (destruct s; reflexivity).
Qed.

Lemma frame_received_fields f s :
  let s' := frame_received f s in
  _step s' = 7 /\ _skip_packet s' = false
  /\ _ck_a s' = fst (_update_checksum (frame_body f) 0 0)
  /\ _ck_b s' = snd (_update_checksum (frame_body f) 0 0)
  /\ errors s' = errors s /\ packetCount s' = packetCount s
  /\ published s' = published s.
Proof.
  cbv zeta. unfold frame_received, published.
  destruct (_update_checksum _ 0 0) as [ck_a ck_b]. cbv zeta. fields.
  repeat split; reflexivity.
Qed.

Lemma replicate_all_false n : Forall (fun r => r = false) (replicate n false).
Proof. induction n; cbn [replicate]; constructor; auto. Qed.

Lemma feed_noise noise : forall s,
  _step s = 0 -> Forall (fun d => d <> PREAMBLE1) noise ->
  feed noise s = (s, replicate (length noise) false).
Proof.
  induction noise as [|d noise IH]; intros s E Hn; cbn [feed length replicate].
  - reflexivity.
  - inversion Hn as [|? ? Hd Hrest]; subst.
    rewrite (gpsNewFrameUBLOX_0 d s E).
    destruct (Z.eqb_spec PREAMBLE1 d) as [Heq|_]; [congruence|].
    rewrite (IH s E Hrest). reflexivity.
Qed.

(** X5.  In sync search every byte but the first sync byte 0xB5 is
    dropped without a trace: after any run of such bytes the driver is in
    the state it was in, and decodes what follows as if the run had not
    been there. *)
Theorem noise_in_sync_search_is_ignored noise s :
  _step s = 0 -> Forall (fun d => d <> PREAMBLE1) noise ->
  feed noise s = (s, replicate (length noise) false)
  /\ forall rest,
       feed (noise ++ rest) s =
       (fst (feed rest s), replicate (length noise) false ++ snd (feed rest s)).
Proof.
  intros E Hn. split; [apply feed_noise; assumption|].
  intros rest. rewrite feed_app, (feed_noise noise s E Hn). reflexivity.
Qed.

(** X6.  The byte that follows the first sync byte is compared with the
    second sync byte only; when it differs, it is not examined as a first
    sync byte.  So a frame that comes right after a stray 0xB5 is lost: when
    no other byte of it is 0xB5, the decoder takes nothing of it and ends
    in sync search, with the state it started from but for the skip flag. *)
Theorem frame_after_a_stray_sync_byte_is_lost f s :
  _step s = 0 -> Forall (fun d => d <> PREAMBLE1) (drop 1 (frame_bytes f)) ->
  feed (PREAMBLE1 :: frame_bytes f) s =
  (set_skip_packet false s, replicate (S (length (frame_bytes f))) false).
Proof.
  intros E Hn. unfold frame_bytes in *.
  destruct (_update_checksum (frame_body f) 0 0) as [ck_a ck_b].
  cbn [app drop] in Hn. cbn [app].
  set (rest := PREAMBLE2 :: frame_body f ++ [ck_a; ck_b]) in *.
  change (PREAMBLE1 :: PREAMBLE1 :: rest) with ([PREAMBLE1; PREAMBLE1] ++ rest).
  change (S (length (PREAMBLE1 :: rest))) with (2 + length rest)%nat.
  rewrite replicate_add.
  apply (feed_app_eq _ _ _ (set_skip_packet false s) (replicate 2 false)).
  - cbn [feed]. rewrite (gpsNewFrameUBLOX_0 _ s E), Z.eqb_refl.
    rewrite gpsNewFrameUBLOX_1 by reflexivity.
    change (PREAMBLE2 =? PREAMBLE1) with false. cbv iota.
    cbn [replicate]. f_equal. destruct s; cbn in E; subst; reflexivity.
  - apply feed_noise; [exact E|exact Hn].
Qed.

(** The decoder at checksum byte A and at checksum byte B, when the byte
    does not match the accumulator. *)
Lemma feed_bad_checksum_a f s bad :
  _step s = 0 -> is_byte (frame_class f) ->
  Z.of_nat (length (frame_payload f)) <= MAX_UBLOX_PAYLOAD_SIZE ->
  bad <> fst (_update_checksum (frame_body f) 0 0) ->
  feed (([PREAMBLE1; PREAMBLE2] ++ frame_body f) ++ [bad]) s =
  (set_step 0 (set_errors (errors s + 1) (set_skip_packet true (frame_received f s))),
   replicate (6 + length (frame_payload f)) false ++ [false]).
Proof.
  intros E Hcls Hlen Hbad.
  apply (feed_app_eq _ _ _ _ _ _ _ (feed_frame_body f s E Hcls Hlen)).
  destruct (frame_received_fields f s) as (E7 & _ & Ha & _ & He & _).
  cbv zeta in E7, Ha, He.
  cbn [feed]. rewrite (gpsNewFrameUBLOX_7 _ _ E7), Ha.
  destruct (Z.eqb_spec (fst (_update_checksum (frame_body f) 0 0)) bad) as [Heq|_];
    [congruence|].
  fields. rewrite He. reflexivity.
Qed.

Lemma feed_bad_checksum_b f s bad :
  _step s = 0 -> is_byte (frame_class f) ->
  Z.of_nat (length (frame_payload f)) <= MAX_UBLOX_PAYLOAD_SIZE ->
  bad <> snd (_update_checksum (frame_body f) 0 0) ->
  feed (([PREAMBLE1; PREAMBLE2] ++ frame_body f)
        ++ [fst (_update_checksum (frame_body f) 0 0); bad]) s =
  (set_errors (errors s + 1) (set_step 0 (frame_received f s)),
   replicate (6 + length (frame_payload f)) false ++ [false; false]).
Proof.
  intros E Hcls Hlen Hbad.
  apply (feed_app_eq _ _ _ _ _ _ _ (feed_frame_body f s E Hcls Hlen)).
  destruct (frame_received_fields f s) as (E7 & _ & Ha & Hb & He & _).
  cbv zeta in E7, Ha, Hb, He.
  cbn [feed]. rewrite (gpsNewFrameUBLOX_7 _ _ E7), Ha, Z.eqb_refl.
  rewrite (gpsNewFrameUBLOX_8 _ (set_step 8 (frame_received f s)) eq_refl).
  fields. rewrite Hb.
  destruct (Z.eqb_spec (snd (_update_checksum (frame_body f) 0 0)) bad) as [Heq|_];
    [congruence|].
  rewrite He. f_equal; try (destruct (frame_received f s); reflexivity).
Qed.

(** X7.  A frame whose checksum byte A or checksum byte B does not match
    is dropped: the error counter goes up by one, no packet is counted, the
    mapper is not called, nothing it publishes changes, and the decoder is
    back in sync search. *)
Theorem frame_with_a_bad_checksum_is_dropped f s bad :
  _step s = 0 -> is_byte (frame_class f) ->
  Z.of_nat (length (frame_payload f)) <= MAX_UBLOX_PAYLOAD_SIZE ->
  let ck := _update_checksum (frame_body f) 0 0 in
  let dropped bytes :=
    _step (fst (feed bytes s)) = 0
    /\ errors (fst (feed bytes s)) = errors s + 1
    /\ packetCount (fst (feed bytes s)) = packetCount s
    /\ published (fst (feed bytes s)) = published s
    /\ Forall (fun r => r = false) (snd (feed bytes s)) in
  (bad <> fst ck -> dropped (([PREAMBLE1; PREAMBLE2] ++ frame_body f) ++ [bad]))
  /\ (bad <> snd ck ->
      dropped (([PREAMBLE1; PREAMBLE2] ++ frame_body f) ++ [fst ck; bad])).
Proof.
  intros E Hcls Hlen. cbv zeta.
  destruct (frame_received_fields f s) as (_ & _ & _ & _ & He & Hp & Hpub).
  cbv zeta in He, Hp, Hpub.
  split; intros Hbad.
  - rewrite (feed_bad_checksum_a f s bad E Hcls Hlen Hbad). cbn [fst snd].
    fields. rewrite Hp. unfold published in *. fields.
    repeat split; try reflexivity; try exact Hpub.
    apply Forall_app; split; [apply replicate_all_false|repeat constructor].
  - rewrite (feed_bad_checksum_b f s bad E Hcls Hlen Hbad). cbn [fst snd].
    fields. rewrite Hp. unfold published in *. fields.
    repeat split; try reflexivity; try exact Hpub.
    apply Forall_app; split; [apply replicate_all_false|repeat constructor].
Qed.

(** X8.  Nothing is published before the checksum is verified: a byte
    changes what the driver publishes, or completes an epoch, only when it
    is checksum byte B, matches the accumulator, and the frame is not marked
    to be skipped. *)
Theorem nothing_is_published_before_the_checksum_matches data s :
  _step s <> 8 \/ data <> _ck_b s \/ _skip_packet s = true ->
  snd (gpsNewFrameUBLOX data s) = false
  /\ published (fst (gpsNewFrameUBLOX data s)) = published s.
Proof.
  intros Hpre. unfold published.
  decoder_cases s data; cbv zeta.
  9: { destruct (Z.eqb_spec (_ck_b s) data) as [Heq|_]; [|split; reflexivity].
       destruct (_skip_packet s) eqn:Hskip; [split; reflexivity|].
       destruct Hpre as [Hs|[Hd|Hk]]; congruence. }
  all: repeat first [progress fields | case_match]; split; reflexivity.
Qed.

(** ** The payload counter *)

Lemma sequencer_action_payload cfg a s :
  sequencer_action cfg a ->
  _step (a s) = _step s /\ _payload_length (a s) = _payload_length s
  /\ _payload_counter (a s) = _payload_counter s.
Proof.
  intros Ha; destruct Ha;
    unfold pollVersion, configureNAV5, configureMSG, configureRATE, configureSBAS,
      configureGNSS, configureGNSS_SBAS, configureGNSS_GALILEO, set_header,
      sendConfigMessageUBLOX; cbv zeta;
    repeat first [progress fields | case_match; simplify_eq]; repeat split; reflexivity.
Qed.

Lemma combined_length_nonneg s data :
  0 <= _payload_length s -> 0 <= combined_length s data.
Proof.
  intros Hl. unfold combined_length. apply Z.lor_nonneg. split; [exact Hl|].
  apply uint16_t_range.
Qed.

Lemma gpsNewFrameUBLOX_payload_inv data s :
  is_byte data -> payload_inv s -> payload_inv (fst (gpsNewFrameUBLOX data s)).
Proof.
  unfold payload_inv, is_byte, MAX_UBLOX_PAYLOAD_SIZE. intros Hd [H5 H6].
  decoder_cases s data; cbv zeta.
  9: { destruct (_ck_b s =? data); [|fields; split; intros; discriminate].
       destruct (_skip_packet s); [fields; split; intros; discriminate|].
       destruct (gpsParceFrameUBLOX_decoder
                   (set_packetCount (packetCount s + 1) (set_step 0 s)))
         as (Hs & _).
       cbv zeta in Hs. rewrite Hs. fields. split; intros; discriminate. }
  6: { pose proof (combined_length_nonneg s data (H5 Estep)) as Hnn.
       destruct (Z.ltb_spec MAX_UBLOX_PAYLOAD_SIZE (combined_length s data)) as [|Hle];
         [fields; split; intros; discriminate|].
       unfold MAX_UBLOX_PAYLOAD_SIZE in Hle.
       destruct (Z.eqb_spec (combined_length s data) 0);
         fields; (split; intros; first [discriminate | lia]). }
  6: { specialize (H6 Estep).
       destruct (Z.ltb_spec (_payload_counter s) MAX_UBLOX_PAYLOAD_SIZE) as [|Hge];
         [|unfold MAX_UBLOX_PAYLOAD_SIZE in Hge; lia].
       rewrite uint16_t_small by lia.
       destruct (Z.eqb_spec (_payload_counter s) (_payload_length s - 1));
         fields; rewrite ?Estep;
         (split; intros; first [discriminate | lia]). }
  all: repeat first [progress fields | case_match]; rewrite ?Estep;
    split; intros; first [discriminate | lia | auto].
Qed.

Lemma reachable_payload_inv cfg s : reachable cfg s -> payload_inv s.
Proof.
  induction 1 as [sol hw errs pkts|data s _ IH Hd|a s _ IH Ha].
  - split; cbn; intros; discriminate.
  - apply gpsNewFrameUBLOX_payload_inv; assumption.
  - destruct (sequencer_action_payload cfg a s Ha) as (Hs & Hl & Hc).
    unfold payload_inv. rewrite Hs, Hl, Hc. exact IH.
Qed.

(** X9.  While the driver receives a payload, the payload counter is
    below the declared length and the declared length is at most the size
    of the receive buffer: the bound check on the counter never fails, every
    payload byte is stored at its index, and the payload ends after exactly
    the declared number of bytes. *)
Theorem payload_bytes_are_all_stored cfg s data :
  reachable cfg s -> _step s = 6 ->
  0 <= _payload_counter s < _payload_length s
  /\ _payload_length s <= UBLOX_BUFFER_SIZE
  /\ _buffer (fst (gpsNewFrameUBLOX data s)) = wr (_buffer s) (_payload_counter s) data
  /\ _payload_counter (fst (gpsNewFrameUBLOX data s)) = _payload_counter s + 1
  /\ _step (fst (gpsNewFrameUBLOX data s))
     = (if _payload_counter s + 1 =? _payload_length s then 7 else 6).
Proof.
  intros Hr E. destruct (reachable_payload_inv cfg s Hr) as [_ H6].
  specialize (H6 E). unfold UBLOX_BUFFER_SIZE, MAX_UBLOX_PAYLOAD_SIZE in *.
  split; [lia|]. split; [lia|].
  rewrite (gpsNewFrameUBLOX_6 data s E). cbv zeta.
  destruct (Z.ltb_spec (_payload_counter s) MAX_UBLOX_PAYLOAD_SIZE) as [_|Hge];
    [|unfold MAX_UBLOX_PAYLOAD_SIZE in Hge; lia].
  rewrite uint16_t_small by lia.
  destruct (Z.eqb_spec (_payload_counter s) (_payload_length s - 1)),
    (Z.eqb_spec (_payload_counter s + 1) (_payload_length s)); try lia;
    fields; rewrite ?E; repeat split; reflexivity.
Qed.

(** ** Errors the checksum detects *)

Lemma byte_sum_app l1 l2 : byte_sum (l1 ++ l2) = byte_sum l1 + byte_sum l2.
Proof. induction l1 as [|d l1 IH]; cbn [byte_sum app]; [reflexivity|]. rewrite IH. ring. Qed.

Lemma weighted_sum_app l1 l2 :
  weighted_sum (l1 ++ l2)
  = weighted_sum l1 + Z.of_nat (length l2) * byte_sum l1 + weighted_sum l2.
Proof.
  induction l1 as [|d l1 IH]; cbn [weighted_sum byte_sum app]; [ring|].
  rewrite IH. cbn [length]. rewrite length_app. lia.
Qed.

(** Two sums that differ by less than 256 are different bytes. *)
Lemma mod_256_differs u d : d <> 0 -> -256 < d < 256 -> (u + d) mod 256 <> u mod 256.
Proof.
  intros Hd Hr Heq. revert Heq. Z.div_mod_to_equations. lia.
Qed.

Lemma checksum_a_detects_replacement pre post x y a b :
  is_byte a -> is_byte b -> is_byte x -> is_byte y -> x <> y ->
  fst (_update_checksum (pre ++ x :: post) a b)
  <> fst (_update_checksum (pre ++ y :: post) a b).
Proof.
  unfold is_byte. intros Ha Hb Hx Hy Hne.
  rewrite !update_checksum_closed_form by assumption. cbn [fst].
  rewrite !byte_sum_app. cbn [byte_sum].
  replace (a + (byte_sum pre + (x + byte_sum post)))
    with (a + (byte_sum pre + (y + byte_sum post)) + (x - y)) by ring.
  apply mod_256_differs; lia.
Qed.

Lemma checksum_b_detects_transposition pre post x y a b :
  is_byte a -> is_byte b -> is_byte x -> is_byte y -> x <> y ->
  snd (_update_checksum (pre ++ x :: y :: post) a b)
  <> snd (_update_checksum (pre ++ y :: x :: post) a b).
Proof.
  unfold is_byte. intros Ha Hb Hx Hy Hne.
  rewrite !update_checksum_closed_form by assumption. cbn [snd].
  rewrite !weighted_sum_app, !length_app. cbn [weighted_sum length].
  set (n := Z.of_nat (length post)).
  replace (Z.of_nat (S (S (length post)))) with (n + 2) by lia.
  replace (Z.of_nat (S (length post))) with (n + 1) by lia.
  match goal with
  | |- ?l mod 256 <> ?r mod 256 => replace l with (r + (x - y)) by ring
  end.
  apply mod_256_differs; lia.
Qed.

(** X10.  What the checksum detects, a property of the Fletcher sums the
    loop computes: two byte sequences that differ in one byte have different
    accumulators A, and two that differ by the exchange of two neighbouring
    bytes have the same accumulator A and different accumulators B. *)
Theorem checksum_detects_single_errors pre post x y a b :
  is_byte a -> is_byte b -> is_byte x -> is_byte y -> x <> y ->
  fst (_update_checksum (pre ++ x :: post) a b)
  <> fst (_update_checksum (pre ++ y :: post) a b)
  /\ fst (_update_checksum (pre ++ x :: y :: post) a b)
     = fst (_update_checksum (pre ++ y :: x :: post) a b)
  /\ snd (_update_checksum (pre ++ x :: y :: post) a b)
     <> snd (_update_checksum (pre ++ y :: x :: post) a b).
Proof.
  intros Ha Hb Hx Hy Hne. split; [|split].
  - apply checksum_a_detects_replacement; assumption.
  - rewrite !update_checksum_closed_form by assumption. cbn [fst].
    rewrite !byte_sum_app. cbn [byte_sum]. f_equal. ring.
  - apply checksum_b_detects_transposition; assumption.
Qed.

(** X11.  A frame in which one payload byte was changed on the way is
    dropped: checksum byte A does not match, the error is counted, no packet
    is counted, and nothing the driver publishes changes. *)
Theorem frame_with_a_corrupted_payload_byte_is_dropped f s i x y :
  _step s = 0 -> is_byte (frame_class f) ->
  Z.of_nat (length (frame_payload f)) <= MAX_UBLOX_PAYLOAD_SIZE ->
  frame_payload f !! i = Some x -> is_byte x -> is_byte y -> x <> y ->
  let heard := feed (corrupted_frame_bytes f i y) s in
  errors (fst heard) = errors s + 1
  /\ packetCount (fst heard) = packetCount s
  /\ published (fst heard) = published s
  /\ Forall (fun r => r = false) (snd heard).
Proof.
  intros E Hcls Hlen Hi Hx Hy Hne. cbv zeta. unfold corrupted_frame_bytes.
  set (f' := Build_ubx_frame (frame_class f) (frame_id f) (<[i := y]> (frame_payload f))).
  assert (Hlen' : length (frame_payload f') = length (frame_payload f))
    by (subst f'; cbn [frame_payload]; apply length_insert).
  assert (Hck : fst (_update_checksum (frame_body f) 0 0)
                <> fst (_update_checksum (frame_body f') 0 0)).
  { unfold frame_body. rewrite Hlen'. subst f'. cbn [frame_class frame_id frame_payload].
    pose proof (lookup_lt_Some _ _ _ Hi) as Hlt.
    rewrite insert_take_drop by exact Hlt.
    rewrite <- (take_drop_middle _ _ _ Hi) at 3.
    set (len := Z.of_nat (length (frame_payload f))).
    change (frame_class f :: frame_id f :: uint8_t len :: uint8_t (Z.shiftr len 8)
            :: take i (frame_payload f) ++ ?z :: drop (S i) (frame_payload f))
      with ((frame_class f :: frame_id f :: uint8_t len :: uint8_t (Z.shiftr len 8)
             :: take i (frame_payload f)) ++ z :: drop (S i) (frame_payload f)).
    apply checksum_a_detects_replacement; unfold is_byte in *; lia. }
  destruct (_update_checksum (frame_body f) 0 0) as [ck_a ck_b]. cbn [fst] in Hck.
  replace ([PREAMBLE1; PREAMBLE2] ++ frame_body f' ++ [ck_a; ck_b])
    with ((([PREAMBLE1; PREAMBLE2] ++ frame_body f') ++ [ck_a]) ++ [ck_b])
    by (rewrite <- !app_assoc; reflexivity).
  assert (Hlen2 : Z.of_nat (length (frame_payload f')) <= MAX_UBLOX_PAYLOAD_SIZE)
    by (rewrite Hlen'; exact Hlen).
  pose proof (feed_bad_checksum_a f' s ck_a E Hcls Hlen2 Hck) as Hbad.
  destruct (frame_received_fields f' s) as (_ & _ & _ & _ & He & Hp & Hpub).
  cbv zeta in He, Hp, Hpub.
  set (s1 := set_step 0 _) in Hbad.
  assert (H1 : feed [ck_b] s1 =
               (fst (gpsNewFrameUBLOX ck_b s1), [snd (gpsNewFrameUBLOX ck_b s1)])).
  { cbn [feed]. destruct (gpsNewFrameUBLOX ck_b s1). reflexivity. }
  rewrite (feed_app_eq _ _ _ _ _ _ _ Hbad H1). cbn [fst snd].
  rewrite (gpsNewFrameUBLOX_0 ck_b s1 eq_refl).
  assert (Hs1 : errors s1 = errors s + 1 /\ packetCount s1 = packetCount s
                /\ published s1 = published s).
  { subst s1. unfold published in *. fields. rewrite Hp.
    repeat split; try reflexivity. exact Hpub. }
  destruct Hs1 as (He1 & Hp1 & Hpub1).
  destruct (PREAMBLE1 =? ck_b); cbn [fst snd]; unfold published in *; fields;
    (split; [exact He1|]; split; [exact Hp1|]; split; [exact Hpub1|]);
    (apply Forall_app; split;
     [apply Forall_app; split; [apply replicate_all_false|repeat constructor]
     |repeat constructor]).
Qed.

(** ** Acknowledgments *)

Lemma gpsParceFrameUBLOX_ack_state s :
  _ack_state (fst (gpsParceFrameUBLOX s)) <> _ack_state s ->
  _ack_state s = UBX_ACK_WAITING
  /\ (_msg_id s = MSG_ACK_ACK \/ _msg_id s = MSG_ACK_NACK)
  /\ ack_msg (_buffer s) = _ack_waiting_msg s.
Proof.
  mapper_by_id s; mapper_finish; try congruence.
  all: match goal with
       | Hc : _ && _ = true |- _ =>
           apply andb_prop in Hc as [Hw Hm];
           apply bool_decide_eq_true in Hw; apply Z.eqb_eq in Hm
       end.
  all: intros _; split; [exact Hw|]; split; [tauto|exact Hm].
Qed.

Lemma gpsNewFrameUBLOX_ack_state data s :
  _ack_state (fst (gpsNewFrameUBLOX data s)) <> _ack_state s ->
  _step s = 8 /\ data = _ck_b s /\ _ack_state s = UBX_ACK_WAITING
  /\ (_msg_id s = MSG_ACK_ACK \/ _msg_id s = MSG_ACK_NACK)
  /\ ack_msg (_buffer s) = _ack_waiting_msg s.
Proof.
  decoder_cases s data; cbv zeta.
  9: { destruct (Z.eqb_spec (_ck_b s) data) as [Heq|_]; [|fields; congruence].
       destruct (_skip_packet s); [fields; congruence|].
       intros Hne.
       change (_ack_state s)
         with (_ack_state (set_packetCount (packetCount s + 1) (set_step 0 s))) in Hne.
       apply gpsParceFrameUBLOX_ack_state in Hne. fields_all.
       destruct Hne as (Hw & Hid & Hm). auto. }
  all: repeat first [progress fields | case_match]; congruence.
Qed.

Lemma feed_ack_state_settled bytes : forall s,
  _ack_state s <> UBX_ACK_WAITING -> _ack_state (fst (feed bytes s)) = _ack_state s.
Proof.
  induction bytes as [|d bytes IH]; intros s Hs; cbn [feed]; [reflexivity|].
  assert (H1 : _ack_state (fst (gpsNewFrameUBLOX d s)) = _ack_state s).
  { destruct (decide (_ack_state (fst (gpsNewFrameUBLOX d s)) = _ack_state s)) as [|Hne];
      [assumption|].
    apply gpsNewFrameUBLOX_ack_state in Hne. tauto. }
  destruct (gpsNewFrameUBLOX d s) as [s1 r]. cbn [fst] in H1.
  specialize (IH s1). destruct (feed bytes s1) as [s2 rs]. cbn [fst] in *.
  rewrite IH by congruence. exact H1.
Qed.

(** X12.  The answer to a command is recorded once.  A received byte
    changes the acknowledgment state only when it completes a valid frame
    with the id of an acknowledge or a negative acknowledge whose message
    field is the awaited id, and only while the state is waiting; once an
    answer is recorded, nothing the receiver sends changes it, until the
    next command is sent. *)
Theorem acknowledgment_is_recorded_once :
  (forall data s,
      _ack_state (fst (gpsNewFrameUBLOX data s)) <> _ack_state s ->
      _step s = 8 /\ data = _ck_b s /\ _ack_state s = UBX_ACK_WAITING
      /\ (_msg_id s = MSG_ACK_ACK \/ _msg_id s = MSG_ACK_NACK)
      /\ ack_msg (_buffer s) = _ack_waiting_msg s)
  /\ (forall bytes s,
        _ack_state s <> UBX_ACK_WAITING ->
        _ack_state (fst (feed bytes s)) = _ack_state s).
Proof.
  split.
  - apply gpsNewFrameUBLOX_ack_state.
  - intros bytes s. apply feed_ack_state_settled.
Qed.

(** ** The fix type *)

Lemma truthy_fix_valid v : truthy (Z.land v NAV_STATUS_FIX_VALID) = Z.testbit v 0.
Proof. apply (truthy_land_bit v 0). lia. Qed.

Lemma gpsMapFixType_fix fixValid ubloxFixType :
  gpsMapFixType fixValid ubloxFixType <> GPS_NO_FIX <->
  fixValid = true /\ (ubloxFixType = FIX_2D \/ ubloxFixType = FIX_3D).
Proof.
  unfold gpsMapFixType.
  destruct fixValid; cbn [andb];
    destruct (Z.eqb_spec ubloxFixType FIX_2D), (Z.eqb_spec ubloxFixType FIX_3D);
    split; intros; try tauto; try congruence; try discriminate.
  all: destruct H0 as [? [?|?]]; congruence.
Qed.

(** X13.  The fix type travels in two steps.  A status or solution frame
    maps the receiver's fix to 2D or 3D only when the fix-valid bit is set
    and the receiver reports a 2D or a 3D fix; any other report is no fix.
    The loss of the fix is published at once; a fix that is gained is kept
    aside and published by the next position frame, which then publishes
    exactly the fix the status frame reported. *)
Theorem fix_type_is_published_with_the_position s f :
  _msg_id s = MSG_STATUS \/ _msg_id s = MSG_SOL -> frame_id f = MSG_POSLLH ->
  let reported :=
    if _msg_id s =? MSG_STATUS
    then gpsMapFixType (Z.testbit (status_fix_status (_buffer s)) 0)
                       (status_fix_type (_buffer s))
    else gpsMapFixType (Z.testbit (solution_fix_status (_buffer s)) 0)
                       (solution_fix_type (_buffer s)) in
  let s1 := fst (gpsParceFrameUBLOX s) in
  let s2 := fst (gpsParceFrameUBLOX (frame_accepted f s1)) in
  next_fix_type s1 = reported
  /\ fixType (gpsSol s1)
     = (if decide (reported = GPS_NO_FIX) then GPS_NO_FIX else fixType (gpsSol s))
  /\ fixType (gpsSol s2) = reported
  /\ (forall fixValid ubloxFixType,
        gpsMapFixType fixValid ubloxFixType <> GPS_NO_FIX <->
        fixValid = true /\ (ubloxFixType = FIX_2D \/ ubloxFixType = FIX_3D)).
Proof.
  intros Hid Hf. cbv zeta.
  assert (H1 : next_fix_type (fst (gpsParceFrameUBLOX s))
               = (if _msg_id s =? MSG_STATUS
                  then gpsMapFixType (Z.testbit (status_fix_status (_buffer s)) 0)
                         (status_fix_type (_buffer s))
                  else gpsMapFixType (Z.testbit (solution_fix_status (_buffer s)) 0)
                         (solution_fix_type (_buffer s)))
               /\ fixType (gpsSol (fst (gpsParceFrameUBLOX s)))
                  = (if decide (next_fix_type (fst (gpsParceFrameUBLOX s)) = GPS_NO_FIX)
                     then GPS_NO_FIX else fixType (gpsSol s))).
  { destruct Hid as [E|E]; mapper_at E; rewrite truthy_fix_valid; fields;
      destruct (decide _) as [Hm|Hm]; fields;
      destruct (_new_position s && _new_speed s); fields;
      (split; [reflexivity|]);
      destruct (decide _) as [Hm'|Hm']; first [reflexivity | congruence]. }
  destruct H1 as [Hn Hfix]. rewrite <- Hn.
  split; [reflexivity|]. split; [exact Hfix|]. split; [|apply gpsMapFixType_fix].
  set (s1 := fst (gpsParceFrameUBLOX s)) in *.
  destruct (frame_accepted_fields f s1) as (_ & Hi & _ & _ & _ & _ & _ & _ & Hsol).
  cbv zeta in Hi, Hsol.
  assert (Hnf : next_fix_type (frame_accepted f s1) = next_fix_type s1).
  { unfold frame_accepted. destruct (_update_checksum _ 0 0). cbv zeta. fields.
    reflexivity. }
  assert (E : _msg_id (frame_accepted f s1) = MSG_POSLLH) by congruence.
  mapper_at E. fields. rewrite Hnf.
  destruct (decide (next_fix_type s1 = GPS_NO_FIX)) as [Hm|Hm]; fields;
    destruct (_new_speed (frame_accepted f s1)); fields.
  all: rewrite ?Hsol, ?Hfix, ?Hnf; first [reflexivity | congruence].
Qed.

(** ** From the bytes of a payload to the fields of the solution *)

Lemma le16_value v :
  Z.lor (uint8_t v) (Z.shiftl (uint8_t (Z.shiftr v 8)) 8) = uint16_t v.
Proof.
  rewrite (lor_shiftl_disjoint _ _ 8) by (pose proof (uint8_t_range v); lia).
  unfold uint8_t, uint16_t. rewrite Z.shiftr_div_pow2 by lia.
  change (2 ^ 8) with 256. change (2 ^ 16) with 65536.
  Z.div_mod_to_equations. lia.
Qed.

Lemma le32_value v :
  Z.lor (Z.lor (uint8_t v) (Z.shiftl (uint8_t (Z.shiftr v 8)) 8))
        (Z.shiftl (Z.lor (uint8_t (Z.shiftr v 16))
                         (Z.shiftl (uint8_t (Z.shiftr (Z.shiftr v 16) 8)) 8)) 16)
  = uint32_t v.
Proof.
  rewrite !le16_value.
  rewrite (lor_shiftl_disjoint _ _ 16) by (pose proof (uint16_t_range v); lia).
  unfold uint16_t, uint32_t. rewrite Z.shiftr_div_pow2 by lia.
  change (2 ^ 16) with 65536. change (2 ^ 32) with 4294967296.
  Z.div_mod_to_equations. lia.
Qed.

Lemma int32_t_uint32_t v : is_int32 v -> int32_t (uint32_t v) = v.
Proof.
  unfold is_int32, int32_t, uint32_t.
  change (2 ^ 31) with 2147483648. change (2 ^ 32) with 4294967296.
  intros Hv. Z.div_mod_to_equations. lia.
Qed.

Lemma uint32_t_small v : is_uint32 v -> uint32_t v = v.
Proof. unfold is_uint32, uint32_t. intros Hv. apply Z.mod_small. exact Hv. Qed.

Lemma rd_store_bytes_nth l b (n : nat) :
  (n < length l)%nat -> rd (store_bytes l 0 b) (Z.of_nat n) = nth n l 0.
Proof.
  intros Hn. rewrite rd_store_bytes_in by lia. f_equal. lia.
Qed.

(** Read the fields of a payload that is given by its bytes: every read
    at a literal offset becomes the byte of the list at that index. *)
Ltac payload_bytes :=
  repeat match goal with
         | |- context [rd (store_bytes ?l 0 ?b) Z0] =>
             change (rd (store_bytes l 0 b) Z0) with (rd (store_bytes l 0 b) (Z.of_nat 0));
             rewrite (rd_store_bytes_nth l b 0) by (cbn [length]; lia)
         | |- context [rd (store_bytes ?l 0 ?b) (Zpos ?p)] =>
             let n := eval vm_compute in (Z.to_nat (Zpos p)) in
             change (rd (store_bytes l 0 b) (Zpos p))
               with (rd (store_bytes l 0 b) (Z.of_nat n));
             rewrite (rd_store_bytes_nth l b n) by (cbn [length]; lia)
         end;
  cbn [nth].

Ltac payload_fields :=
  unfold rd_i32, rd_i16, rd_u32, rd_u16; offsets; payload_bytes;
  rewrite ?le32_value, ?le16_value.

(** The fields of a position payload, read back from the receive buffer. *)
Lemma posllh_fields b time lon lat h hmsl hacc vacc :
  is_int32 lon -> is_int32 lat -> is_int32 hmsl -> is_uint32 hacc -> is_uint32 vacc ->
  let b' := store_bytes (ubx_nav_posllh_wire time lon lat h hmsl hacc vacc) 0 b in
  posllh_longitude b' = lon /\ posllh_latitude b' = lat
  /\ posllh_altitude_msl b' = hmsl
  /\ posllh_horizontal_accuracy b' = hacc /\ posllh_vertical_accuracy b' = vacc.
Proof.
  intros Hlon Hlat Hmsl Hhacc Hvacc. cbv zeta.
  unfold posllh_longitude, posllh_latitude, posllh_altitude_msl,
    posllh_horizontal_accuracy, posllh_vertical_accuracy.
  unfold ubx_nav_posllh_wire, le32, le16; cbn [app].
  payload_fields.
  rewrite !int32_t_uint32_t, !uint32_t_small by assumption.
  repeat split; reflexivity.
Qed.

(** What a position frame does to the solution. *)
Lemma gpsParceFrameUBLOX_posllh s :
  _msg_id s = MSG_POSLLH ->
  let b := _buffer s in
  let sol := gpsSol (fst (gpsParceFrameUBLOX s)) in
  llh_lon sol = posllh_longitude b /\ llh_lat sol = posllh_latitude b
  /\ llh_alt sol = posllh_altitude_msl b ÷ 10
  /\ eph sol = gpsConstrainEPE (posllh_horizontal_accuracy b ÷ 10)
  /\ epv sol = gpsConstrainEPE (posllh_vertical_accuracy b ÷ 10)
  /\ flags_validEPE sol = true
  /\ fixType sol = (if decide (next_fix_type s = GPS_NO_FIX)
                    then fixType (gpsSol s) else next_fix_type s).
Proof.
  intros E. cbv zeta. mapper_at E. fields.
  destruct (decide (next_fix_type s = GPS_NO_FIX)); fields;
    destruct (_new_speed s); fields; repeat split; reflexivity.
Qed.

Lemma frame_accepted_next_fix_type f s :
  next_fix_type (frame_accepted f s) = next_fix_type s.
Proof.
  unfold frame_accepted. destruct (_update_checksum _ 0 0). cbv zeta. fields.
  reflexivity.
Qed.

(** The state in which the decoder leaves the driver after a whole frame. *)
Lemma feed_frame_state f s :
  _step s = 0 -> is_byte (frame_class f) ->
  Z.of_nat (length (frame_payload f)) <= MAX_UBLOX_PAYLOAD_SIZE ->
  fst (feed (frame_bytes f) s) = fst (gpsParceFrameUBLOX (frame_accepted f s)).
Proof. intros E Hcls Hlen. rewrite feed_frame by assumption. reflexivity. Qed.

Lemma feed_frame_results f s :
  _step s = 0 -> is_byte (frame_class f) ->
  Z.of_nat (length (frame_payload f)) <= MAX_UBLOX_PAYLOAD_SIZE ->
  snd (feed (frame_bytes f) s)
  = replicate (7 + length (frame_payload f)) false
    ++ [snd (gpsParceFrameUBLOX (frame_accepted f s))].
Proof. intros E Hcls Hlen. rewrite feed_frame by assumption. reflexivity. Qed.

(** X14.  A position frame from the wire to the solution.  The longitude
    and latitude are published as sent, also when negative; the altitude
    above mean sea level, sent in millimetres, is published in centimetres,
    rounded towards zero; the two accuracies are divided by 10 and then
    constrained; the fix type is the one the last status frame set aside,
    when it reported a fix. *)
Theorem position_frame_from_wire_to_solution
    s class time lon lat h hmsl hacc vacc :
  _step s = 0 -> is_byte class ->
  is_int32 lon -> is_int32 lat -> is_int32 hmsl -> is_uint32 hacc -> is_uint32 vacc ->
  let f := Build_ubx_frame class MSG_POSLLH
             (ubx_nav_posllh_wire time lon lat h hmsl hacc vacc) in
  let sol := gpsSol (fst (feed (frame_bytes f) s)) in
  llh_lon sol = lon /\ llh_lat sol = lat /\ llh_alt sol = hmsl ÷ 10
  /\ eph sol = gpsConstrainEPE (hacc ÷ 10) /\ epv sol = gpsConstrainEPE (vacc ÷ 10)
  /\ flags_validEPE sol = true
  /\ fixType sol = (if decide (next_fix_type s = GPS_NO_FIX)
                    then fixType (gpsSol s) else next_fix_type s).
Proof.
  intros E Hcls Hlon Hlat Hmsl Hhacc Hvacc. cbv zeta.
  assert (Hlen : Z.of_nat (length (ubx_nav_posllh_wire time lon lat h hmsl hacc vacc))
                 <= MAX_UBLOX_PAYLOAD_SIZE)
    by (unfold ubx_nav_posllh_wire, le32, le16; cbn [app length];
        unfold MAX_UBLOX_PAYLOAD_SIZE; lia).
  rewrite (feed_frame_state (Build_ubx_frame class MSG_POSLLH
                               (ubx_nav_posllh_wire time lon lat h hmsl hacc vacc))
             s E Hcls Hlen).
  destruct (frame_accepted_fields
              (Build_ubx_frame class MSG_POSLLH
                 (ubx_nav_posllh_wire time lon lat h hmsl hacc vacc)) s)
    as (_ & Hi & _ & Hb & _ & _ & _ & _ & Hsol).
  destruct (gpsParceFrameUBLOX_posllh _ Hi) as (M1 & M2 & M3 & M4 & M5 & M6 & M7).
  destruct (posllh_fields (_buffer s) time lon lat h hmsl hacc vacc
              Hlon Hlat Hmsl Hhacc Hvacc) as (H1 & H2 & H3 & H4 & H5).
  rewrite frame_accepted_next_fix_type, Hsol in M7.
  cbn [frame_payload] in Hb. rewrite Hb in M1, M2, M3, M4, M5.
  rewrite H1 in M1. rewrite H2 in M2. rewrite H3 in M3. rewrite H4 in M4.
  rewrite H5 in M5.
  repeat split; assumption.
Qed.

(** The fields of a combined payload, read back from the receive buffer. *)
Lemma pvt_fields b time year month day hour min sec valid tAcc nano
    fix_type fix_status reserved1 satellites lon lat h hmsl hacc vacc
    vn ve vd gs heading sacc headacc pdop rest :
  is_uint16 year -> is_int32 nano ->
  is_int32 lon -> is_int32 lat -> is_int32 hmsl -> is_uint32 hacc -> is_uint32 vacc ->
  is_int32 vn -> is_int32 ve -> is_int32 vd -> is_int32 gs -> is_int32 heading ->
  is_uint16 pdop ->
  let b' := store_bytes
              (ubx_nav_pvt_wire time year month day hour min sec valid tAcc nano
                 fix_type fix_status reserved1 satellites lon lat h hmsl hacc vacc
                 vn ve vd gs heading sacc headacc pdop ++ rest) 0 b in
  (pvt_year b' = year /\ pvt_month b' = month /\ pvt_day b' = day
   /\ pvt_hour b' = hour /\ pvt_min b' = min /\ pvt_sec b' = sec
   /\ pvt_valid b' = valid /\ pvt_nano b' = nano)
  /\ (pvt_fix_type b' = fix_type /\ pvt_fix_status b' = fix_status
      /\ pvt_satellites b' = satellites)
  /\ (pvt_longitude b' = lon /\ pvt_latitude b' = lat /\ pvt_altitude_msl b' = hmsl
      /\ pvt_horizontal_accuracy b' = hacc /\ pvt_vertical_accuracy b' = vacc)
  /\ (pvt_ned_north b' = vn /\ pvt_ned_east b' = ve /\ pvt_ned_down b' = vd
      /\ pvt_speed_2d b' = gs /\ pvt_heading_2d b' = heading)
  /\ pvt_position_DOP b' = pdop.
Proof.
  intros Hyear Hnano Hlon Hlat Hmsl Hhacc Hvacc Hvn Hve Hvd Hgs Hhd Hpdop. cbv zeta.
  unfold pvt_year, pvt_month, pvt_day, pvt_hour, pvt_min, pvt_sec, pvt_valid,
    pvt_nano, pvt_fix_type, pvt_fix_status, pvt_satellites, pvt_longitude,
    pvt_latitude, pvt_altitude_msl, pvt_horizontal_accuracy, pvt_vertical_accuracy,
    pvt_ned_north, pvt_ned_east, pvt_ned_down, pvt_speed_2d, pvt_heading_2d,
    pvt_position_DOP.
  unfold ubx_nav_pvt_wire, le32, le16; cbn [app].
  payload_fields.
  rewrite !int32_t_uint32_t, !uint32_t_small by assumption.
  rewrite !uint16_t_small by assumption.
  repeat split; reflexivity.
Qed.

(** What a combined frame does to the solution. *)
Lemma gpsParceFrameUBLOX_pvt s :
  _msg_id s = MSG_PVT ->
  let b := _buffer s in
  let s' := fst (gpsParceFrameUBLOX s) in
  let sol := gpsSol s' in
  (snd (gpsParceFrameUBLOX s) = true
   /\ _new_position s' = false /\ _new_speed s' = false)
  /\ (fixType sol = gpsMapFixType (Z.testbit (pvt_fix_status b) 0) (pvt_fix_type b)
      /\ numSat sol = pvt_satellites b
      /\ hdop sol = gpsConstrainHDOP (pvt_position_DOP b))
  /\ (llh_lon sol = pvt_longitude b /\ llh_lat sol = pvt_latitude b
      /\ llh_alt sol = pvt_altitude_msl b ÷ 10
      /\ eph sol = gpsConstrainEPE (pvt_horizontal_accuracy b ÷ 10)
      /\ epv sol = gpsConstrainEPE (pvt_vertical_accuracy b ÷ 10)
      /\ flags_validEPE sol = true)
  /\ (velNED_X sol = c_convert velNED_t (pvt_ned_north b ÷ 10)
      /\ velNED_Y sol = c_convert velNED_t (pvt_ned_east b ÷ 10)
      /\ velNED_Z sol = c_convert velNED_t (pvt_ned_down b ÷ 10)
      /\ groundSpeed sol = c_convert groundSpeed_t (pvt_speed_2d b ÷ 10)
      /\ groundCourse sol
         = c_convert groundCourse_t (uint16_t (pvt_heading_2d b ÷ 10000))
      /\ flags_validVelNE sol = true /\ flags_validVelD sol = true)
  /\ (if Z.testbit (pvt_valid b) 0 && Z.testbit (pvt_valid b) 1
      then time_year sol = pvt_year b /\ time_month sol = pvt_month b
           /\ time_day sol = pvt_day b /\ time_hours sol = pvt_hour b
           /\ time_minutes sol = pvt_min b /\ time_seconds sol = pvt_sec b
           /\ time_millis sol = c_convert time_millis_t (pvt_nano b ÷ 1000000)
           /\ flags_validTime sol = true
      else time_year sol = time_year (gpsSol s)
           /\ time_month sol = time_month (gpsSol s)
           /\ time_day sol = time_day (gpsSol s)
           /\ time_hours sol = time_hours (gpsSol s)
           /\ time_minutes sol = time_minutes (gpsSol s)
           /\ time_seconds sol = time_seconds (gpsSol s)
           /\ time_millis sol = time_millis (gpsSol s)
           /\ flags_validTime sol = false).
Proof.
  intros E. cbv zeta. mapper_at E. unfold apply_time.
  rewrite valid_date_time_bits, truthy_fix_valid.
  destruct (Z.testbit (pvt_valid (_buffer s)) 0 && Z.testbit (pvt_valid (_buffer s)) 1);
    fields; repeat split; reflexivity.
Qed.

(** X15.  A combined frame from the wire to the solution.  It completes
    the epoch by itself, on its last byte.  The fix is 2D or 3D only with
    the fix-valid bit; the position is published as sent, also when
    negative, the altitude in centimetres, rounded towards zero.  The
    velocities and the ground speed, divided by 10 towards zero, the
    heading, divided by 10000 and reduced to 16 bits, and the milliseconds
    are published through the conversion to the type of their field: the
    quotient itself whenever the field represents it.  The date and time are
    published only when the date-valid and time-valid bits are both set, and
    otherwise the time is marked invalid and keeps its fields. *)
Theorem combined_frame_from_wire_to_solution
    s class time year month day hour min sec valid tAcc nano
    fix_type fix_status reserved1 satellites lon lat h hmsl hacc vacc
    vn ve vd gs heading sacc headacc pdop rest :
  _step s = 0 -> is_byte class -> Z.of_nat (length rest) <= 178 ->
  is_uint16 year -> is_int32 nano ->
  is_int32 lon -> is_int32 lat -> is_int32 hmsl -> is_uint32 hacc -> is_uint32 vacc ->
  is_int32 vn -> is_int32 ve -> is_int32 vd -> is_int32 gs -> is_int32 heading ->
  is_uint16 pdop ->
  let f := Build_ubx_frame class MSG_PVT
             (ubx_nav_pvt_wire time year month day hour min sec valid tAcc nano
                fix_type fix_status reserved1 satellites lon lat h hmsl hacc vacc
                vn ve vd gs heading sacc headacc pdop ++ rest) in
  let s' := fst (feed (frame_bytes f) s) in
  let sol := gpsSol s' in
  (last (snd (feed (frame_bytes f) s)) = Some true
   /\ _new_position s' = false /\ _new_speed s' = false)
  /\ (fixType sol = gpsMapFixType (Z.testbit fix_status 0) fix_type
      /\ numSat sol = satellites /\ hdop sol = gpsConstrainHDOP pdop)
  /\ (llh_lon sol = lon /\ llh_lat sol = lat /\ llh_alt sol = hmsl ÷ 10
      /\ eph sol = gpsConstrainEPE (hacc ÷ 10)
      /\ epv sol = gpsConstrainEPE (vacc ÷ 10)
      /\ flags_validEPE sol = true)
  /\ (holds_assigned velNED_t (vn ÷ 10) (velNED_X sol)
      /\ holds_assigned velNED_t (ve ÷ 10) (velNED_Y sol)
      /\ holds_assigned velNED_t (vd ÷ 10) (velNED_Z sol)
      /\ holds_assigned groundSpeed_t (gs ÷ 10) (groundSpeed sol)
      /\ holds_assigned groundCourse_t (uint16_t (heading ÷ 10000))
                        (groundCourse sol)
      /\ flags_validVelNE sol = true /\ flags_validVelD sol = true)
  /\ (if Z.testbit valid 0 && Z.testbit valid 1
      then time_year sol = year /\ time_month sol = month /\ time_day sol = day
           /\ time_hours sol = hour /\ time_minutes sol = min
           /\ time_seconds sol = sec
           /\ holds_assigned time_millis_t (nano ÷ 1000000) (time_millis sol)
           /\ flags_validTime sol = true
      else time_year sol = time_year (gpsSol s)
           /\ time_month sol = time_month (gpsSol s)
           /\ time_day sol = time_day (gpsSol s)
           /\ time_hours sol = time_hours (gpsSol s)
           /\ time_minutes sol = time_minutes (gpsSol s)
           /\ time_seconds sol = time_seconds (gpsSol s)
           /\ time_millis sol = time_millis (gpsSol s)
           /\ flags_validTime sol = false).
Proof.
  intros E Hcls Hrest Hyear Hnano Hlon Hlat Hmsl Hhacc Hvacc Hvn Hve Hvd Hgs Hhd
    Hpdop.
  cbv zeta.
  set (payload := ubx_nav_pvt_wire _ _ _ _ _ _ _ _ _ _ _ _ _ _ _ _ _ _ _ _ _ _ _ _
                    _ _ _ _ ++ rest).
  assert (Hlen : Z.of_nat (length payload) <= MAX_UBLOX_PAYLOAD_SIZE).
  { subst payload. rewrite length_app. unfold ubx_nav_pvt_wire, le32, le16.
    cbn [app length]. unfold MAX_UBLOX_PAYLOAD_SIZE. lia. }
  rewrite (feed_frame_state (Build_ubx_frame class MSG_PVT payload) s E Hcls Hlen).
  rewrite (feed_frame_results (Build_ubx_frame class MSG_PVT payload) s E Hcls Hlen).
  rewrite last_snoc.
  destruct (frame_accepted_fields (Build_ubx_frame class MSG_PVT payload) s)
    as (_ & Hi & _ & Hb & _ & _ & _ & _ & Hsol).
  destruct (gpsParceFrameUBLOX_pvt _ Hi) as (M1 & M2 & M3 & M4 & M5).
  destruct (pvt_fields (_buffer s) time year month day hour min sec valid tAcc nano
              fix_type fix_status reserved1 satellites lon lat h hmsl hacc vacc
              vn ve vd gs heading sacc headacc pdop rest
              Hyear Hnano Hlon Hlat Hmsl Hhacc Hvacc Hvn Hve Hvd Hgs Hhd Hpdop)
    as ((T1 & T2 & T3 & T4 & T5 & T6 & T7 & T8) & (F1 & F2 & F3)
        & (P1 & P2 & P3 & P4 & P5) & (V1 & V2 & V3 & V4 & V5) & D1).
  cbn [frame_payload] in Hb. fold payload in T1, T2, T3, T4, T5, T6, T7, T8, F1, F2,
    F3, P1, P2, P3, P4, P5, V1, V2, V3, V4, V5, D1.
  rewrite Hb in M2, M3, M4, M5. rewrite Hsol in M5.
  rewrite F1, F2, F3, D1 in M2. rewrite P1, P2, P3, P4, P5 in M3.
  rewrite V1, V2, V3, V4, V5 in M4.
  rewrite T1, T2, T3, T4, T5, T6, T7, T8 in M5.
  destruct M1 as (R & L1 & L2). destruct M4 as (A1 & A2 & A3 & A4 & A5 & A6 & A7).
  split; [rewrite R; auto|]. split; [exact M2|]. split; [exact M3|].
  split.
  - exact (conj (holds_assigned_eq _ _ _ A1) (conj (holds_assigned_eq _ _ _ A2)
            (conj (holds_assigned_eq _ _ _ A3) (conj (holds_assigned_eq _ _ _ A4)
              (conj (holds_assigned_eq _ _ _ A5) (conj A6 A7)))))).
  - destruct (Z.testbit valid 0 && Z.testbit valid 1); [|exact M5].
    destruct M5 as (B1 & B2 & B3 & B4 & B5 & B6 & B7 & B8).
    exact (conj B1 (conj B2 (conj B3 (conj B4 (conj B5 (conj B6
            (conj (holds_assigned_eq _ _ _ B7) B8))))))).
Qed.





(** ** The version reply *)

Lemma starts_with_spec find : forall s,
  starts_with find s = true <-> exists post, s = find ++ post.
Proof.
  induction find as [|c find IH]; intros s; cbn [starts_with app].
  - split; [intros _; exists s; reflexivity|reflexivity].
  - destruct s as [|d s].
    + split; [discriminate|intros [post Hpost]; discriminate].
    + rewrite andb_true_iff, Z.eqb_eq, IH. split.
      * intros [-> [post ->]]. exists post. reflexivity.
      * intros [post [= -> ->]]. split; [reflexivity|exists post; reflexivity].
Qed.

Lemma find_in_spec find : forall s,
  find_in find s = true <-> exists pre post, s = pre ++ find ++ post.
Proof.
  induction s as [|d s IH]; cbn [find_in]; rewrite orb_true_iff, starts_with_spec.
  - split.
    + intros [[post Hpost]|Hf]; [exists [], post; exact Hpost|discriminate].
    + intros [pre [post Hs]]. left. destruct pre; [exists post; exact Hs|discriminate].
  - rewrite IH. split.
    + intros [[post Hpost]|[pre [post ->]]].
      * exists [], post. exact Hpost.
      * exists (d :: pre), post. reflexivity.
    + intros [pre [post Hs]]. destruct pre as [|d' pre].
      * left. exists post. exact Hs.
      * right. injection Hs as -> ->. exists pre, post. reflexivity.
Qed.

(** A read that ends inside the array finds the bytes of the array. *)
Lemma buffer_string_inside b j n :
  j + n <= UBLOX_BUFFER_SIZE -> buffer_string b j n = bytes_at b j n.
Proof.
  intros Hin. unfold buffer_string, bytes_at.
  apply Forall_fmap_ext, Forall_forall. intros k Hk.
  apply elem_of_seqZ in Hk. unfold buffer_byte.
  destruct (Z.ltb_spec k UBLOX_BUFFER_SIZE) as [_|Hout]; [reflexivity|lia].
Qed.

(** The loop over the extension fields of the version reply. *)
Lemma scan_extensions_spec n : forall b len j,
  len - j <= 30 * Z.of_nat n ->
  scan_extensions n b len j = true <->
  exists k, 0 <= k /\ j + 30 * k < len
            /\ strnstr (buffer_string b (j + 30 * k) 30) (c_str "GAL") 30 = true.
Proof.
  induction n as [|n IH]; intros b len j Hfuel; cbn [scan_extensions].
  - split; [discriminate|]. intros (k & Hk & Hlt & _). lia.
  - destruct (Z.ltb_spec j len) as [Hlt|Hge].
    + destruct (strnstr (buffer_string b j 30) (c_str "GAL") 30) eqn:Hhere.
      * split; [intros _|reflexivity]. exists 0.
        rewrite Z.mul_0_r, Z.add_0_r. auto with lia.
      * rewrite IH by lia. split.
        -- intros (k & Hk & Hklt & Hfound). exists (k + 1).
           replace (j + 30 * (k + 1)) with (j + 30 + 30 * k) by lia. auto with lia.
        -- intros (k & Hk & Hklt & Hfound).
           destruct (Z.eq_dec k 0) as [->|Hnz].
           ++ rewrite Z.mul_0_r, Z.add_0_r in Hfound. congruence.
           ++ exists (k - 1).
              replace (j + 30 + 30 * (k - 1)) with (j + 30 * k) by lia. auto with lia.
    + split; [discriminate|]. intros (k & Hk & Hklt & _). lia.
Qed.

(** A payload of 250 bytes at most keeps every pass of the loop inside the
    array: the passes start at 40, 70, ..., 220, and each reads 30 bytes
    at most. *)
Lemma scan_extensions_inside b len :
  len <= 250 ->
  scan_extensions (Z.to_nat len) b len 40 = true <->
  exists k, 0 <= k /\ 40 + 30 * k < len
            /\ strnstr (bytes_at b (40 + 30 * k) 30) (c_str "GAL") 30 = true.
Proof.
  intros Hlen. rewrite scan_extensions_spec by lia.
  split; intros (k & Hk & Hlt & Hfound); exists k; (split; [exact Hk|]);
    (split; [exact Hlt|]).
  - rewrite <- buffer_string_inside by (unfold UBLOX_BUFFER_SIZE, MAX_UBLOX_PAYLOAD_SIZE; lia).
    exact Hfound.
  - rewrite buffer_string_inside by (unfold UBLOX_BUFFER_SIZE, MAX_UBLOX_PAYLOAD_SIZE; lia).
    exact Hfound.
Qed.

(** X16.  The version reply.  Under any class but the monitoring class it
    changes neither the detected version nor the Galileo capability.  Under
    the monitoring class the detected version becomes the tier of the
    hardware-version string at offset 30 of the payload, unknown when the
    string is not in the table.  When the payload has 250 bytes at most,
    so that the extension scan stays inside the receive buffer, the receiver
    is Galileo capable afterwards exactly when it was before, or when the
    tier is at least 8, the character at index 9 of the software version is
    above '2', and one of the 30-byte extension fields that start at offsets
    40, 70, 100, ... below the payload length contains "GAL" before its NUL.
    A longer payload makes the last pass of the scan, at offset 250, read
    past the end of the buffer; nothing is stated about the capability
    then. *)
Theorem version_reply_sets_version_and_capability s :
  _msg_id s = MSG_VER ->
  let b := _buffer s in
  let s' := fst (gpsParceFrameUBLOX s) in
  (_class s <> CLASS_MON -> hwVersion s' = hwVersion s /\ capGalileo s' = capGalileo s)
  /\ (_class s = CLASS_MON ->
      hwVersion s' = hardware_version_table (c_string_of (ver_hwVersion b))
      /\ (_payload_length s <= 250 ->
          (capGalileo s' = true <->
           capGalileo s = true
           \/ (UBX_HW_VERSION_UBLOX8 <= hwVersion s'
               /\ Z.of_nat (nat_of_ascii "2") < ver_swVersion b 9
               /\ exists k, 0 <= k /\ 40 + 30 * k < _payload_length s
                    /\ strnstr (bytes_at b (40 + 30 * k) 30) (c_str "GAL") 30
                       = true))))
  /\ (forall field,
        strnstr field (c_str "GAL") 30 = true <->
        exists pre post, c_string_of (take 30 field) = pre ++ c_str "GAL" ++ post).
Proof.
  intros E. cbv zeta. split; [|split].
  - intros Hcls. mapper_at E.
    destruct (Z.eqb_spec (_class s) CLASS_MON) as [|_]; [contradiction|].
    destruct (_new_position s && _new_speed s); fields; split; reflexivity.
  - intros Hcls. mapper_at E. rewrite Hcls.
    change (CLASS_MON =? CLASS_MON) with true. cbv iota. fields.
    rewrite decode_matches_table by lia.
    set (hw := hardware_version_table _).
    pose proof (scan_extensions_inside (_buffer s) (_payload_length s)) as Hscan.
    destruct (Z.leb_spec UBX_HW_VERSION_UBLOX8 hw) as [Hhw|Hhw]; cbn [andb].
    + destruct (Z.ltb_spec (Z.of_nat (nat_of_ascii "2")) (ver_swVersion (_buffer s) 9))
        as [Hsw|Hsw].
      * destruct (scan_extensions _ _ _ 40) eqn:Hfound; fields;
          destruct (_new_position s && _new_speed s); fields;
          (split; [reflexivity|]); intros Hin; specialize (Hscan Hin).
        1,2: split; [intros _; right; split; [exact Hhw|]; split; [exact Hsw|];
                     apply Hscan; reflexivity
                    |reflexivity].
        1,2: split; [intros Hc; left; exact Hc|].
        1,2: intros [Hc|(_ & _ & Hex)]; [exact Hc|].
        1,2: apply Hscan in Hex; discriminate.
      * fields. destruct (_new_position s && _new_speed s); fields;
          (split; [reflexivity|]); intros _; (split; [intros Hc; left; exact Hc|]);
          (intros [Hc|(_ & Hlt & _)]; [exact Hc|lia]).
    + fields. destruct (_new_position s && _new_speed s); fields;
        (split; [reflexivity|]); intros _; (split; [intros Hc; left; exact Hc|]);
        (intros [Hc|(Hle & _)]; [exact Hc|lia]).
  - intros field. unfold strnstr. rewrite find_in_spec. reflexivity.
Qed.

Lemma gpsParceFrameUBLOX_capGalileo s :
  capGalileo s = true -> capGalileo (fst (gpsParceFrameUBLOX s)) = true.
Proof.
  intros Hc. mapper_by_id s; mapper_finish; first [exact Hc | reflexivity].
Qed.

Lemma gpsNewFrameUBLOX_capGalileo data s :
  capGalileo s = true -> capGalileo (fst (gpsNewFrameUBLOX data s)) = true.
Proof.
  intros Hc. decoder_cases s data; cbv zeta.
  9: { destruct (_ck_b s =? data); [|exact Hc].
       destruct (_skip_packet s); [exact Hc|].
       apply gpsParceFrameUBLOX_capGalileo. exact Hc. }
  all: repeat first [progress fields | case_match]; exact Hc.
Qed.

Lemma sequencer_action_capGalileo cfg a s :
  sequencer_action cfg a -> capGalileo (a s) = capGalileo s.
Proof.
  intros Ha; destruct Ha;
    unfold pollVersion, configureNAV5, configureMSG, configureRATE, configureSBAS,
      configureGNSS, configureGNSS_SBAS, configureGNSS_GALILEO, set_header,
      sendConfigMessageUBLOX; cbv zeta;
    repeat first [progress fields | case_match; simplify_eq]; reflexivity.
Qed.

(** X17.  The Galileo capability is never withdrawn: once a version
    reply has set it, no byte received and no command sent clears it. *)
Theorem galileo_capability_is_never_withdrawn cfg s :
  (forall bytes, capGalileo s = true -> capGalileo (fst (feed bytes s)) = true)
  /\ (forall a, sequencer_action cfg a -> capGalileo (a s) = capGalileo s).
Proof.
  split.
  - intros bytes. revert s. induction bytes as [|d bytes IH]; intros s Hc; cbn [feed].
    + exact Hc.
    + pose proof (gpsNewFrameUBLOX_capGalileo d s Hc) as H1.
      destruct (gpsNewFrameUBLOX d s) as [s1 r]. cbn [fst] in H1.
      specialize (IH s1 H1). destruct (feed bytes s1) as [s2 rs]. exact IH.
  - intros a Ha. apply (sequencer_action_capGalileo cfg a s Ha).
Qed.

(** ** The receiver thread *)

Lemma receiver_consume_feed rx : forall s,
  let '(rx', s', signalled) := receiver_consume rx s in
  exists consumed,
    rx = consumed ++ rx' /\ s' = fst (feed consumed s)
    /\ signalled = existsb id (snd (feed consumed s))
    /\ (rx <> [] -> consumed <> []).
Proof.
  induction rx as [|d rx IH]; intros s; cbn [receiver_consume].
  - exists []. repeat split; auto.
  - destruct (gpsNewFrameUBLOX d s) as [s1 r] eqn:Hstep. destruct r.
    + exists [d]. cbn [feed app]. rewrite Hstep. cbn [fst snd existsb id orb].
      repeat split; auto; discriminate.
    + specialize (IH s1). destruct (receiver_consume rx s1) as [[rx' s'] signalled].
      destruct IH as (consumed & Hrx & Hs & Hsig & _).
      exists (d :: consumed). cbn [feed app]. rewrite Hstep.
      destruct (feed consumed s1) as [s2 rs]. cbn [fst snd existsb id orb] in *.
      repeat split; auto; first [congruence | discriminate].
Qed.

Lemma existsb_id_app (l1 l2 : list bool) :
  existsb id (l1 ++ l2) = existsb id l1 || existsb id l2.
Proof. apply existsb_app. Qed.

Lemma gpsProtocolReceiverThread_feed fuel : forall rx s sem,
  (length rx <= fuel)%nat ->
  gpsProtocolReceiverThread fuel rx s sem =
  ([], fst (feed rx s), sem || existsb id (snd (feed rx s))).
Proof.
  induction fuel as [|fuel IH]; intros rx s sem Hfuel.
  - destruct rx; [|cbn in Hfuel; lia]. cbn. rewrite orb_false_r. reflexivity.
  - destruct rx as [|d rx]; cbn [gpsProtocolReceiverThread].
    + cbn. rewrite orb_false_r. reflexivity.
    + pose proof (receiver_consume_feed (d :: rx) s) as Hc.
      destruct (receiver_consume (d :: rx) s) as [[rx' s'] signalled].
      destruct Hc as (consumed & Hrx & Hs & Hsig & Hne).
      assert (Hlen : (length rx' <= fuel)%nat).
      { apply (f_equal (@length Z)) in Hrx. rewrite length_app in Hrx.
        cbn [length] in *. destruct consumed; [exfalso; apply Hne; congruence|].
        cbn [length] in Hrx. lia. }
      rewrite (IH rx' s' _ Hlen). rewrite Hrx, feed_app. cbn [fst snd].
      rewrite <- Hs, existsb_id_app, <- Hsig, orb_assoc. reflexivity.
Qed.

(** X18.  One activation of the receiver thread takes every byte that
    waits in the serial port, in order, and leaves the driver in the state
    the frame decoder reaches on these bytes; the data-ready semaphore is
    raised exactly when one of the bytes completed an epoch, once, however
    many epochs were completed. *)
Theorem receiver_thread_drains_the_port rx s sem :
  gpsProtocolReceiverThread (length rx) rx s sem =
  ([], fst (feed rx s), sem || existsb id (snd (feed rx s))).
Proof. apply gpsProtocolReceiverThread_feed. lia. Qed.

(** ** The configuration sequencer *)

Lemma sendConfigMessageUBLOX_sends s0 s :
  gpsPort s = gpsPort s0 -> _step s = _step s0 -> fits_send_buffer s ->
  (exists f, gpsPort (sendConfigMessageUBLOX s) = gpsPort s0 ++ frame_bytes f)
  /\ _ack_state (sendConfigMessageUBLOX s) = UBX_ACK_WAITING
  /\ _ack_waiting_msg (sendConfigMessageUBLOX s)
     = rd (send_buffer (sendConfigMessageUBLOX s)) HDR_MSG_ID
  /\ _step (sendConfigMessageUBLOX s) = _step s0.
Proof.
  intros Hport Hstep Hfit.
  split; [|split; [|split]].
  - exists (send_frame s).
    rewrite sendConfigMessageUBLOX_port by exact Hfit. rewrite Hport. reflexivity.
  - unfold sendConfigMessageUBLOX. cbv zeta.
    destruct (_update_checksum _ 0 0) as [ck_a ck_b]. fields. reflexivity.
  - unfold sendConfigMessageUBLOX. cbv zeta.
    destruct (_update_checksum _ 0 0) as [ck_a ck_b]. fields. reflexivity.
  - rewrite <- Hstep. unfold sendConfigMessageUBLOX. cbv zeta.
    destruct (_update_checksum _ 0 0) as [ck_a ck_b]. fields. reflexivity.
Qed.

(** The obligations of a command built on [set_header]. *)
Ltac command_sends :=
  intros ?; apply sendConfigMessageUBLOX_sends;
  [ unfold set_header; fields; reflexivity
  | unfold set_header; fields; reflexivity
  | unfold fits_send_buffer, sizeof_send_buffer, set_header, is_byte; fields;
    encoder_offsets; rd_wr; literal_bytes; lia ].

Lemma configureMSG_sends class id rate : sends_one_command (configureMSG class id rate).
Proof. unfold configureMSG. command_sends. Qed.

Lemma configureRATE_sends measRate : sends_one_command (configureRATE measRate).
Proof. unfold configureRATE. command_sends. Qed.

Lemma configureSBAS_sends cfg : sends_one_command (configureSBAS cfg).
Proof. unfold configureSBAS. command_sends. Qed.

Lemma configureNAV5_sends dynModel fixMode :
  sends_one_command (configureNAV5 dynModel fixMode).
Proof.
  unfold configureNAV5.
  assert (Hlen : Z.of_nat (length default_payload) = 36) by reflexivity.
  intros s; apply sendConfigMessageUBLOX_sends.
  - unfold set_header; fields; reflexivity.
  - unfold set_header; fields; reflexivity.
  - unfold fits_send_buffer, sizeof_send_buffer, set_header, is_byte; fields.
    encoder_offsets. rd_wr. rewrite !rd_store_bytes_out by lia.
    rd_wr. literal_bytes. lia.
Qed.

Lemma configureGNSS_sends cfg : sends_one_command (configureGNSS cfg).
Proof.
  intros s.
  unfold configureGNSS, configureGNSS_SBAS, configureGNSS_GALILEO,
    gnss_config, sizeof_ubx_gnss_msg_t, sizeof_ubx_gnss_element_t,
    GNSS_gnssId, GNSS_resTrkCh, GNSS_maxTrkCh, GNSS_enabled, GNSS_sigCfgMask.
  cbv zeta. fields.
  destruct (capGalileo s) eqn:Hcap, (decide (sbasMode cfg = SBAS_NONE)),
    (ubloxUseGalileo cfg); fields; encoder_offsets.
  all: apply sendConfigMessageUBLOX_sends;
    [ fields; reflexivity
    | fields; reflexivity
    | unfold fits_send_buffer, sizeof_send_buffer, is_byte; fields;
      encoder_offsets; rd_wr; literal_bytes; lia ].
Qed.

Lemma got_ack_awaits : awaits_the_answer got_ack.
Proof.
  unfold got_ack. split; intros s ->; [reflexivity|].
  apply bool_decide_eq_true. reflexivity.
Qed.

Lemma got_ack_or_nak_awaits : awaits_the_answer got_ack_or_nak.
Proof.
  unfold got_ack_or_nak. split; intros s ->; reflexivity.
Qed.

Lemma gpsConfigure_stop_and_wait cfg : stop_and_wait (gpsConfigure cfg).
Proof.
  unfold gpsConfigure, gpsConfigure_SBAS, gpsConfigure_GNSS, pt_if, pt_seq.
  cbn [foldr].
  repeat match goal with
         | |- stop_and_wait PtEnd => apply sw_end
         | |- stop_and_wait (PtIf _ _ _) => apply sw_if
         | |- stop_and_wait (PtDo _ (PtWait _ _)) => apply sw_command
         | |- stop_and_wait (PtDo _ (PtWaitTimeout _ _ _)) => apply sw_command_timeout
         | |- awaits_the_answer got_ack => apply got_ack_awaits
         | |- awaits_the_answer got_ack_or_nak => apply got_ack_or_nak_awaits
         | |- sends_one_command (configureMSG _ _ _) => apply configureMSG_sends
         | |- sends_one_command (configureRATE _) => apply configureRATE_sends
         | |- sends_one_command (configureSBAS _) => apply configureSBAS_sends
         | |- sends_one_command (configureGNSS _) => apply configureGNSS_sends
         end.
  - destruct (dynModel cfg); apply configureNAV5_sends.
  - intros s.
    destruct (bool_decide (provider cfg = GPS_UBLOX7PLUS)
              && (UBX_HW_VERSION_UBLOX7 <=? hwVersion s));
      apply configureRATE_sends.
Qed.

Lemma pt_resume_stop_and_wait p :
  stop_and_wait p -> forall now s,
  let '(p', s') := pt_resume now p s in
  (p' = PtEnd /\ s' = s)
  \/ (suspended p' /\ _ack_state s' = UBX_ACK_WAITING
      /\ exists f, gpsPort s' = gpsPort s ++ frame_bytes f).
Proof.
  induction 1 as [|a c k Ha Hc Hk _|a c timeoutMs k Ha Hc Hk _|c kt kf _ IHt _ IHf];
    intros now s; cbn [pt_resume].
  - left. split; reflexivity.
  - destruct (Ha s) as (Hf & Hw & _). rewrite (proj1 Hc (a s) Hw).
    right. split; [constructor; assumption|]. split; [exact Hw|exact Hf].
  - destruct (Ha s) as (Hf & Hw & _). rewrite (proj1 Hc (a s) Hw).
    right. split; [constructor; assumption|]. split; [exact Hw|exact Hf].
  - destruct (c s); [apply IHt|apply IHf].
Qed.

(** X19.  The sequencer is a stop-and-wait protocol.  In [gpsConfigure]
    every command is followed by the checkpoint that awaits its answer; so
    an activation of the thread sends one command at most, a command is sent
    only from the start or past a checkpoint, it leaves the thread suspended
    at the checkpoint of that command with the answer awaited, and an
    untimed checkpoint is not passed while the answer is awaited. *)
Theorem sequencer_sends_one_command_at_a_time cfg :
  stop_and_wait (gpsConfigure cfg)
  /\ (forall p now s,
        stop_and_wait p ->
        let '(p', s') := pt_resume now p s in
        (p' = PtEnd /\ s' = s)
        \/ (suspended p' /\ _ack_state s' = UBX_ACK_WAITING
            /\ exists f, gpsPort s' = gpsPort s ++ frame_bytes f))
  /\ (forall p now s,
        suspended p ->
        let '(p', s') := pt_resume now p s in
        (p' = p /\ s' = s) \/ (p' = PtEnd /\ s' = s)
        \/ (suspended p' /\ _ack_state s' = UBX_ACK_WAITING
            /\ exists f, gpsPort s' = gpsPort s ++ frame_bytes f))
  /\ (forall c k now s,
        awaits_the_answer c -> _ack_state s = UBX_ACK_WAITING ->
        pt_resume now (PtWait c k) s = (PtWait c k, s)).
Proof.
  split; [apply gpsConfigure_stop_and_wait|]. split; [|split].
  - intros p now s Hp. apply pt_resume_stop_and_wait, Hp.
  - intros p now s Hp. destruct Hp as [c k Hc Hk|c startTime delayTime k Hc Hk];
      cbn [pt_resume].
    + destruct (c s).
      * pose proof (pt_resume_stop_and_wait k Hk now s) as Hr.
        destruct (pt_resume now k s) as [p' s']. tauto.
      * left. split; reflexivity.
    + destruct (c s || (delayTime <? now - startTime)).
      * pose proof (pt_resume_stop_and_wait k Hk now s) as Hr.
        destruct (pt_resume now k s) as [p' s']. tauto.
      * left. split; reflexivity.
  - intros c k now s Hc Hw. cbn [pt_resume]. rewrite (proj1 Hc s Hw). reflexivity.
Qed.

Lemma frame_accepted_step f s : _step (frame_accepted f s) = 0.
Proof.
  unfold frame_accepted. destruct (_update_checksum _ 0 0). cbv zeta. fields.
  reflexivity.
Qed.

(** The receiver acknowledges the command that was sent last. *)
Lemma acknowledged t :
  _step t = 0 -> _ack_state t = UBX_ACK_WAITING ->
  _ack_waiting_msg t = rd (send_buffer t) HDR_MSG_ID ->
  _ack_state (fst (feed (frame_bytes (ack_frame t)) t)) = UBX_ACK_GOT_ACK
  /\ _step (fst (feed (frame_bytes (ack_frame t)) t)) = 0.
Proof.
  intros E Hw Hm.
  assert (Hcls : is_byte (frame_class (ack_frame t)))
    by (unfold is_byte, ack_frame, frame_class, CLASS_ACK; lia).
  assert (Hlen : Z.of_nat (length (frame_payload (ack_frame t))) <= MAX_UBLOX_PAYLOAD_SIZE)
    by (unfold ack_frame, frame_payload, MAX_UBLOX_PAYLOAD_SIZE; cbn [length]; lia).
  rewrite (feed_frame_state (ack_frame t) t E Hcls Hlen).
  destruct (frame_accepted_fields (ack_frame t) t)
    as (_ & Hi & _ & Hb & Hst & Hwm & _).
  destruct (gpsParceFrameUBLOX_decoder (frame_accepted (ack_frame t) t)) as (Hs & _).
  split; [|rewrite Hs; apply frame_accepted_step].
  destruct (ack_frame_outcome (frame_accepted (ack_frame t) t)) as [Hgot _];
    [congruence|].
  rewrite (Hgot Hi), Hb, Hwm, Hm.
  unfold ack_frame, frame_payload, ack_msg. cbn [store_bytes].
  rewrite rd_wr_eq by lia. rewrite Z.eqb_refl. reflexivity.
Qed.

Lemma run_acknowledged_ended n : forall now s,
  fst (run_acknowledged n now PtEnd s) = PtEnd.
Proof.
  induction n as [|n IH]; intros now s; cbn [run_acknowledged pt_resume];
    [reflexivity|apply IH].
Qed.

(** Past a checkpoint whose condition holds, the run is the run of the
    rest of the thread. *)
Lemma run_acknowledged_passes n now c k s :
  c s = true ->
  run_acknowledged (S n) now (PtWait c k) s = run_acknowledged (S n) now k s.
Proof. intros Hc. cbn [run_acknowledged pt_resume]. rewrite Hc. reflexivity. Qed.

Lemma run_acknowledged_passes_timed n now c startTime delayTime k s :
  c s = true ->
  run_acknowledged (S n) now (PtWaiting c startTime delayTime k) s
  = run_acknowledged (S n) now k s.
Proof.
  intros Hc. cbn [run_acknowledged pt_resume]. rewrite Hc. reflexivity.
Qed.

Lemma run_acknowledged_ends p :
  stop_and_wait p -> forall n now s,
  _step s = 0 -> (pt_depth p < n)%nat ->
  fst (run_acknowledged n now p s) = PtEnd.
Proof.
  induction 1 as [|a c k Ha Hc Hk IH|a c timeoutMs k Ha Hc Hk IH|c kt kf _ IHt _ IHf];
    intros n now s E Hn.
  - apply run_acknowledged_ended.
  - cbn [pt_depth] in Hn. destruct n as [|n]; [lia|].
    destruct (Ha s) as (_ & Hw & Hm & Hs).
    cbn [run_acknowledged pt_resume]. rewrite (proj1 Hc (a s) Hw).
    destruct (acknowledged (a s)) as [Hgot E1]; [congruence|assumption..|].
    destruct n as [|n]; [lia|].
    rewrite run_acknowledged_passes by (apply (proj2 Hc); exact Hgot).
    apply IH; [exact E1|lia].
  - cbn [pt_depth] in Hn. destruct n as [|n]; [lia|].
    destruct (Ha s) as (_ & Hw & Hm & Hs).
    cbn [run_acknowledged pt_resume]. rewrite (proj1 Hc (a s) Hw).
    destruct (acknowledged (a s)) as [Hgot E1]; [congruence|assumption..|].
    destruct n as [|n]; [lia|].
    rewrite run_acknowledged_passes_timed by (apply (proj2 Hc); exact Hgot).
    apply IH; [exact E1|lia].
  - cbn [pt_depth] in Hn. destruct n as [|n]; [lia|].
    assert (Hstep : run_acknowledged (S n) now (PtIf c kt kf) s
                    = run_acknowledged (S n) now (if c s then kt else kf) s).
    { cbn [run_acknowledged pt_resume]. destruct (c s); reflexivity. }
    rewrite Hstep. destruct (c s); [apply IHt|apply IHf]; first [exact E | lia].
Qed.

Lemma gpsConfigure_depth cfg : pt_depth (gpsConfigure cfg) = 17%nat.
Proof. reflexivity. Qed.

(** X20.  With a receiver that acknowledges every command, the thread
    [gpsConfigure] runs to its end within 18 activations, whatever the
    configuration, the detected hardware version and the rest of the
    driver's state: no path through it sends more than 17 commands. *)
Theorem acknowledged_configuration_completes cfg now s :
  _step s = 0 ->
  fst (run_acknowledged 18 now (gpsConfigure cfg) s) = PtEnd
  /\ pt_depth (gpsConfigure cfg) = 17%nat.
Proof.
  intros E. split; [|apply gpsConfigure_depth].
  apply run_acknowledged_ends.
  - apply gpsConfigure_stop_and_wait.
  - exact E.
  - rewrite gpsConfigure_depth. lia.
Qed.

(** ** Frames in sequence *)

Lemma bytes_at_store_bytes_mid pre l post b :
  bytes_at (store_bytes (pre ++ l ++ post) 0 b)
           (Z.of_nat (length pre)) (Z.of_nat (length l)) = l.
Proof.
  apply list_eq. intros k. unfold bytes_at. rewrite list_lookup_fmap.
  destruct (l !! k) as [x|] eqn:Hk.
  - pose proof (lookup_lt_Some _ _ _ Hk) as Hlt.
    rewrite lookup_seqZ_lt by lia. cbn [fmap option_fmap option_map].
    rewrite rd_store_bytes_in by (rewrite !length_app; lia).
    replace (Z.to_nat (Z.of_nat (length pre) + Z.of_nat k - 0))
      with (length pre + k)%nat by lia.
    rewrite app_nth2_plus, app_nth1 by exact Hlt.
    f_equal. apply nth_lookup_Some with (d := 0) in Hk. exact Hk.
  - pose proof (lookup_ge_None_1 _ _ Hk) as Hge.
    rewrite lookup_seqZ_ge by lia. reflexivity.
Qed.

Lemma gpsParceFrameUBLOX_version s :
  _msg_id s = MSG_VER -> _class s = CLASS_MON ->
  hwVersion (fst (gpsParceFrameUBLOX s))
  = hardware_version_table (c_string_of (ver_hwVersion (_buffer s))).
Proof.
  intros E Hcls. mapper_at E. rewrite Hcls.
  change (CLASS_MON =? CLASS_MON) with true. cbv iota. fields.
  rewrite decode_matches_table by lia.
  destruct ((_ <=? _) && (_ <? _)); [destruct (scan_extensions _ _ _ _)|];
    fields; destruct (_new_position s && _new_speed s); fields; reflexivity.
Qed.

(** X21.  The version reply from the wire to the detected version: a
    frame of the monitoring class with the version id, whose payload is a
    30-byte software version followed by a 10-byte hardware version, sets
    the detected version to the tier of the hardware-version string, and to
    unknown when the string is not one of the table; the version stays
    unknown exactly in that case. *)
Theorem version_reply_from_wire_to_tier s swVersion hwVersionText extensions :
  _step s = 0 -> length swVersion = 30%nat -> length hwVersionText = 10%nat ->
  Z.of_nat (length extensions) <= 216 ->
  let f := Build_ubx_frame CLASS_MON MSG_VER
             (swVersion ++ hwVersionText ++ extensions) in
  hwVersion (fst (feed (frame_bytes f) s))
  = hardware_version_table (c_string_of hwVersionText)
  /\ (hwVersion (fst (feed (frame_bytes f) s)) <> UBX_HW_VERSION_UNKNOWN <->
      c_string_of hwVersionText ∈ hardware_version_strings).
Proof.
  intros E Hsw Hhw Hext. cbv zeta.
  set (payload := swVersion ++ hwVersionText ++ extensions).
  assert (Hcls : is_byte (frame_class (Build_ubx_frame CLASS_MON MSG_VER payload)))
    by (unfold is_byte, frame_class, CLASS_MON; lia).
  assert (Hlen : Z.of_nat (length (frame_payload (Build_ubx_frame CLASS_MON MSG_VER payload)))
                 <= MAX_UBLOX_PAYLOAD_SIZE).
  { cbn [frame_payload]. subst payload. rewrite !length_app, Hsw, Hhw.
    unfold MAX_UBLOX_PAYLOAD_SIZE. lia. }
  rewrite (feed_frame_state _ s E Hcls Hlen).
  destruct (frame_accepted_fields (Build_ubx_frame CLASS_MON MSG_VER payload) s)
    as (Hc & Hi & _ & Hb & _).
  rewrite (gpsParceFrameUBLOX_version _ Hi Hc), Hb.
  cbn [frame_payload]. unfold ver_hwVersion. subst payload.
  pose proof (bytes_at_store_bytes_mid swVersion hwVersionText extensions (_buffer s))
    as Hmid.
  rewrite Hsw, Hhw in Hmid. change (Z.of_nat 30) with 30 in Hmid.
  change (Z.of_nat 10) with 10 in Hmid. rewrite Hmid.
  split; [reflexivity|].
  unfold hardware_version_table, hardware_version_strings.
  rewrite !elem_of_cons, elem_of_nil.
  repeat (destruct (decide _) as [->|?]; [split; [tauto|discriminate]|]).
  split; [congruence|tauto].
Qed.

(** X22.  The mapper does not look at the length of a payload: it reads
    the fields of the message at their offsets in the receive buffer,
    whatever the frame brought.  So a position frame with an empty payload
    is accepted like any other, and publishes as longitude and latitude the
    bytes that the frame before it left at offsets 4 and 8 of the buffer. *)
Theorem short_frame_publishes_the_bytes_of_the_frame_before f class s :
  _step s = 0 -> is_byte (frame_class f) -> is_byte class ->
  Z.of_nat (length (frame_payload f)) <= MAX_UBLOX_PAYLOAD_SIZE ->
  let short := Build_ubx_frame class MSG_POSLLH [] in
  let s1 := fst (feed (frame_bytes f) s) in
  let s2 := fst (feed (frame_bytes short) s1) in
  let left_over := store_bytes (frame_payload f) 0 (_buffer s) in
  packetCount s2 = packetCount s + 2 /\ errors s2 = errors s
  /\ llh_lon (gpsSol s2) = posllh_longitude left_over
  /\ llh_lat (gpsSol s2) = posllh_latitude left_over.
Proof.
  intros E Hcls Hcls' Hlen. cbv zeta.
  set (short := Build_ubx_frame class MSG_POSLLH []).
  rewrite (feed_frame_state f s E Hcls Hlen).
  destruct (frame_accepted_fields f s) as (_ & _ & _ & Hb & _).
  destruct (frame_accepted_counters f s) as [He Hp].
  destruct (gpsParceFrameUBLOX_decoder (frame_accepted f s))
    as (Hs1 & _ & Hb1 & He1 & Hp1 & _).
  set (s1 := fst (gpsParceFrameUBLOX (frame_accepted f s))) in *.
  assert (E1 : _step s1 = 0) by (rewrite Hs1; apply frame_accepted_step).
  assert (Hlen' : Z.of_nat (length (frame_payload short)) <= MAX_UBLOX_PAYLOAD_SIZE)
    by (cbn; discriminate).
  rewrite (feed_frame_state short s1 E1 Hcls' Hlen').
  destruct (frame_accepted_fields short s1) as (_ & Hi2 & _ & Hb2 & _).
  destruct (frame_accepted_counters short s1) as [He2 Hp2].
  destruct (gpsParceFrameUBLOX_decoder (frame_accepted short s1))
    as (_ & _ & _ & He3 & Hp3 & _).
  destruct (gpsParceFrameUBLOX_posllh (frame_accepted short s1) Hi2)
    as (M1 & M2 & _).
  rewrite He3, Hp3, He2, Hp2, He1, Hp1, He, Hp, M1, M2, Hb2.
  cbn [frame_payload short store_bytes]. rewrite Hb1, Hb.
  repeat split; try reflexivity. lia.
Qed.

End UBLOX.

(** * The model on concrete inputs *)

#[local] Existing Instance gps_private_clamp.

(** Settle a closed numeric side condition by evaluation. *)
Ltac evaluated := vm_compute; first [reflexivity | discriminate].



Lemma ack_matches_on_message_id_witness :
  _ack_state example_awaiting = UBX_ACK_WAITING
  /\ _msg_id example_awaiting = MSG_ACK_ACK
  /\ _ack_state (fst (gpsParceFrameUBLOX example_awaiting)) = UBX_ACK_GOT_ACK.
Proof.
  split; [reflexivity|]. split; [reflexivity|].
  exact (proj1 (ack_matches_on_message_id example_awaiting eq_refl) eq_refl).
Defined.


Lemma oversized_length_is_discarded_witness :
  (_step example_init = 0 /\ is_byte 0x48 /\ is_byte 0x01
   /\ MAX_UBLOX_PAYLOAD_SIZE < 0x48 + 256 * 0x01
   /\ errors (fst (feed [PREAMBLE1; PREAMBLE2; CLASS_NAV; MSG_SVINFO; 0x48; 0x01]
                        example_init)) = 1)
  /\ (MAX_UBLOX_PAYLOAD_SIZE <= 300
      /\ _buffer (fst (feed (frame_bytes example_pvt) example_init)) !! 300 = None).
Proof.
  split.
  - assert (Hlo : is_byte 0x48) by (unfold is_byte; lia).
    assert (Hhi : is_byte 0x01) by (unfold is_byte; lia).
    assert (Hlen : MAX_UBLOX_PAYLOAD_SIZE < 0x48 + 256 * 0x01) by reflexivity.
    split; [reflexivity|]. split; [exact Hlo|]. split; [exact Hhi|].
    split; [exact Hlen|].
    exact (proj1 (proj2 (proj1 (proj2 oversized_length_is_discarded)
                           example_init CLASS_NAV MSG_SVINFO 0x48 0x01
                           eq_refl Hlo Hhi Hlen))).
  - assert (Hk : MAX_UBLOX_PAYLOAD_SIZE <= 300) by discriminate.
    split; [exact Hk|].
    exact (proj2 (proj2 (proj2 oversized_length_is_discarded))
             (frame_bytes example_pvt) example_init 300 Hk).
Defined.

Lemma skip_packet_clear_at_checksum_b_witness :
  (reachable example_cfg (fst (feed (frame_bytes_but_last example_pvt) example_init))
   /\ _step (fst (feed (frame_bytes_but_last example_pvt) example_init)) = 8
   /\ _skip_packet (fst (feed (frame_bytes_but_last example_pvt) example_init)) = false)
  /\ (_step example_init = 0 /\ is_byte (frame_class example_pvt)
      /\ Z.of_nat (length (frame_payload example_pvt)) <= MAX_UBLOX_PAYLOAD_SIZE
      /\ feed (frame_bytes example_pvt) example_init =
         (fst (gpsParceFrameUBLOX (frame_accepted example_pvt example_init)),
          replicate (7 + length (frame_payload example_pvt)) false
          ++ [snd (gpsParceFrameUBLOX (frame_accepted example_pvt example_init))])).
Proof.
  split.
  - assert (Hr : reachable example_cfg
                   (fst (feed (frame_bytes_but_last example_pvt) example_init))).
    { apply reachable_feed; [apply reach_init|]. vm_compute. reflexivity. }
    assert (Hs : _step (fst (feed (frame_bytes_but_last example_pvt) example_init)) = 8)
      by (vm_compute; reflexivity).
    split; [exact Hr|]. split; [exact Hs|].
    exact (proj1 (proj1 skip_packet_clear_at_checksum_b example_cfg _ Hr Hs)).
  - assert (Hc : is_byte (frame_class example_pvt))
      by (unfold is_byte, example_pvt, frame_class, CLASS_NAV; lia).
    assert (Hl : Z.of_nat (length (frame_payload example_pvt)) <= MAX_UBLOX_PAYLOAD_SIZE)
      by (vm_compute; discriminate).
    split; [reflexivity|]. split; [exact Hc|]. split; [exact Hl|].
    exact (proj2 skip_packet_clear_at_checksum_b example_pvt example_init eq_refl Hc Hl).
Defined.

Lemma epoch_completion_needs_position_and_velocity_witness :
  (_msg_id (frame_accepted example_pvt example_init) = MSG_PVT
   /\ snd (gpsParceFrameUBLOX (frame_accepted example_pvt example_init)) = true)
  /\ (_new_position example_init = false /\ _new_speed example_init = false
      /\ forallb (fun f => negb (velocity_bearing f))
           [example_status; example_posllh CLASS_NAV; example_timeutc 3] = true
      /\ Forall (fun r => r = false)
           (snd (parse_frames [example_status; example_posllh CLASS_NAV; example_timeutc 3]
                              example_init))).
Proof.
  split.
  - split; [reflexivity|].
    exact (proj2 (proj2 (proj1 (proj2 (proj2 epoch_completion_needs_position_and_velocity))
                          (frame_accepted example_pvt example_init) eq_refl))).
  - split; [reflexivity|]. split; [reflexivity|]. split; [reflexivity|].
    exact (proj2 (proj2 (proj2 epoch_completion_needs_position_and_velocity))
             [example_status; example_posllh CLASS_NAV; example_timeutc 3]
             example_init eq_refl eq_refl (or_intror eq_refl)).
Defined.

Lemma gpsDecodeHardwareVersion_exact_match_witness :
  9 <= 10
  /\ gpsDecodeHardwareVersion (c_str "00080000") 10 = UBX_HW_VERSION_UBLOX8
  /\ gpsDecodeHardwareVersion (c_str "FFFFFFFF") 10 = UBX_HW_VERSION_UNKNOWN
  /\ gpsDecodeHardwareVersion (c_str "000800001") 10 = UBX_HW_VERSION_UNKNOWN.
Proof.
  assert (Hn : 9 <= 10) by discriminate.
  split; [exact Hn|]. split; [|split].
  - exact (proj1 (gpsDecodeHardwareVersion_exact_match (c_str "00080000") 10 Hn)).
  - exact (proj1 (proj2 (proj2 (proj2
             (gpsDecodeHardwareVersion_exact_match (c_str "00080000") 10 Hn))))).
  - exact (proj1 (gpsDecodeHardwareVersion_exact_match (c_str "000800001") 10 Hn)).
Defined.


(** An 8th-generation receiver that acknowledges every command: the thread
    [gpsConfigure] runs to its end, the last command it sent is the SBAS
    configuration, and the 16 commands it sent make 217 bytes; no GNSS
    configuration is among them. *)
Lemma acknowledging_m8_gets_no_gnss_configuration :
  pt_ended (fst (run_acknowledged 40 0 (gpsConfigure example_cfg)
                   (set_hwVersion UBX_HW_VERSION_UBLOX8 example_init))) = true
  /\ rd (send_buffer (snd (run_acknowledged 40 0 (gpsConfigure example_cfg)
                             (set_hwVersion UBX_HW_VERSION_UBLOX8 example_init))))
        HDR_MSG_ID = MSG_CFG_SBAS
  /\ length (gpsPort (snd (run_acknowledged 40 0 (gpsConfigure example_cfg)
                             (set_hwVersion UBX_HW_VERSION_UBLOX8 example_init))))
     = 217%nat.
Proof. vm_compute. repeat split; reflexivity. Qed.

(** The end-to-end example of the specification: the bytes of a combined
    frame give a published 3D solution. *)
Lemma combined_frame_end_to_end :
  let '(s, rs) := feed (frame_bytes example_pvt) example_init in
  last rs = Some true /\ fixType (gpsSol s) = GPS_FIX_3D
  /\ llh_lon (gpsSol s) = 1000000000 /\ llh_lat (gpsSol s) = 500000000
  /\ llh_alt (gpsSol s) = 10000 /\ numSat (gpsSol s) = 9
  /\ eph (gpsSol s) = 20 /\ flags_validTime (gpsSol s) = true
  /\ _new_position s = false /\ _new_speed s = false.
Proof. vm_compute. repeat split; reflexivity. Qed.

(** * The further properties on concrete inputs *)


Lemma sent_command_is_accepted_witness :
  fits_send_buffer example_command
  /\ is_byte (rd (send_buffer example_command) HDR_MSG_CLASS)
  /\ _step example_init = 0
  /\ sent_by sendConfigMessageUBLOX example_command
     = frame_bytes (send_frame example_command).
Proof.
  assert (Hfit : fits_send_buffer example_command)
    by (unfold fits_send_buffer, is_byte; repeat split; evaluated).
  assert (Hcls : is_byte (rd (send_buffer example_command) HDR_MSG_CLASS))
    by (unfold is_byte; split; evaluated).
  split; [exact Hfit|]. split; [exact Hcls|]. split; [reflexivity|].
  exact (proj1 (sent_command_is_accepted example_command example_init
                  Hfit Hcls eq_refl)).
Defined.

Lemma commands_stay_in_the_send_buffer_witness :
  sequencer_action example_cfg (configureMSG MSG_CLASS_UBX MSG_PVT 1)
  /\ (50 < 0 \/ 44 <= 50)
  /\ send_buffer (configureMSG MSG_CLASS_UBX MSG_PVT 1 example_init) !! 50
     = send_buffer example_init !! 50.
Proof.
  assert (Ha : sequencer_action example_cfg (configureMSG MSG_CLASS_UBX MSG_PVT 1))
    by constructor.
  assert (Hk : 50 < 0 \/ 44 <= 50) by (right; discriminate).
  split; [exact Ha|]. split; [exact Hk|].
  exact (proj1 (commands_stay_in_the_send_buffer example_cfg _ example_init Ha) 50 Hk).
Defined.

Lemma checksum_detects_single_errors_witness :
  (is_byte 0 /\ is_byte 0 /\ is_byte 1 /\ is_byte 2 /\ 1 <> 2)
  /\ fst (_update_checksum ([3] ++ 1 :: [4]) 0 0)
     <> fst (_update_checksum ([3] ++ 2 :: [4]) 0 0).
Proof.
  assert (H0 : is_byte 0) by (unfold is_byte; lia).
  assert (H1 : is_byte 1) by (unfold is_byte; lia).
  assert (H2 : is_byte 2) by (unfold is_byte; lia).
  assert (Hne : 1 <> 2) by discriminate.
  split; [exact (conj H0 (conj H0 (conj H1 (conj H2 Hne))))|].
  exact (proj1 (checksum_detects_single_errors [3] [4] 1 2 0 0 H0 H0 H1 H2 Hne)).
Defined.

Lemma noise_in_sync_search_is_ignored_witness :
  _step example_init = 0
  /\ Forall (fun d => d <> PREAMBLE1) [0x24; 0x47; 0x50]
  /\ feed [0x24; 0x47; 0x50] example_init = (example_init, replicate 3 false).
Proof.
  assert (Hn : Forall (fun d => d <> PREAMBLE1) [0x24; 0x47; 0x50])
    by (repeat constructor; discriminate).
  split; [reflexivity|]. split; [exact Hn|].
  exact (proj1 (noise_in_sync_search_is_ignored [0x24; 0x47; 0x50] example_init
                  eq_refl Hn)).
Defined.

Lemma frame_after_a_stray_sync_byte_is_lost_witness :
  _step example_init = 0
  /\ Forall (fun d => d <> PREAMBLE1) (drop 1 (frame_bytes example_status))
  /\ snd (feed (PREAMBLE1 :: frame_bytes example_status) example_init)
     = replicate (S (length (frame_bytes example_status))) false.
Proof.
  assert (Hn : Forall (fun d => d <> PREAMBLE1) (drop 1 (frame_bytes example_status))).
  { let l := eval vm_compute in (drop 1 (frame_bytes example_status)) in
    change (drop 1 (frame_bytes example_status)) with l.
    repeat constructor; discriminate. }
  split; [reflexivity|]. split; [exact Hn|].
  rewrite (frame_after_a_stray_sync_byte_is_lost example_status example_init eq_refl Hn).
  reflexivity.
Defined.

Lemma frame_with_a_bad_checksum_is_dropped_witness :
  (_step example_init = 0 /\ is_byte (frame_class example_status)
   /\ Z.of_nat (length (frame_payload example_status)) <= MAX_UBLOX_PAYLOAD_SIZE
   /\ 0 <> fst (_update_checksum (frame_body example_status) 0 0))
  /\ errors (fst (feed (([PREAMBLE1; PREAMBLE2] ++ frame_body example_status) ++ [0])
                       example_init))
     = errors example_init + 1.
Proof.
  assert (Hc : is_byte (frame_class example_status))
    by (unfold is_byte; split; evaluated).
  assert (Hl : Z.of_nat (length (frame_payload example_status)) <= MAX_UBLOX_PAYLOAD_SIZE)
    by evaluated.
  assert (Hb : 0 <> fst (_update_checksum (frame_body example_status) 0 0))
    by evaluated.
  split; [exact (conj eq_refl (conj Hc (conj Hl Hb)))|].
  exact (proj1 (proj2 (proj1 (frame_with_a_bad_checksum_is_dropped
                                example_status example_init 0 eq_refl Hc Hl) Hb))).
Defined.

Lemma frame_with_a_corrupted_payload_byte_is_dropped_witness :
  (_step example_init = 0 /\ is_byte (frame_class example_status)
   /\ Z.of_nat (length (frame_payload example_status)) <= MAX_UBLOX_PAYLOAD_SIZE
   /\ frame_payload example_status !! 4%nat = Some 0
   /\ is_byte 0 /\ is_byte 3 /\ 0 <> 3)
  /\ errors (fst (feed (corrupted_frame_bytes example_status 4 3) example_init))
     = errors example_init + 1.
Proof.
  assert (Hc : is_byte (frame_class example_status))
    by (unfold is_byte; split; evaluated).
  assert (Hl : Z.of_nat (length (frame_payload example_status)) <= MAX_UBLOX_PAYLOAD_SIZE)
    by evaluated.
  assert (Hi : frame_payload example_status !! 4%nat = Some 0) by reflexivity.
  assert (H0 : is_byte 0) by (unfold is_byte; lia).
  assert (H3 : is_byte 3) by (unfold is_byte; lia).
  assert (Hne : 0 <> 3) by discriminate.
  split; [exact (conj eq_refl (conj Hc (conj Hl (conj Hi (conj H0 (conj H3 Hne))))))|].
  exact (proj1 (frame_with_a_corrupted_payload_byte_is_dropped
                  example_status example_init 4 0 3 eq_refl Hc Hl Hi H0 H3 Hne)).
Defined.

Lemma nothing_is_published_before_the_checksum_matches_witness :
  (_step example_in_payload <> 8 \/ 0x55 <> _ck_b example_in_payload
   \/ _skip_packet example_in_payload = true)
  /\ snd (gpsNewFrameUBLOX 0x55 example_in_payload) = false
  /\ published (fst (gpsNewFrameUBLOX 0x55 example_in_payload))
     = published example_in_payload.
Proof.
  assert (Hs : _step example_in_payload <> 8) by evaluated.
  split; [left; exact Hs|].
  exact (nothing_is_published_before_the_checksum_matches 0x55 example_in_payload
           (or_introl Hs)).
Defined.

Lemma payload_bytes_are_all_stored_witness :
  (reachable example_cfg example_in_payload /\ _step example_in_payload = 6)
  /\ _buffer (fst (gpsNewFrameUBLOX 0x55 example_in_payload))
     = wr (_buffer example_in_payload) (_payload_counter example_in_payload) 0x55.
Proof.
  assert (Hr : reachable example_cfg example_in_payload).
  { unfold example_in_payload. apply reachable_feed; [apply reach_init|].
    vm_compute. reflexivity. }
  assert (Hs : _step example_in_payload = 6) by (vm_compute; reflexivity).
  split; [exact (conj Hr Hs)|].
  exact (proj1 (proj2 (proj2 (payload_bytes_are_all_stored
                                example_cfg example_in_payload 0x55 Hr Hs)))).
Defined.

Lemma fix_type_is_published_with_the_position_witness :
  (_msg_id (frame_accepted example_status_fix example_init) = MSG_STATUS
   /\ frame_id (example_posllh CLASS_NAV) = MSG_POSLLH)
  /\ fixType (gpsSol (fst (gpsParceFrameUBLOX
                             (frame_accepted example_status_fix example_init))))
     = GPS_NO_FIX
  /\ fixType (gpsSol (fst (gpsParceFrameUBLOX
                             (frame_accepted (example_posllh CLASS_NAV)
                                (fst (gpsParceFrameUBLOX
                                        (frame_accepted example_status_fix
                                           example_init)))))))
     = GPS_FIX_3D.
Proof.
  split; [split; reflexivity|].
  pose proof (fix_type_is_published_with_the_position
                (frame_accepted example_status_fix example_init)
                (example_posllh CLASS_NAV) (or_introl eq_refl) eq_refl) as Hw.
  cbv zeta in Hw. destruct Hw as (_ & H2 & H3 & _).
  vm_compute in H2, H3. vm_compute. exact (conj H2 H3).
Defined.

Lemma position_frame_from_wire_to_solution_witness :
  (_step example_init = 0 /\ is_byte CLASS_NAV
   /\ is_int32 (-1000000000) /\ is_int32 (-500000000) /\ is_int32 (-15)
   /\ is_uint32 2500 /\ is_uint32 4000)
  /\ llh_lon (gpsSol (fst (feed (frame_bytes example_posllh_negative) example_init)))
     = -1000000000
  /\ llh_lat (gpsSol (fst (feed (frame_bytes example_posllh_negative) example_init)))
     = -500000000
  /\ llh_alt (gpsSol (fst (feed (frame_bytes example_posllh_negative) example_init)))
     = -1.
Proof.
  assert (Hc : is_byte CLASS_NAV) by (unfold is_byte; split; evaluated).
  assert (H1 : is_int32 (-1000000000)) by (unfold is_int32; split; evaluated).
  assert (H2 : is_int32 (-500000000)) by (unfold is_int32; split; evaluated).
  assert (H3 : is_int32 (-15)) by (unfold is_int32; split; evaluated).
  assert (H4 : is_uint32 2500) by (unfold is_uint32; split; evaluated).
  assert (H5 : is_uint32 4000) by (unfold is_uint32; split; evaluated).
  split; [exact (conj eq_refl (conj Hc (conj H1 (conj H2 (conj H3 (conj H4 H5))))))|].
  destruct (position_frame_from_wire_to_solution example_init CLASS_NAV
              1000 (-1000000000) (-500000000) 30000 (-15) 2500 4000
              eq_refl Hc H1 H2 H3 H4 H5) as (L1 & L2 & L3 & _).
  exact (conj L1 (conj L2 L3)).
Defined.

Lemma combined_frame_from_wire_to_solution_witness :
  (_step example_init = 0 /\ is_byte CLASS_NAV /\ Z.of_nat (length (replicate 14 0)) <= 178
   /\ is_uint16 2024 /\ is_int32 (-123456789)
   /\ is_int32 (-1000000000) /\ is_int32 500000000 /\ is_int32 100000
   /\ is_uint32 200 /\ is_uint32 300
   /\ is_int32 400000 /\ is_int32 200 /\ is_int32 (-35)
   /\ is_int32 (-10000) /\ is_uint16 120)
  /\ last (snd (feed (frame_bytes example_pvt_wire) example_init)) = Some true
  /\ fixType (gpsSol (fst (feed (frame_bytes example_pvt_wire) example_init)))
     = GPS_FIX_3D
  /\ llh_lon (gpsSol (fst (feed (frame_bytes example_pvt_wire) example_init)))
     = -1000000000
  /\ velNED_X (gpsSol (fst (feed (frame_bytes example_pvt_wire) example_init)))
     = -25536
  /\ velNED_Z (gpsSol (fst (feed (frame_bytes example_pvt_wire) example_init))) = -3
  /\ groundSpeed (gpsSol (fst (feed (frame_bytes example_pvt_wire) example_init)))
     = -25536
  /\ groundCourse (gpsSol (fst (feed (frame_bytes example_pvt_wire) example_init)))
     = -1
  /\ time_millis (gpsSol (fst (feed (frame_bytes example_pvt_wire) example_init)))
     = 65413
  /\ flags_validTime (gpsSol (fst (feed (frame_bytes example_pvt_wire) example_init)))
     = true.
Proof.
  assert (Hc : is_byte CLASS_NAV) by (unfold is_byte; split; evaluated).
  assert (Hr : Z.of_nat (length (replicate 14 0)) <= 178) by evaluated.
  assert (Hy : is_uint16 2024) by (unfold is_uint16; split; evaluated).
  assert (Hn : is_int32 (-123456789)) by (unfold is_int32; split; evaluated).
  assert (H1 : is_int32 (-1000000000)) by (unfold is_int32; split; evaluated).
  assert (H2 : is_int32 500000000) by (unfold is_int32; split; evaluated).
  assert (H3 : is_int32 100000) by (unfold is_int32; split; evaluated).
  assert (H4 : is_uint32 200) by (unfold is_uint32; split; evaluated).
  assert (H5 : is_uint32 300) by (unfold is_uint32; split; evaluated).
  assert (V1 : is_int32 400000) by (unfold is_int32; split; evaluated).
  assert (V2 : is_int32 200) by (unfold is_int32; split; evaluated).
  assert (V3 : is_int32 (-35)) by (unfold is_int32; split; evaluated).
  assert (V5 : is_int32 (-10000)) by (unfold is_int32; split; evaluated).
  assert (Hd : is_uint16 120) by (unfold is_uint16; split; evaluated).
  split.
  { exact (conj eq_refl (conj Hc (conj Hr (conj Hy (conj Hn (conj H1 (conj H2
            (conj H3 (conj H4 (conj H5 (conj V1 (conj V2 (conj V3
            (conj V5 Hd)))))))))))))). }
  pose proof (combined_frame_from_wire_to_solution example_init CLASS_NAV
                1000 2024 6 15 12 34 56 3 50 (-123456789) FIX_3D 1 0 9
                (-1000000000) 500000000 105000 100000 200 300
                400000 200 (-35) 400000 (-10000) 100 100000 120 (replicate 14 0)
                eq_refl Hc Hr Hy Hn H1 H2 H3 H4 H5 V1 V2 V3 V1 V5 Hd) as Hw.
  vm_compute in Hw. vm_compute.
  destruct Hw as ((R & _) & (F & _) & (L & _)
                  & ((X & _) & _ & (Z & _) & (S & _) & (C & _) & _) & T).
  destruct T as (_ & _ & _ & _ & _ & _ & (M & _) & V).
  exact (conj R (conj F (conj L (conj X (conj Z (conj S (conj C (conj M V)))))))).
Defined.

Lemma version_reply_sets_version_and_capability_witness :
  (_msg_id (frame_accepted example_ver example_init) = MSG_VER
   /\ _class (frame_accepted example_ver example_init) = CLASS_MON
   /\ _payload_length (frame_accepted example_ver example_init) <= 250)
  /\ hwVersion (fst (gpsParceFrameUBLOX (frame_accepted example_ver example_init)))
     = UBX_HW_VERSION_UBLOX8
  /\ capGalileo (fst (gpsParceFrameUBLOX (frame_accepted example_ver example_init)))
     = true.
Proof.
  assert (Hin : _payload_length (frame_accepted example_ver example_init) <= 250)
    by evaluated.
  split; [exact (conj eq_refl (conj eq_refl Hin))|].
  destruct (proj1 (proj2 (version_reply_sets_version_and_capability
                            (frame_accepted example_ver example_init) eq_refl))
              eq_refl) as [Hhw Hcap].
  split.
  - rewrite Hhw. vm_compute. reflexivity.
  - apply (Hcap Hin). right. rewrite Hhw.
    split; [evaluated|]. split; [vm_compute; reflexivity|].
    exists 2. split; [evaluated|]. split; vm_compute; reflexivity.
Defined.

(** A version reply that fills the receive buffer: the last pass of the
    extension scan starts at offset 250 and finds ["GA"] at the end of the
    buffer, so that the byte behind the buffer decides whether the receiver
    counts as Galileo capable. *)
Lemma long_version_reply_reads_behind_the_buffer :
  _payload_length (frame_accepted example_ver_long example_init) = 256
  /\ capGalileo
       (fst (@gpsParceFrameUBLOX (gps_private_behind (fun _ => 0))
               (frame_accepted example_ver_long example_init))) = false
  /\ capGalileo
       (fst (@gpsParceFrameUBLOX
               (gps_private_behind
                  (fun k => if k =? 0 then Z.of_nat (nat_of_ascii "L") else 0))
               (frame_accepted example_ver_long example_init))) = true.
Proof. repeat split; vm_compute; reflexivity. Qed.

Lemma version_reply_from_wire_to_tier_witness :
  (_step example_init = 0
   /\ length (c_array 30 "ROM CORE 3.01 (107888)") = 30%nat
   /\ length (c_array 10 "00080000") = 10%nat
   /\ Z.of_nat (length (c_array 30 "FWVER=SPG 3.01")) <= 216)
  /\ hwVersion (fst (feed (frame_bytes
                             (Build_ubx_frame CLASS_MON MSG_VER
                                (c_array 30 "ROM CORE 3.01 (107888)"
                                 ++ c_array 10 "00080000"
                                 ++ c_array 30 "FWVER=SPG 3.01")))
                          example_init))
     = UBX_HW_VERSION_UBLOX8.
Proof.
  assert (Hl : Z.of_nat (length (c_array 30 "FWVER=SPG 3.01")) <= 216) by evaluated.
  split; [exact (conj eq_refl (conj eq_refl (conj eq_refl Hl)))|].
  rewrite (proj1 (version_reply_from_wire_to_tier example_init
                    (c_array 30 "ROM CORE 3.01 (107888)") (c_array 10 "00080000")
                    (c_array 30 "FWVER=SPG 3.01") eq_refl eq_refl eq_refl Hl)).
  vm_compute. reflexivity.
Defined.

Lemma short_frame_publishes_the_bytes_of_the_frame_before_witness :
  (_step example_init = 0 /\ is_byte (frame_class example_pvt) /\ is_byte CLASS_NAV
   /\ Z.of_nat (length (frame_payload example_pvt)) <= MAX_UBLOX_PAYLOAD_SIZE)
  /\ packetCount (fst (feed (frame_bytes (Build_ubx_frame CLASS_NAV MSG_POSLLH []))
                            (fst (feed (frame_bytes example_pvt) example_init))))
     = packetCount example_init + 2.
Proof.
  assert (Hc : is_byte (frame_class example_pvt)) by (unfold is_byte; split; evaluated).
  assert (Hc' : is_byte CLASS_NAV) by (unfold is_byte; split; evaluated).
  assert (Hl : Z.of_nat (length (frame_payload example_pvt)) <= MAX_UBLOX_PAYLOAD_SIZE)
    by evaluated.
  split; [exact (conj eq_refl (conj Hc (conj Hc' Hl)))|].
  exact (proj1 (short_frame_publishes_the_bytes_of_the_frame_before
                  example_pvt CLASS_NAV example_init eq_refl Hc Hc' Hl)).
Defined.

Lemma acknowledged_configuration_completes_witness :
  _step example_init = 0
  /\ fst (run_acknowledged 18 0 (gpsConfigure example_cfg) example_init) = PtEnd.
Proof.
  split; [reflexivity|].
  exact (proj1 (acknowledged_configuration_completes example_cfg 0 example_init eq_refl)).
Defined.
